(** * hvcsadmin: the parse / resolve / mutate engine of [scripts/hvcsadmin.py]

    A shallow embedding of the vty-server administration helper and the
    properties its specification states about it.

    Conventions of the embedding.
    - A Python [str] is a [string]; a character is an [ascii], read as the
      code point 0..255 it denotes.  The character classes below are the
      classes of Python's [re] for [str] patterns restricted to that range.
    - [re.match] and [re.search] are interpreted by a small backtracking
      matcher with greedy quantifiers and numbered groups, the fragment of
      [re] that the script uses.
    - The operating system is a parameter: a type of worlds with the
      primitives the script calls ([os.path.exists], [open], [os.listdir],
      the [systool] subprocess).  Every call is recorded in a log, so that
      "no write is performed" and "no resolution is attempted" are
      statements about that log.
    - The start of the script, the platform check and [main], is embedded
      as well.  The parser of the command line is a library of the
      interpreter: what it returns for a command line is a parameter, as
      are the path of the platform file and the limit of [int]. *)

From Stdlib Require Import String Ascii List Bool NArith ZArith Lia.
Import ListNotations.
Open Scope list_scope.
Open Scope string_scope.

(** ** Characters and character classes *)

Module CharClass.

Definition code (c : ascii) : N := N_of_ascii c.

Definition between (lo hi : N) (c : ascii) : bool :=
  (lo <=? code c)%N && (code c <=? hi)%N.

Definition is_code (n : N) (c : ascii) : bool := (code c =? n)%N.

Definition newline : ascii := ascii_of_N 10.

(** The double quote. *)
Definition dquote : ascii := ascii_of_N 34.

(** [\s] on a [str] pattern, and the characters [str.strip()] removes:
    TAB LF VT FF CR, FS GS RS US, space, NEL and NBSP. *)
Definition space (c : ascii) : bool :=
  between 9 13 c || between 28 32 c || is_code 133 c || is_code 160 c.

(** [\d] and [[0-9]]. *)
Definition digit (c : ascii) : bool := between 48 57 c.

(** [[0-9a-fA-F]]. *)
Definition xdigit (c : ascii) : bool :=
  digit c || between 97 102 c || between 65 70 c.

(** [\w]: alphanumeric code points and the underscore. *)
Definition word (c : ascii) : bool :=
  digit c || between 65 90 c || is_code 95 c || between 97 122 c
  || is_code 170 c || between 178 179 c || is_code 181 c || between 185 186 c
  || between 188 190 c || between 192 214 c || between 216 246 c
  || between 248 255 c.

(** [.] without DOTALL. *)
Definition dot (c : ascii) : bool := negb (is_code 10 c).

End CharClass.

(** ** The regular-expression fragment *)

Module Re.

Inductive item : Type :=
| Chr (c : ascii)               (* a literal character *)
| One (p : ascii -> bool)       (* one character of a class *)
| Star (p : ascii -> bool)      (* greedy [p*] *)
| Plus (p : ascii -> bool)      (* greedy [p+] *)
| Open                          (* [(] *)
| Close                         (* [)] *)
| Bol                           (* [^] *)
| Eol                           (* [$] *)
| Eos.                          (* the end of the subject *)

Definition pattern := list item.

(** Literal text inside a pattern. *)
Fixpoint lit (s : string) : pattern :=
  match s with
  | EmptyString => []
  | String c s' => Chr c :: lit s'
  end.

(** The text of the group being captured, if one is open. *)
Definition push (c : ascii) (cur : option string) : option string :=
  match cur with
  | Some acc => Some (acc ++ String c EmptyString)
  | None => None
  end.

Definition close (cur : option string) : string :=
  match cur with
  | Some acc => acc
  | None => EmptyString
  end.

(** [$] without MULTILINE: the end of the string, or just before a
    newline that ends the string. *)
Definition at_eol (s : string) : bool :=
  match s with
  | EmptyString => true
  | String c EmptyString => CharClass.is_code 10 c
  | _ => false
  end.

Section Star.
Context {R : Type}.
Variable p : ascii -> bool.
Variable k : bool -> string -> option string -> option R.

(** Greedy repetition: take one more character when the class allows
    it and the rest then matches, else stop here. *)
Fixpoint star (bos : bool) (s : string) (cur : option string) : option R :=
  match s with
  | String c s' =>
      if p c then
        match star false s' (push c cur) with
        | Some r => Some r
        | None => k bos s cur
        end
      else k bos s cur
  | EmptyString => k bos s cur
  end.

Definition plus (s : string) (cur : option string) : option R :=
  match s with
  | String c s' => if p c then star false s' (push c cur) else None
  | EmptyString => None
  end.
End Star.

(** [run pat bos s cur done]: match [pat] at the head of [s].  [bos] tells
    whether the head of [s] is the beginning of the subject, [cur] is the
    group being captured and [done] the groups already closed, last
    first.  The result lists the groups in order: group 1 first. *)
Fixpoint run (pat : pattern) (bos : bool) (s : string)
         (cur : option string) (done : list string) : option (list string) :=
  match pat with
  | [] => Some (rev done)
  | Chr c :: r =>
      match s with
      | String a s' => if Ascii.eqb a c then run r false s' (push a cur) done else None
      | EmptyString => None
      end
  | One p :: r =>
      match s with
      | String a s' => if p a then run r false s' (push a cur) done else None
      | EmptyString => None
      end
  | Star p :: r => star p (fun b t c => run r b t c done) bos s cur
  | Plus p :: r => plus p (fun b t c => run r b t c done) s cur
  | Open :: r => run r bos s (Some EmptyString) done
  | Close :: r => run r bos s None (close cur :: done)
  | Bol :: r => if bos then run r bos s cur done else None
  | Eol :: r => if at_eol s then run r bos s cur done else None
  | Eos :: r =>
      match s with
      | EmptyString => run r bos s cur done
      | String _ _ => None
      end
  end.

(** [re.match(pat, s)]: the groups of a match at the start of [s]. *)
Definition rmatch (pat : pattern) (s : string) : option (list string) :=
  run pat true s None [].

(** [re.search(pat, s)]: the groups of the leftmost match. *)
Fixpoint search_from (pat : pattern) (bos : bool) (s : string)
  : option (list string) :=
  match run pat bos s None [] with
  | Some g => Some g
  | None =>
      match s with
      | String _ s' => search_from pat false s'
      | EmptyString => None
      end
  end.

Definition search (pat : pattern) (s : string) : option (list string) :=
  search_from pat true s.

(** [re.fullmatch(pat, s)]: a match that ends at the end of [s]. *)
Definition fullmatch (pat : pattern) (s : string) : option (list string) :=
  rmatch (pat ++ [Eos])%list s.

(** [m.group(n)], for a group that took part in the match. *)
Definition group (n : nat) (g : list string) : string :=
  nth (n - 1) g EmptyString.

(** Every character of [s] is in the class [p]. *)
Fixpoint all (p : ascii -> bool) (s : string) : bool :=
  match s with
  | EmptyString => true
  | String c s' => p c && all p s'
  end.

(** The group being captured after [u] more characters. *)
Definition pushs (u : string) (cur : option string) : option string :=
  match cur with
  | Some acc => Some (acc ++ u)
  | None => None
  end.

(** The longest prefix in a class is dropped. *)
Fixpoint dropwhile (p : ascii -> bool) (s : string) : string :=
  match s with
  | String c s' => if p c then dropwhile p s' else s
  | EmptyString => EmptyString
  end.

End Re.


(** ** Python string helpers *)

Module Py.
Import CharClass.

(** [str.lstrip()], [str.rstrip()] and [str.strip()] with no argument. *)
Fixpoint lstrip (s : string) : string :=
  match s with
  | String c s' => if space c then lstrip s' else s
  | EmptyString => EmptyString
  end.

Fixpoint rstrip (s : string) : string :=
  match s with
  | String c s' =>
      match rstrip s' with
      | EmptyString => if space c then EmptyString else String c EmptyString
      | t => String c t
      end
  | EmptyString => EmptyString
  end.

Definition strip (s : string) : string := rstrip (lstrip s).

(** The line boundaries of [str.splitlines()] below code point 256:
    LF VT FF CR, FS GS RS and NEL; CR LF counts as one boundary. *)
Definition linebreak (c : ascii) : bool :=
  between 10 13 c || between 28 30 c || is_code 133 c.

Fixpoint splitlines_from (after_cr : bool) (acc s : string) : list string :=
  match s with
  | EmptyString =>
      match acc with
      | EmptyString => []
      | _ => [acc]
      end
  | String c s' =>
      if after_cr && is_code 10 c then splitlines_from false acc s'
      else if linebreak c then acc :: splitlines_from (is_code 13 c) EmptyString s'
      else splitlines_from false (acc ++ String c EmptyString) s'
  end.

Definition splitlines (s : string) : list string :=
  splitlines_from false EmptyString s.

Definition endswith_slash (a : string) : bool :=
  match String.get (String.length a - 1) a with
  | Some c => Ascii.eqb c "/"
  | None => false
  end.

(** [os.path.join(a, b)] of [posixpath]. *)
Definition path_join (a b : string) : string :=
  if String.prefix "/" b then b
  else if (a =? EmptyString) || endswith_slash a then a ++ b
  else a ++ "/" ++ b.

(** [sorted] on a list of [str]: insertion by code-point order. *)
Fixpoint insert_sorted (x : string) (l : list string) : list string :=
  match l with
  | [] => [x]
  | y :: l' => if String.leb x y then x :: l else y :: insert_sorted x l'
  end.

Definition sorted (l : list string) : list string :=
  fold_right insert_sorted [] l.

(** [s or d] on strings. *)
Definition or_else (s d : string) : string :=
  match s with
  | EmptyString => d
  | _ => s
  end.

(** A value between double quotes. *)
Definition quoted (s : string) : string :=
  String dquote (s ++ String dquote EmptyString).

End Py.

(** ** The operating system as seen by the script *)

Inductive stream : Type := Stdout | Stderr.

(** What the script does to its environment, in order. *)
Inductive event : Type :=
| EvPrint (to : stream) (text : string)
| EvRun (cmd : string)
| EvListdir (path : string)
| EvExists (path : string)
| EvRead (path : string)
| EvWrite (path : string) (data : string).

(** The result of a subprocess: return code, standard output and standard
    error, as [proc.communicate()] and [proc.returncode] give them. *)
Record completed : Type := Completed {
  returncode : Z;
  stdout : string;
  stderr : string
}.

(** What [subprocess.Popen] followed by [communicate] gives: a completed
    process, or the exception [e] that [Popen] raised. *)
Inductive popen : Type :=
| Started (proc : completed)
| PopenError (e : string).

(** The primitives.  [run_command] is a [PopenError] when [subprocess.Popen]
    raises; [read_file] is [None] when [open] or [read] raises;
    [write_file] returns whether [open(path, 'w')] and [write] went through
    and the world afterwards, which need not hold the data written: the
    files are attributes of a driver.  [listdir] is [None] when
    [os.listdir] raises. *)
Class Platform (World : Type) : Type := {
  run_command : World -> string -> popen;
  listdir : World -> string -> option (list string);
  path_exists : World -> string -> bool;
  read_file : World -> string -> option string;
  write_file : World -> string -> string -> bool * World
}.

(** How a call ends: it returns a value, [sys.exit(code)] is called, or an
    exception escapes. *)
Inductive outcome (A : Type) : Type :=
| Ret (a : A)
| Exit (code : Z)
| Raise.
Arguments Ret {A} a.
Arguments Exit {A} code.
Arguments Raise {A}.

(** The state a call runs in: the world, the module-level [NOISY] and the
    log of what was done so far, oldest first. *)
Record state (World : Type) : Type := State {
  world : World;
  NOISY : Z;
  log : list event
}.
Arguments State {World} world NOISY log.
Arguments world {World} s.
Arguments NOISY {World} s.
Arguments log {World} s.

Definition M (World A : Type) : Type := state World -> outcome A * state World.

Definition ret {W A} (a : A) : M W A := fun st => (Ret a, st).

Definition bind {W A B} (m : M W A) (k : A -> M W B) : M W B :=
  fun st =>
    match m st with
    | (Ret a, st') => k a st'
    | (Exit c, st') => (Exit c, st')
    | (Raise, st') => (Raise, st')
    end.

Declare Scope hvcs_scope.
Delimit Scope hvcs_scope with hvcs.
Notation "x <- m ;; k" := (bind m (fun x => k))
  (at level 61, m at next level, right associativity) : hvcs_scope.
Notation "m ;; k" := (bind m (fun _ => k))
  (at level 61, right associativity) : hvcs_scope.
Open Scope hvcs_scope.

Section Primitives.
Context {W : Type} {P : Platform W}.

Definition emit (e : event) : M W unit :=
  fun st => (Ret tt, State (world st) (NOISY st) (log st ++ [e])%list).

Definition sys_exit {A} (code : Z) : M W A := fun st => (Exit code, st).

Definition raise {A} : M W A := fun st => (Raise, st).

Definition get_noisy : M W Z := fun st => (Ret (NOISY st), st).

Definition get_world : M W W := fun st => (Ret (world st), st).

Definition set_world (w : W) : M W unit :=
  fun st => (Ret tt, State w (NOISY st) (log st)).

Definition os_path_exists (path : string) : M W bool :=
  emit (EvExists path) ;;
  w <- get_world ;;
  ret (path_exists w path).

Definition os_listdir (path : string) : M W (option (list string)) :=
  emit (EvListdir path) ;;
  w <- get_world ;;
  ret (listdir w path).

(** [with open(path) as f: f.read()]. *)
Definition read_text (path : string) : M W string :=
  emit (EvRead path) ;;
  w <- get_world ;;
  match read_file w path with
  | Some s => ret s
  | None => raise
  end.

(** [with open(path, 'w') as f: f.write(data)] inside [try]; the result
    tells whether the [try] body completed. *)
Definition try_write_text (path data : string) : M W bool :=
  emit (EvWrite path data) ;;
  w <- get_world ;;
  let (ok, w') := write_file w path data in
  set_world w' ;;
  ret ok.

End Primitives.

(** ** The script *)

Module Hvcsadmin.
Import Re CharClass Py.

Definition APP_NAME : string := "hvcsadmin".
Definition DRIVER : string := "hvcs".
Definition GLOBAL_NODE_NAME : string := "hvcs".

(** *** The patterns, in the order of the source *)

(** The lines of the form key, value between double quotes: start of
    line, blanks, the key (which ends with the equals sign and a space),
    a double quote, a group of as many characters other than a newline
    as possible, a double quote, blanks, end of line. *)
Definition quoted_value (key : pattern) : pattern :=
  ([Bol; Star space] ++ key
     ++ [Chr dquote; Open; Star dot; Close; Chr dquote; Star space; Eol])%list.

Definition RE_DRIVER : pattern := quoted_value (lit "Driver = ").
Definition RE_DRIVER_PATH : pattern := quoted_value (lit "Driver path = ").
Definition RE_DEVICE_PATH : pattern := quoted_value (lit "Device path = ").
Definition RE_DEVICE : pattern := quoted_value (lit "Device = ").
Definition RE_VTERM_STATE : pattern :=
  quoted_value (lit "vterm_state" ++ [Star space] ++ lit "= ")%list.
Definition RE_INDEX : pattern :=
  quoted_value (lit "index" ++ [Star space] ++ lit "= ")%list.

(** The [current_vty] line: between the double quotes, three runs of
    word characters separated by dots, then [-V(\d+)-C(\d+)]. *)
Definition RE_CURRENT_VTY : pattern :=
  ([Bol; Star space] ++ lit "current_vty" ++ [Star space] ++ lit "= "
     ++ [Chr dquote; Plus word; Chr "."; Plus word; Chr "."; Plus word]
     ++ lit "-V" ++ [Open; Plus digit; Close]
     ++ lit "-C" ++ [Open; Plus digit; Close]
     ++ [Chr dquote; Star space; Eol])%list.

(** [(^0.+$)] *)
Definition RE_LEADING_ZERO : pattern :=
  [Open; Bol; Chr "0"; Plus dot; Eol; Close].

(** [(\w+\.\w+\.\w+)-V(\d+)-C(\d+)$] *)
Definition RE_CLC : pattern :=
  ([Open; Plus word; Chr "."; Plus word; Chr "."; Plus word; Close]
     ++ lit "-V" ++ [Open; Plus digit; Close]
     ++ lit "-C" ++ [Open; Plus digit; Close; Eol])%list.

(** [.+(3[0-9a-fA-F]+)$] *)
Definition RE_VTY_SERVER_HEX : pattern :=
  [Plus dot; Open; Chr "3"; Plus xdigit; Close; Eol].

(** [.+(3\d+)$] *)
Definition RE_VTY_SERVER_DEC : pattern :=
  [Plus dot; Open; Chr "3"; Plus digit; Close; Eol].

(** [hvcs(\d)$], [hvcs([0-9]+)$] and [(hvcs)[0-9]+$]: the node name is
    escaped by [re.escape], which leaves letters as they are. *)
Definition RE_ENTRY : pattern :=
  (lit GLOBAL_NODE_NAME ++ [Open; One digit; Close; Eol])%list.
Definition RE_NODE_INDEX : pattern :=
  (lit GLOBAL_NODE_NAME ++ [Open; Plus digit; Close; Eol])%list.
Definition RE_NODE_NAME : pattern :=
  ([Open] ++ lit GLOBAL_NODE_NAME ++ [Close; Plus digit; Eol])%list.

(** [0], used with [re.fullmatch]. *)
Definition RE_ZERO : pattern := [Chr "0"].

Definition is_some {A} (o : option A) : bool :=
  match o with Some _ => true | None => false end.

(** *** The scans that only read *)

(** The loop of [get_device_path_by_index]: [Some path] when the loop
    returns [device_path], [None] when it runs to the end. *)
Fixpoint index_scan (target_index : string) (lines : list string)
         (local_driver device_path index : string) : option string :=
  match lines with
  | [] => None
  | line :: rest =>
      match rmatch RE_DRIVER line with
      | Some m =>
          index_scan target_index rest (group 1 m) EmptyString EmptyString
      | None =>
      match rmatch RE_DEVICE_PATH line with
      | Some m =>
          index_scan target_index rest local_driver (group 1 m) index
      | None =>
      match rmatch RE_INDEX line with
      | Some m =>
          let index := group 1 m in
          if (local_driver =? DRIVER) && (index =? target_index)
          then Some device_path
          else index_scan target_index rest local_driver device_path index
      | None =>
          index_scan target_index rest local_driver device_path index
      end end end
  end.

(** The loop of [get_device_path_by_partition]. *)
Fixpoint partition_scan (target_partition : string) (lines : list string)
         (local_driver found_partition found_slot device_path : string)
  : option string :=
  match lines with
  | [] => None
  | line :: rest =>
      match rmatch RE_DRIVER line with
      | Some m =>
          partition_scan target_partition rest
                         (group 1 m) EmptyString EmptyString EmptyString
      | None =>
      match rmatch RE_DEVICE_PATH line with
      | Some m =>
          partition_scan target_partition rest
                         local_driver found_partition found_slot (group 1 m)
      | None =>
      match rmatch RE_CURRENT_VTY line with
      | Some m =>
          let found_partition := group 1 m in
          let found_slot := group 2 m in
          if (local_driver =? DRIVER)
             && (target_partition =? found_partition)
             && (found_slot =? "0")
          then Some device_path
          else partition_scan target_partition rest
                              local_driver found_partition found_slot device_path
      | None =>
          partition_scan target_partition rest
                         local_driver found_partition found_slot device_path
      end end end
  end.

Definition getindex (devnode : string) : string :=
  match search RE_NODE_INDEX devnode with
  | Some m => group 1 m
  | None => "-1"
  end.

Definition getnodename (devnode : string) : string :=
  match search RE_NODE_NAME devnode with
  | Some m => group 1 m
  | None => EmptyString
  end.

Section Program.
Context {W : Type} {P : Platform W}.

Definition sys_stdout_write (output : string) : M W unit :=
  emit (EvPrint Stdout output).

Definition verboseprint (output : string) : M W unit :=
  noisy <- get_noisy ;;
  if (noisy >? 1)%Z then sys_stdout_write output else ret tt.

Definition statusprint (output : string) : M W unit :=
  noisy <- get_noisy ;;
  if (noisy >? 0)%Z then sys_stdout_write output else ret tt.

Definition errorprint (output : string) : M W unit :=
  emit (EvPrint Stderr output).

Definition print (output : string) : M W unit :=
  sys_stdout_write (output ++ String newline EmptyString).

Definition nl : string := String newline EmptyString.

Definition run_cmd (cmd : string) : M W completed :=
  emit (EvRun cmd) ;;
  w <- get_world ;;
  match run_command w cmd with
  | Started proc => ret proc
  | PopenError e =>
      errorprint (APP_NAME ++ ": failed to run command: " ++ cmd ++ ": " ++ e ++ nl) ;;
      sys_exit 1
  end.

(** [rescan]: the loop returns [true] when it executes [return]. *)
Fixpoint rescan_scan (lines : list string)
         (local_driver driver_path : string) : M W bool :=
  match lines with
  | [] => ret false
  | line :: rest =>
      match rmatch RE_DRIVER line with
      | Some m => rescan_scan rest (group 1 m) EmptyString
      | None =>
      match rmatch RE_DRIVER_PATH line with
      | Some m =>
          let driver_path := group 1 m in
          if local_driver =? DRIVER then
            ok <- try_write_text (path_join driver_path "rescan") "1" ;;
            if ok then
              statusprint (APP_NAME ++ ": " ++ DRIVER ++ " driver rescan executed." ++ nl) ;;
              ret true
            else rescan_scan rest local_driver driver_path
          else rescan_scan rest local_driver driver_path
      | None => rescan_scan rest local_driver driver_path
      end end
  end.

Definition rescan : M W unit :=
  verboseprint (APP_NAME ++ ": initiating rescan of all vty-server adapter partners." ++ nl) ;;
  proc <- run_cmd "systool -b vio -D -p" ;;
  if negb (returncode proc =? 0)%Z then
    errorprint ("systool: " ++ or_else (stderr proc) "unknown error" ++ nl) ;;
    sys_exit 1
  else
    returned <- rescan_scan (splitlines (stdout proc)) EmptyString EmptyString ;;
    if returned then ret tt
    else errorprint (APP_NAME ++ ": " ++ DRIVER ++ " sysfs entry or " ++ DRIVER
                       ++ " rescan attribute not found." ++ nl).

(** [closeall]: the loop. *)
Fixpoint closeall_scan (lines : list string)
         (local_driver local_device vterm_state device_path : string)
  : M W unit :=
  match lines with
  | [] => ret tt
  | line :: rest =>
      match rmatch RE_DRIVER line with
      | Some m =>
          closeall_scan rest (group 1 m) EmptyString vterm_state EmptyString
      | None =>
      match rmatch RE_DEVICE_PATH line with
      | Some m =>
          closeall_scan rest local_driver local_device vterm_state (group 1 m)
      | None =>
      match rmatch RE_DEVICE line with
      | Some m =>
          closeall_scan rest local_driver (group 1 m) vterm_state device_path
      | None =>
      match rmatch RE_VTERM_STATE line with
      | Some m =>
          let vterm_state := group 1 m in
          (if (local_driver =? DRIVER) && (vterm_state =? "1") then
             ok <- try_write_text (path_join device_path "vterm_state") "0" ;;
             if ok then
               statusprint (APP_NAME ++ ": closed vty-server@" ++ local_device
                              ++ " partner adapter connection." ++ nl)
             else ret tt
           else ret tt) ;;
          closeall_scan rest local_driver local_device vterm_state device_path
      | None =>
          closeall_scan rest local_driver local_device vterm_state device_path
      end end end end
  end.

Definition closeall : M W unit :=
  proc <- run_cmd "systool -b vio -D -A vterm_state -p" ;;
  if negb (returncode proc =? 0)%Z then
    errorprint ("systool:  " ++ or_else (stderr proc) "unknown error" ++ nl) ;;
    sys_exit 1
  else
    closeall_scan (splitlines (stdout proc))
                  EmptyString EmptyString EmptyString EmptyString.

Definition validindex (dev_index : string) : M W Z :=
  verboseprint (APP_NAME ++ ": is " ++ dev_index ++ " a valid device node number? ..." ++ nl) ;;
  if is_some (rmatch RE_LEADING_ZERO dev_index) then
    errorprint (APP_NAME ++ ": " ++ quoted dev_index
                  ++ " is an invalid device node number." ++ nl) ;;
    ret (-1)%Z
  else
    verboseprint (APP_NAME ++ ": " ++ dev_index ++ " is a valid device node index." ++ nl) ;;
    ret 0%Z.

Definition finddeventry (node_name dev_number : string) : M W Z :=
  let device_path := "/dev/" ++ node_name ++ dev_number in
  verboseprint (APP_NAME ++ ": is " ++ device_path ++ " in /dev? ..." ++ nl) ;;
  found <- os_path_exists device_path ;;
  if negb found then
    errorprint (APP_NAME ++ ": " ++ device_path ++ " not found in /dev." ++ nl) ;;
    ret (-1)%Z
  else
    verboseprint (APP_NAME ++ ": found " ++ device_path ++ " in /dev." ++ nl) ;;
    ret 0%Z.

Definition get_device_path_by_partition (target_partition : string)
  : M W string :=
  verboseprint (APP_NAME ++ ": fetching device path for partition "
                  ++ target_partition ++ "." ++ nl) ;;
  proc <- run_cmd "systool -b vio -D -A current_vty -p" ;;
  if negb (returncode proc =? 0)%Z then
    errorprint ("systool:  " ++ or_else (stderr proc) "unknown error" ++ nl) ;;
    ret EmptyString
  else
    match partition_scan target_partition (splitlines (stdout proc))
                         EmptyString EmptyString EmptyString EmptyString with
    | Some device_path =>
        verboseprint (APP_NAME ++ ": found console device for partition "
                        ++ target_partition ++ " at " ++ device_path ++ "." ++ nl) ;;
        ret device_path
    | None =>
        statusprint (APP_NAME ++ ": could not find device path for partition "
                       ++ target_partition ++ "." ++ nl) ;;
        ret EmptyString
    end.

Definition get_device_path_by_index (target_index : string) : M W string :=
  verboseprint (APP_NAME ++ ": fetching device path for index "
                  ++ target_index ++ "." ++ nl) ;;
  proc <- run_cmd "systool -b vio -D -A index -p" ;;
  if negb (returncode proc =? 0)%Z then
    errorprint ("systool:  " ++ or_else (stderr proc) "unknown error" ++ nl) ;;
    ret EmptyString
  else
    match index_scan target_index (splitlines (stdout proc))
                     EmptyString EmptyString EmptyString with
    | Some device_path =>
        verboseprint (APP_NAME ++ ": found device path for device index "
                        ++ target_index ++ " at " ++ device_path ++ "." ++ nl) ;;
        ret device_path
    | None =>
        statusprint (APP_NAME ++ ": /dev/" ++ GLOBAL_NODE_NAME ++ target_index
                       ++ " does not map to a vty-server adapter." ++ nl) ;;
        ret EmptyString
    end.

Definition displaybypath (path : string) : M W Z :=
  verboseprint (APP_NAME ++ ": displaying status information for " ++ path ++ "." ++ nl) ;;
  if path =? EmptyString then
    errorprint (APP_NAME ++ ": displaybypath( $ ) path parameter is empty." ++ nl) ;;
    ret (-1)%Z
  else
    found <- os_path_exists (path_join path "current_vty") ;;
    if negb found then
      errorprint (APP_NAME ++ ": " ++ path ++ "/current_vty attribute does not exist." ++ nl) ;;
      sys_exit 1
    else
    verboseprint (APP_NAME ++ ": " ++ path ++ "/current_vty attribute exists." ++ nl) ;;
    found <- os_path_exists (path_join path "index") ;;
    if negb found then
      errorprint (APP_NAME ++ ": " ++ path ++ "/index attribute does not exist." ++ nl) ;;
      sys_exit 1
    else
    verboseprint (APP_NAME ++ ": " ++ path ++ "/index attribute exists." ++ nl) ;;
    found <- os_path_exists (path_join path "vterm_state") ;;
    if negb found then
      errorprint (APP_NAME ++ ": " ++ path ++ "/vterm_state attribute does not exist." ++ nl) ;;
      sys_exit 1
    else
    verboseprint (APP_NAME ++ ": verified that " ++ path
                    ++ "/vterm_state attribute exists." ++ nl) ;;
    content <- read_text (path_join path "current_vty") ;;
    let current_vty := strip content in
    let m := search RE_CLC current_vty in
    let machine := match m with Some g => group 1 g | None => EmptyString end in
    let partition := match m with Some g => group 2 g | None => EmptyString end in
    let slot := match m with Some g => group 3 g | None => EmptyString end in
    content <- read_text (path_join path "vterm_state") ;;
    let vterm_state := strip content in
    content <- read_text (path_join path "index") ;;
    let device_index := strip content in
    let m := search RE_VTY_SERVER_HEX path in
    let vty_server := match m with Some g => group 1 g | None => EmptyString end in
    print ("vty-server@" ++ vty_server ++ " partition:" ++ partition
             ++ " slot:" ++ slot ++ " /dev/" ++ DRIVER ++ device_index
             ++ " vterm-state:" ++ vterm_state) ;;
    ret (if path =? EmptyString then (-1)%Z else 0%Z).

Definition querynode (dev_node : string) : M W unit :=
  let dev_index := getindex dev_node in
  let dev_name := getnodename dev_node in
  verboseprint (APP_NAME ++ ": querying status information for node "
                  ++ dev_node ++ "." ++ nl) ;;
  if negb (dev_name =? GLOBAL_NODE_NAME) then
    errorprint (APP_NAME ++ ": " ++ dev_node ++ " is an invalid device node name." ++ nl) ;;
    sys_exit 1
  else
  r <- validindex dev_index ;;
  if negb (r =? 0)%Z then sys_exit 1 else
  r <- finddeventry dev_name dev_index ;;
  if negb (r =? 0)%Z then sys_exit 1 else
  path <- get_device_path_by_index dev_index ;;
  if path =? EmptyString then ret tt
  else
    displaybypath path ;;
    ret tt.

Definition queryconsole (partition : string) : M W unit :=
  path <- get_device_path_by_partition partition ;;
  if path =? EmptyString then ret tt
  else
    displaybypath path ;;
    ret tt.

(** [status]: the loop over the sorted entries of [/dev]; [count] is
    threaded through. *)
Fixpoint status_loop (entries : list string) (count : nat) : M W nat :=
  match entries with
  | [] => ret count
  | entry :: rest =>
      match search RE_ENTRY entry with
      | Some m =>
          path <- get_device_path_by_index (group 1 m) ;;
          if negb (path =? EmptyString) then
            displaybypath path ;;
            status_loop rest (count + 1)
          else status_loop rest count
      | None => status_loop rest count
      end
  end.

Definition status : M W unit :=
  listing <- os_listdir "/dev" ;;
  let entries := match listing with
                 | Some names => sorted names
                 | None => []
                 end in
  verboseprint (APP_NAME ++ ": gathering status for all vty-server adapters." ++ nl) ;;
  verboseprint (APP_NAME ++ ": some device nodes won't be mapped to vty-server adapters." ++ nl) ;;
  count <- status_loop entries 0 ;;
  if (count =? 0)%nat then print (APP_NAME ++ ": no hvcs adapters found.")
  else ret tt.

Definition closedevice (parameter : string) : M W unit :=
  let node_name := getnodename parameter in
  let node_index := getindex parameter in
  if negb (node_name =? GLOBAL_NODE_NAME) then
    errorprint (APP_NAME ++ ": " ++ parameter ++ " is an invalid device node name." ++ nl) ;;
    sys_exit 1
  else
  r <- validindex node_index ;;
  if negb (r =? 0)%Z then sys_exit 1 else
  r <- finddeventry node_name node_index ;;
  if negb (r =? 0)%Z then sys_exit 1 else
  device_path <- get_device_path_by_index node_index ;;
  if device_path =? EmptyString then sys_exit 1 else
  verboseprint (APP_NAME ++ ": vty-server adapter " ++ device_path
                  ++ " maps to /dev/" ++ node_name ++ node_index ++ "." ++ nl) ;;
  let vstate_path := path_join device_path "vterm_state" in
  found <- os_path_exists vstate_path ;;
  if negb found then
    errorprint (APP_NAME ++ ": vterm_state attribute does not exist." ++ nl) ;;
    sys_exit 1
  else
  verboseprint (APP_NAME ++ ": verified that " ++ vstate_path ++ " attribute exists." ++ nl) ;;
  content <- read_text vstate_path ;;
  let catval := strip content in
  if is_some (fullmatch RE_ZERO catval) then
    statusprint (APP_NAME ++ ": vty-server adapter " ++ device_path
                   ++ " is already disconnected." ++ nl) ;;
    sys_exit 0
  else
  verboseprint (APP_NAME ++ ": preparing to terminate vty-server connection at "
                  ++ device_path ++ "." ++ nl) ;;
  try_write_text vstate_path "0" ;;
  content <- read_text vstate_path ;;
  let cat := strip content in
  if negb (is_some (fullmatch RE_ZERO cat)) then
    errorprint (APP_NAME ++ ": vty-server adapter " ++ device_path
                  ++ " disconnection failed." ++ nl) ;;
    errorprint (APP_NAME ++ ": please check dmesg for further information." ++ nl) ;;
    sys_exit 1
  else
  let m := search RE_VTY_SERVER_DEC device_path in
  let vty_server := match m with Some g => group 1 g | None => EmptyString end in
  statusprint (APP_NAME ++ ": /dev/node/" ++ node_name ++ node_index
                 ++ " is mapped to vty-server@" ++ vty_server ++ "." ++ nl) ;;
  statusprint (APP_NAME ++ ": closed vty-server@" ++ vty_server
                 ++ " partner adapter connection." ++ nl).

End Program.
End Hvcsadmin.

(** ** Blocks, as the specification describes them

    A block starts at a line of the shape Driver and lasts until the next
    one.  The definitions below look back from a line to the block it
    belongs to; they do not follow the loops of the script. *)

Module Block.
Import Re Hvcsadmin.

(** The pattern of an attribute name and the end of a key and value
    pattern, as [quoted_value] puts them together. *)
Definition attr_key (name : string) : pattern :=
  (lit name ++ [Star CharClass.space] ++ lit "= ")%list.

Definition value_tail : pattern :=
  [Chr CharClass.dquote; Open; Star CharClass.dot; Close; Chr CharClass.dquote;
   Star CharClass.space; Eol].

(** The value of a line of the shape [pat]: its first group. *)
Definition value_of (pat : pattern) (line : string) : option string :=
  match rmatch pat line with
  | Some m => Some (group 1 m)
  | None => None
  end.

(** The partition and the slot of a [current_vty] line. *)
Definition location_of (line : string) : option (string * string) :=
  match rmatch RE_CURRENT_VTY line with
  | Some m => Some (group 1 m, group 2 m)
  | None => None
  end.

(** Looking back over the lines seen so far, latest first: the driver
    named by the nearest Driver line. *)
Fixpoint driver_back (seen : list string) : string :=
  match seen with
  | [] => EmptyString
  | line :: earlier =>
      match value_of RE_DRIVER line with
      | Some name => name
      | None => driver_back earlier
      end
  end.

(** The path given by the nearest Device path line of the same block. *)
Fixpoint device_path_back (seen : list string) : string :=
  match seen with
  | [] => EmptyString
  | line :: earlier =>
      match value_of RE_DRIVER line with
      | Some _ => EmptyString
      | None =>
          match value_of RE_DEVICE_PATH line with
          | Some path => path
          | None => device_path_back earlier
          end
      end
  end.

(** The driver and the device path of the block that is current after
    the lines [before]. *)
Definition driver_of (before : list string) : string :=
  driver_back (rev before).

Definition device_path_of (before : list string) : string :=
  device_path_back (rev before).

(** [line], which follows [before], is the first line of [lines] that
    satisfies [P]. *)
Definition first_such (P : list string -> string -> Prop)
           (lines before : list string) (line : string) : Prop :=
  (exists after, lines = (before ++ line :: after)%list)
  /\ P before line
  /\ forall b1 l1 a1, before = (b1 ++ l1 :: a1)%list -> ~ P b1 l1.

(** No line of [lines] satisfies [P]. *)
Definition none_such (P : list string -> string -> Prop)
           (lines : list string) : Prop :=
  forall before line after,
    lines = (before ++ line :: after)%list -> ~ P before line.

(** The scan of the two resolvers, with the attribute line and the test
    on its value as parameters: the single parser with a selector that
    the specification describes. *)
Section Scan.
Context {A : Type}.
Variable attr : string -> option A.
Variable hit : A -> bool.

Fixpoint scan (lines : list string) (local_driver device_path : string)
  : option string :=
  match lines with
  | [] => None
  | line :: rest =>
      match rmatch RE_DRIVER line with
      | Some m => scan rest (group 1 m) EmptyString
      | None =>
      match rmatch RE_DEVICE_PATH line with
      | Some m => scan rest local_driver (group 1 m)
      | None =>
      match attr line with
      | Some a =>
          if (local_driver =? DRIVER) && hit a then Some device_path
          else scan rest local_driver device_path
      | None => scan rest local_driver device_path
      end end end
  end.

(** A line that resolves: an attribute line whose value passes the
    test, in a block of the configured driver. *)
Definition attr_match (before : list string) (line : string) : Prop :=
  driver_of before = DRIVER /\ exists a, attr line = Some a /\ hit a = true.
End Scan.

(** The lines as systool prints them.  A line of a fixed key, which
    ends with the equals sign and a space; a line of an attribute, whose
    name blanks may separate from the equals sign; a location code. *)
Definition key_line (indent key value tail : string) : string :=
  indent ++ key ++ Py.quoted value ++ tail.

Definition attr_line (indent name gap value tail : string) : string :=
  indent ++ name ++ gap ++ "= " ++ Py.quoted value ++ tail.

Definition location_code (m1 m2 m3 p s : string) : string :=
  m1 ++ "." ++ m2 ++ "." ++ m3 ++ "-V" ++ p ++ "-C" ++ s.

(** A non-empty string of characters of a class. *)
Definition filled (p : ascii -> bool) (s : string) : Prop :=
  s <> EmptyString /\ all p s = true.

(** No line of [lines] has the shape Driver. *)
Definition no_driver (lines : list string) : Prop :=
  Forall (fun line => rmatch RE_DRIVER line = None) lines.

(** What a scan of [lines] for the first line satisfying [Q] gives:
    the device path of that line's block, or the empty string when no
    line satisfies [Q]. *)
Definition resolved (Q : list string -> string -> Prop)
           (lines : list string) (path : string) : Prop :=
  (forall before line,
      first_such Q lines before line -> path = device_path_of before)
  /\ (none_such Q lines -> path = EmptyString)
  /\ (path <> EmptyString ->
      exists before line,
        first_such Q lines before line /\ path = device_path_of before).

(** A line that resolves the index [target]: an index line with that
    value, string for string, in a block of the configured driver. *)
Definition index_match (target : string) (before : list string)
           (line : string) : Prop :=
  driver_of before = DRIVER /\ value_of RE_INDEX line = Some target.

(** A line that resolves the partition [target]: a [current_vty] line of
    that partition and of slot 0, in a block of the configured driver. *)
Definition console_match (target : string) (before : list string)
           (line : string) : Prop :=
  driver_of before = DRIVER /\ location_of line = Some (target, "0").

(** A line at which [closeall] writes: a [vterm_state] line of value 1
    in a block of the configured driver. *)
Definition connected_here (before : list string) (line : string) : bool :=
  (driver_of before =? DRIVER)
  && match value_of RE_VTERM_STATE line with
     | Some v => v =? "1"
     | None => false
     end.

(** The device paths of the connected adapters of the configured driver
    among [rest], in scan order; [before] is what precedes [rest]. *)
Fixpoint connected_from (before rest : list string) : list string :=
  match rest with
  | [] => []
  | line :: rest' =>
      ((if connected_here before line then [device_path_of before] else [])
         ++ connected_from (before ++ [line]) rest')%list
  end.

(** A line at which [rescan] tries a write: a Driver path line in a
    block of the configured driver; the candidates in scan order. *)
Fixpoint rescan_candidates (before rest : list string) : list string :=
  match rest with
  | [] => []
  | line :: rest' =>
      (match value_of RE_DRIVER_PATH line with
       | Some path => if driver_of before =? DRIVER then [path] else []
       | None => []
       end ++ rescan_candidates (before ++ [line]) rest')%list
  end.

End Block.

(** ** Reading a log *)

Module Trace.
Import Hvcsadmin.

Definition is_print (e : event) : bool :=
  match e with EvPrint _ _ => true | _ => false end.

Definition is_write (e : event) : bool :=
  match e with EvWrite _ _ => true | _ => false end.

(** What was done to the system: the log without the messages. *)
Definition actions (l : list event) : list event :=
  filter (fun e => negb (is_print e)) l.

(** What was written to standard error. *)
Definition errors (l : list event) : list string :=
  flat_map (fun e => match e with EvPrint Stderr s => [s] | _ => [] end) l.

(** The message of [verboseprint] and of [statusprint] at a noise level. *)
Definition vmsg (n : Z) (s : string) : list event :=
  if (n >? 1)%Z then [EvPrint Stdout s] else [].

Definition smsg (n : Z) (s : string) : list event :=
  if (n >? 0)%Z then [EvPrint Stdout s] else [].

End Trace.

(** ** A world for examples *)

Module Fixture.
Import CharClass Py Hvcsadmin.

(** Attribute files with their contents, the files that accept a write
    and keep their value, the files that cannot be opened for writing,
    the names under /dev and the standard output of each command. *)
Record sim : Type := Sim {
  files : list (string * string);
  stuck : list string;
  denied : list string;
  dev : list string;
  commands : list (string * string)
}.

Fixpoint lookup (key : string) (l : list (string * string)) : option string :=
  match l with
  | [] => None
  | (k, v) :: l' => if k =? key then Some v else lookup key l'
  end.

Fixpoint update (key value : string) (l : list (string * string))
  : list (string * string) :=
  match l with
  | [] => [(key, value)]
  | (k, v) :: l' =>
      if k =? key then (k, value) :: l' else (k, v) :: update key value l'
  end.

Definition mem (key : string) (l : list string) : bool :=
  existsb (String.eqb key) l.

Definition sim_write (w : sim) (path data : string) : bool * sim :=
  if mem path (denied w) then (false, w)
  else if mem path (stuck w) then (true, w)
  else (true, Sim (update path data (files w)) (stuck w) (denied w)
                  (dev w) (commands w)).

#[export] Instance sim_platform : Platform sim := {
  run_command w cmd :=
    match lookup cmd (commands w) with
    | Some out => Started (Completed 0 out EmptyString)
    | None => Started (Completed 1 EmptyString "no such command")
    end;
  listdir w path := if path =? "/dev" then Some (dev w) else None;
  path_exists w path :=
    match lookup path (files w) with
    | Some _ => true
    | None => mem path (map (fun n => "/dev/" ++ n) (dev w))
    end;
  read_file w path := lookup path (files w);
  write_file := sim_write
}.

(** A command that ran and printed [out]. *)
Definition ran (out : string) : completed := Completed 0 out EmptyString.

(** One line of systool output, and a text from its lines. *)
Definition line (indent key value : string) : string :=
  indent ++ key ++ " = " ++ quoted value.

Definition unlines (l : list string) : string :=
  fold_right (fun a b => a ++ String newline b) EmptyString l.

Definition eol (s : string) : string := s ++ String newline EmptyString.

(** Four adapters of the driver hvcs and one of another driver. *)
Definition device (name : string) (attr value : string) : list string :=
  [ line "    " "Device" name;
    line "    " "Device path" ("/sys/devices/vio/" ++ name);
    line "      " attr value;
    EmptyString ].

Definition listing (attr : string) (v4 v5 v6 v7 v2 : string) : string :=
  unlines
    ([ ("Bus = " ++ quoted "vio")%string; EmptyString;
       line "  " "Driver" "hvcs";
       line "  " "Driver path" "/sys/bus/vio/drivers/hvcs" ]
       ++ device "30000004" attr v4 ++ device "30000005" attr v5
       ++ device "30000006" attr v6 ++ device "30000007" attr v7
       ++ [ line "  " "Driver" "ibmvscsi";
            line "  " "Driver path" "/sys/bus/vio/drivers/ibmvscsi" ]
       ++ device "30000002" attr v2)%list.

Definition vio_index : string := listing "index" "0" "1" "10" "11" "1".

Definition vio_vterm_state : string :=
  listing "vterm_state" "0" "1" "1" "1" "1".

Definition vio_current_vty : string :=
  listing "current_vty"
          "U9406.520.100048A-V15-C0" "U9406.520.100048A-V15-C1"
          "U9406.520.100048A-V16-C0" "U9406.520.100048A-V16-C0"
          "U9406.520.100048A-V15-C0".

Definition vio_drivers : string :=
  unlines [ "Bus = " ++ quoted "vio"; EmptyString;
            line "  " "Driver" "hvcs";
            line "  " "Driver path" "/sys/bus/vio/drivers/hvcs";
            EmptyString;
            line "  " "Driver" "ibmvscsi";
            line "  " "Driver path" "/sys/bus/vio/drivers/ibmvscsi" ].

(** A listing in which two blocks name the driver hvcs. *)
Definition vio_drivers_twice : string :=
  unlines [ line "  " "Driver" "hvcs";
            line "  " "Driver path" "/sys/bus/vio/drivers/hvcs";
            EmptyString;
            line "  " "Driver" "hvcs";
            line "  " "Driver path" "/sys/bus/vio/drivers/hvcs.1" ].

Definition attributes (name state index vty : string)
  : list (string * string) :=
  [ ("/sys/devices/vio/" ++ name ++ "/vterm_state", eol state);
    ("/sys/devices/vio/" ++ name ++ "/index", eol index);
    ("/sys/devices/vio/" ++ name ++ "/current_vty", eol vty) ].

Definition sys_files : list (string * string) :=
  (attributes "30000004" "0" "0" "U9406.520.100048A-V15-C0"
     ++ attributes "30000005" "1" "1" "U9406.520.100048A-V15-C1"
     ++ attributes "30000006" "1" "10" "U9406.520.100048A-V16-C0"
     ++ attributes "30000007" "1" "11" "U9406.520.100048A-V16-C0"
     ++ [ ("/sys/bus/vio/drivers/hvcs/rescan", EmptyString);
          ("/sys/bus/vio/drivers/hvcs.1/rescan", EmptyString) ])%list.

Definition sys_commands : list (string * string) :=
  [ ("systool -b vio -D -A index -p", vio_index);
    ("systool -b vio -D -A vterm_state -p", vio_vterm_state);
    ("systool -b vio -D -A current_vty -p", vio_current_vty);
    ("systool -b vio -D -p", vio_drivers) ].

(** The world in which every write goes through. *)
Definition w0 : sim :=
  Sim sys_files [] [] ["hvcs1"; "tty0"; "hvcs0"; "hvcs10"; "hvcs11"; "hvcs02"]
      sys_commands.

(** The adapter 30000005 accepts a write and stays connected. *)
Definition w_stuck : sim :=
  Sim sys_files ["/sys/devices/vio/30000005/vterm_state"] [] (dev w0)
      sys_commands.

(** The [vterm_state] file of the adapter 30000006, the second of the
    three connected ones, cannot be written. *)
Definition w_denied : sim :=
  Sim sys_files [] ["/sys/devices/vio/30000006/vterm_state"] (dev w0)
      sys_commands.

(** Two blocks name the driver hvcs and the rescan file of the first
    cannot be written. *)
Definition w_twice : sim :=
  Sim sys_files [] ["/sys/bus/vio/drivers/hvcs/rescan"] (dev w0)
      [("systool -b vio -D -p", vio_drivers_twice)].

(** The only node under /dev is hvcs10. *)
Definition w_ten : sim :=
  Sim sys_files [] [] ["hvcs10"] sys_commands.

End Fixture.

(** ** Runs

    [runs m w n o w' evs]: started in the world [w] at noise level [n], the
    call [m] ends with the outcome [o] in the world [w'], having appended
    the events [evs] to the log, whatever the log held before. *)

Definition runs {W A} (m : M W A) (w : W) (n : Z)
           (o : outcome A) (w' : W) (evs : list event) : Prop :=
  forall l, m (State w n l) = (o, State w' n (l ++ evs)%list).

(** [framed m]: the call [m] runs, in every world and at every noise
    level, in a way that does not depend on the log. *)
Definition framed {W A} (m : M W A) : Prop :=
  forall w n, exists o w' evs, runs m w n o w' evs.

(** ** What the claims are about *)

Module Claim.
Import Re Py Hvcsadmin.

Section Resolution.
Context {W : Type} {P : Platform W}.

(** The steps of [closedevice] and of [querynode] before the device is
    touched all pass: the identifier names a node of the configured
    prefix, its index is accepted, the node is in /dev, and the scan of
    the systool output resolves the index to [device_path]. *)
Definition resolves_to (w : W) (parameter device_path : string) : Prop :=
  getnodename parameter = GLOBAL_NODE_NAME
  /\ rmatch RE_LEADING_ZERO (getindex parameter) = None
  /\ path_exists w ("/dev/" ++ GLOBAL_NODE_NAME ++ getindex parameter) = true
  /\ (exists proc,
         run_command w "systool -b vio -D -A index -p" = Started proc
         /\ returncode proc = 0%Z
         /\ index_scan (getindex parameter) (splitlines (stdout proc))
                       EmptyString EmptyString EmptyString
            = Some device_path)
  /\ device_path <> EmptyString.

(** What [get_device_path_by_index] returns or how it ends. *)
Definition index_result (w : W) (target : string) : outcome string :=
  match run_command w "systool -b vio -D -A index -p" with
  | PopenError _ => Exit 1%Z
  | Started proc =>
      Ret (if negb (returncode proc =? 0)%Z then EmptyString
           else match index_scan target (splitlines (stdout proc))
                                 EmptyString EmptyString EmptyString with
                | Some path => path
                | None => EmptyString
                end)
  end.

(** The writes of [rescan] over the candidate driver directories, in
    order: each path with whether its write went through, up to the
    first that did, and the world afterwards. *)
Fixpoint try_each (w : W) (paths : list string) : list (string * bool) * W :=
  match paths with
  | [] => ([], w)
  | path :: rest =>
      let (ok, w') := write_file w (path_join path "rescan") "1" in
      if ok then ([(path, true)], w')
      else let (tried, w'') := try_each w' rest in
           ((path, false) :: tried, w'')
  end.

(** The worlds [closeall] goes through: one write per device path. *)
Fixpoint write_all (w : W) (paths : list string) : W :=
  match paths with
  | [] => w
  | path :: rest =>
      write_all (snd (write_file w (path_join path "vterm_state") "0")) rest
  end.
End Resolution.

(** The [vterm_state] attribute of a device and the node of an
    identifier. *)
Definition vstate (device_path : string) : string :=
  path_join device_path "vterm_state".

Definition dev_node (parameter : string) : string :=
  ("/dev/" ++ GLOBAL_NODE_NAME ++ getindex parameter)%string.

Definition systool_index : string := "systool -b vio -D -A index -p".

(** The write of [closeall] at a device and of [rescan] at a driver
    directory. *)
Definition close_write (device_path : string) : event :=
  EvWrite (vstate device_path) "0".

Definition rescan_write (attempt : string * bool) : event :=
  EvWrite (path_join (fst attempt) "rescan") "1".

(** The message of a rescan that found nothing to write to. *)
Definition msg_not_found : string :=
  (APP_NAME ++ ": " ++ DRIVER ++ " sysfs entry or " ++ DRIVER
            ++ " rescan attribute not found." ++ nl)%string.

Definition systool_drivers : string := "systool -b vio -D -p".

(** A candidate whose write did not go through. *)
Definition failed_write (path : string) : string * bool := (path, false).

(** The trace line of [querynode] that names the identifier. *)
Definition msg_query (dev_node : string) : string :=
  (APP_NAME ++ ": querying status information for node " ++ dev_node
            ++ "." ++ nl)%string.

(** The two messages of a disconnection that did not take effect. *)
Definition msg_failed (device_path : string) : string :=
  (APP_NAME ++ ": vty-server adapter " ++ device_path
            ++ " disconnection failed." ++ nl)%string.

Definition msg_dmesg : string :=
  (APP_NAME ++ ": please check dmesg for further information." ++ nl)%string.

(** The test of [closedevice] on a value of [vterm_state]. *)
Definition zero (s : string) : bool := is_some (fullmatch RE_ZERO s).

(** C9 as the specification states it: whatever [rescan] writes, it
    writes to the rescan attribute of the first block of [lines] whose
    driver is the configured one. *)
Definition rescan_first_block_only {W} {P : Platform W}
           (w : W) (n : Z) (lines : list string) : Prop :=
  forall o w' evs,
    runs rescan w n o w' evs ->
    forall path data,
      In (EvWrite path data) evs ->
      exists first rest,
        Block.rescan_candidates [] lines = first :: rest
        /\ path = path_join first "rescan".

(** The index starts with a zero that further characters follow. *)
Definition leading_zero (index : string) : bool :=
  match index with
  | String c (String _ _) => Ascii.eqb c "0"
  | _ => false
  end.

End Claim.

(** ** The start of the script: more of Python

    What [load_platform_env_and_check] and [main] use besides the helpers
    above: the shell quoting of [shlex], [str.split] on one character,
    a [dict] of strings, and [int] on a [str]. *)

Module shlex.
Import CharClass Re.

(** The characters that need no quoting: [\w@%+=:,./-] with [re.ASCII],
    so that [\w] is letters, digits and the underscore. *)
Definition safe (c : ascii) : bool :=
  between 48 57 c || between 65 90 c || between 97 122 c || is_code 95 c
  || Ascii.eqb c "@" || Ascii.eqb c "%" || Ascii.eqb c "+" || Ascii.eqb c "="
  || Ascii.eqb c ":" || Ascii.eqb c "," || Ascii.eqb c "." || Ascii.eqb c "/"
  || Ascii.eqb c "-".

(** What replaces a single quote: a single quote, a single quote between
    double quotes, a single quote. *)
Definition escaped_quote : string :=
  String "'" (String dquote (String "'" (String dquote (String "'" EmptyString)))).

(** [s.replace(single quote, escaped_quote)]. *)
Fixpoint escape (s : string) : string :=
  match s with
  | EmptyString => EmptyString
  | String c s' =>
      (if Ascii.eqb c "'" then escaped_quote else String c EmptyString)
        ++ escape s'
  end.

(** [shlex.quote(s)]. *)
Definition quote (s : string) : string :=
  match s with
  | EmptyString => "''"
  | _ => if all safe s then s else "'" ++ escape s ++ "'"
  end.

End shlex.

Module Builtins.
Import CharClass Re.

(** [s.split(sep)] for a separator of one character. *)
Fixpoint split_from (sep : ascii) (acc s : string) : list string :=
  match s with
  | EmptyString => [acc]
  | String c s' =>
      if Ascii.eqb c sep then acc :: split_from sep EmptyString s'
      else split_from sep (acc ++ String c EmptyString) s'
  end.

Definition split (sep : ascii) (s : string) : list string :=
  split_from sep EmptyString s.

(** [s.split(sep, 1)] when [sep] is in [s]: what precedes the first [sep]
    and what follows it; [None] when [sep] is not in [s]. *)
Fixpoint split_once (sep : ascii) (s : string) : option (string * string) :=
  match s with
  | EmptyString => None
  | String c s' =>
      if Ascii.eqb c sep then Some (EmptyString, s')
      else match split_once sep s' with
           | Some (k, v) => Some (String c k, v)
           | None => None
           end
  end.

(** A [dict] from strings to strings: the bindings, latest first. *)
Definition dict : Type := list (string * string).

Definition dict_set (k v : string) (d : dict) : dict := (k, v) :: d.

(** [d.get(k)]. *)
Fixpoint dict_get (k : string) (d : dict) : option string :=
  match d with
  | [] => None
  | (k', v) :: d' => if k' =? k then Some v else dict_get k d'
  end.

(** [d.get(k, default)]. *)
Definition dict_get_or (k default : string) (d : dict) : string :=
  match dict_get k d with
  | Some v => v
  | None => default
  end.

(** The blanks that [int] skips at both ends of a [str]: TAB LF VT FF CR
    and space, NEL and NBSP. *)
Definition int_space (c : ascii) : bool :=
  between 9 13 c || is_code 32 c || is_code 133 c || is_code 160 c.

Fixpoint lstrip_by (p : ascii -> bool) (s : string) : string :=
  match s with
  | String c s' => if p c then lstrip_by p s' else s
  | EmptyString => EmptyString
  end.

Fixpoint rstrip_by (p : ascii -> bool) (s : string) : string :=
  match s with
  | String c s' =>
      match rstrip_by p s' with
      | EmptyString => if p c then EmptyString else String c EmptyString
      | t => String c t
      end
  | EmptyString => EmptyString
  end.

Definition digit_value (c : ascii) : Z := Z.of_N (code c) - 48.

(** The digits of a decimal literal, among which single underscores may
    stand: the value and the number of digits.  [after_digit] tells
    whether the character before was a digit. *)
Fixpoint digits_value (s : string) (after_digit : bool) (acc : Z) (count : N)
  : option (Z * N) :=
  match s with
  | EmptyString => if after_digit then Some (acc, count) else None
  | String c s' =>
      if digit c then
        digits_value s' true (10 * acc + digit_value c)%Z (count + 1)%N
      else if Ascii.eqb c "_" then
        if after_digit then digits_value s' false acc count else None
      else None
  end.

(** [int(s)] for a [str]; [None] when it raises [ValueError].
    [max_str_digits] is [sys.get_int_max_str_digits()], the limit on the
    number of digits, 0 when there is none. *)
Definition int (max_str_digits : N) (s : string) : option Z :=
  let t := rstrip_by int_space (lstrip_by int_space s) in
  let (negative, body) :=
    match t with
    | String c t' =>
        if Ascii.eqb c "-" then (true, t')
        else if Ascii.eqb c "+" then (false, t')
        else (false, t)
    | EmptyString => (false, t)
    end in
  match digits_value body false 0%Z 0%N with
  | Some (v, count) =>
      if (0 <? max_str_digits)%N && (max_str_digits <? count)%N then None
      else Some (if negative then (- v)%Z else v)
  | None => None
  end.

End Builtins.

(** ** What the interpreter supplies to [main] *)

(** The attributes of the namespace that [parse_known_args] returns, in
    the order of the [add_argument] calls. *)
Record namespace : Type := Namespace {
  all_flag : bool;
  help_flag : bool;
  noisy : nat;
  status_flag : bool;
  rescan_flag : bool;
  version : bool;
  query_node : string;
  close_device : string;
  query_console : string
}.

(** What [parser.parse_known_args(argv)] does: it returns a namespace,
    or it calls [parser.error], which writes the usage and a message to
    standard error and exits with status 2. *)
Inductive parsed : Type :=
| Parsed (args : namespace)
| ParseError (usage message : string).

(** [PSERIES_PLATFORM] is the value of
    [str(Path(__file__).resolve().parent / 'pseries_platform')];
    [int_max_str_digits] is the limit of [int]; [parse_known_args] is the
    parser that the [add_argument] calls of [main] configure. *)
Class Interpreter : Type := {
  PSERIES_PLATFORM : string;
  int_max_str_digits : N;
  parse_known_args : list string -> parsed
}.

(** ** The start of the script *)

Module Startup.
Import Re CharClass Py Builtins Hvcsadmin.

Definition APP_VERSION : string := "1.0.0".

Definition tab : string := String (ascii_of_N 9) EmptyString.

Definition backslash : string := String (ascii_of_N 92) EmptyString.

(** The loop of [is_driver_installed]: [Some path] when the loop returns
    [driver_path], [None] when it runs to the end. *)
Fixpoint driver_scan (lines : list string) (local_driver driver_path : string)
  : option string :=
  match lines with
  | [] => None
  | line :: rest =>
      match rmatch RE_DRIVER line with
      | Some m => driver_scan rest (group 1 m) EmptyString
      | None =>
      match rmatch RE_DRIVER_PATH line with
      | Some m =>
          let driver_path := group 1 m in
          if local_driver =? DRIVER then Some driver_path
          else driver_scan rest local_driver driver_path
      | None => driver_scan rest local_driver driver_path
      end end
  end.

(** The loop of [load_platform_env_and_check] over the entries of the
    output of [env -0]. *)
Fixpoint read_env (entries : list string) (env : dict) : dict :=
  match entries with
  | [] => env
  | kv :: rest =>
      match kv with
      | EmptyString => read_env rest env
      | _ =>
          match split_once "=" kv with
          | Some (k, v) => read_env rest (dict_set k v env)
          | None => read_env rest env
          end
      end
  end.

Definition NUL : ascii := ascii_of_N 0.

Section Program.
Context {W : Type} {P : Platform W} {I : Interpreter}.

(** The assignment to the global [NOISY]. *)
Definition set_noisy (n : Z) : M W unit :=
  fun st => (Ret tt, State (world st) n (log st)).

Definition versioninfo : M W unit :=
  print ("IBM " ++ APP_NAME ++ " version " ++ APP_VERSION) ;;
  print "Copyright (C) 2004, IBM Corporation." ;;
  print "Author(s) Ryan S. Arnold".

Definition helpinfo : M W unit :=
  print ("Usage: " ++ APP_NAME ++ " [options]") ;;
  print "Options:" ;;
  print " -all" ;;
  print (tab ++ tab ++ tab ++ "Close all open vty-server adapter connections.") ;;
  print EmptyString ;;
  print (" -close </dev/" ++ DRIVER ++ "*>") ;;
  print (tab ++ "Close the vty-server adapter connection for the") ;;
  print (tab ++ tab ++ tab ++ DRIVER ++ " device node specified in the option.") ;;
  print EmptyString ;;
  print " -console <partition>" ;;
  print (tab ++ "Which /dev/" ++ DRIVER ++ backslash ++ "* node provides the console for") ;;
  print (tab ++ tab ++ tab ++ "the option specified partition?") ;;
  print EmptyString ;;
  print " -help" ;;
  print (tab ++ tab ++ tab ++ "Output this help text.") ;;
  print EmptyString ;;
  print (" -node </dev/" ++ DRIVER ++ "*>") ;;
  print (tab ++ "Which vty-server adapter is mapped to the option") ;;
  print (tab ++ tab ++ tab ++ "specified /dev/" ++ DRIVER ++ backslash ++ "* node?") ;;
  print EmptyString ;;
  print " -noisy" ;;
  print (tab ++ tab ++ tab ++ "This is a stackable directive denoting the verbosity") ;;
  print (tab ++ tab ++ tab ++ "of the " ++ APP_NAME ++ " script.  The default noise level of") ;;
  print (tab ++ tab ++ tab ++ "'0' makes " ++ APP_NAME ++ " silent on success but verbose on") ;;
  print (tab ++ tab ++ tab ++ "error. A noise level of '1' will output additional") ;;
  print (tab ++ tab ++ tab ++ "success information.  A noisy level of '2' will") ;;
  print (tab ++ tab ++ tab ++ "output " ++ APP_NAME ++ " script trace information.") ;;
  print EmptyString ;;
  print (tab ++ tab ++ tab ++ "NOTE: options for which " ++ APP_NAME ++ " queries data are") ;;
  print (tab ++ tab ++ tab ++ "not squelched with the default noise level.") ;;
  print EmptyString ;;
  print " -rescan" ;;
  print (tab ++ tab ++ "Direct the hvcs driver to rescan partner info") ;;
  print (tab ++ tab ++ tab ++ "for all vty-server adapters.") ;;
  print EmptyString ;;
  print " -status" ;;
  print (tab ++ tab ++ "Output a table with each row containing a vty-server,") ;;
  print (tab ++ tab ++ tab ++ "adapter, its /dev/" ++ DRIVER ++ backslash ++ "* device node mapping, and") ;;
  print (tab ++ tab ++ tab ++ "its connection status.  " ++ quoted "vterm_state:0" ++ " means it is") ;;
  print (tab ++ tab ++ tab ++ "free and " ++ quoted "vterm_state:1" ++ " means the vty-server is") ;;
  print (tab ++ tab ++ tab ++ "connected to its vty partner adapter.") ;;
  print EmptyString ;;
  print (" -version" ++ tab ++ tab ++ "Output the " ++ APP_NAME ++ " script's version number.") ;;
  print EmptyString.

Definition is_driver_installed : M W string :=
  verboseprint (APP_NAME ++ ": is " ++ DRIVER ++ " loaded." ++ nl) ;;
  proc <- run_cmd "systool -b vio -D -p" ;;
  if negb (returncode proc =? 0)%Z then
    errorprint ("systool:  " ++ or_else (stderr proc) "unknown error" ++ nl) ;;
    ret EmptyString
  else
    match driver_scan (splitlines (stdout proc)) EmptyString EmptyString with
    | Some driver_path =>
        verboseprint (APP_NAME ++ ": verified that " ++ DRIVER ++ " is loaded at "
                        ++ driver_path ++ "." ++ nl) ;;
        ret driver_path
    | None =>
        errorprint (APP_NAME ++ ": " ++ DRIVER ++ " is not loaded." ++ nl) ;;
        ret EmptyString
    end.

Definition findsystools : M W Z :=
  proc <- run_cmd "which systool" ;;
  let whichline := strip (or_else (stdout proc) EmptyString) in
  verboseprint (APP_NAME ++ ": looking for " ++ quoted "systool" ++ " application." ++ nl) ;;
  if whichline =? EmptyString then
    errorprint (APP_NAME ++ ": systool is not installed or not in the path?" ++ nl) ;;
    errorprint (APP_NAME ++ ": systool is required by the " ++ APP_NAME ++ " script." ++ nl) ;;
    ret (-1)%Z
  else
    verboseprint (APP_NAME ++ ": found " ++ quoted "systool" ++ " at " ++ whichline ++ "." ++ nl) ;;
    ret 0%Z.

Definition is_none {A} (o : option A) : bool :=
  match o with Some _ => false | None => true end.

Definition load_platform_env_and_check : M W unit :=
  let bash_cmd := ". " ++ shlex.quote PSERIES_PLATFORM ++ "; env -0" in
  proc <- run_cmd ("bash -c " ++ shlex.quote bash_cmd) ;;
  let env := read_env (split NUL (or_else (stdout proc) EmptyString)) [] in
  if is_none (dict_get "platform" env)
     || is_none (dict_get "PLATFORM_PSERIES_LPAR" env) then
    errorprint (APP_NAME ++ ": failed to read platform variables from the environment" ++ nl) ;;
    sys_exit 1
  else
    let unsupported : M W unit :=
      print (APP_NAME ++ ": is not supported on the "
                      ++ dict_get_or "platform_name" EmptyString env ++ " platform") ;;
      sys_exit 1 in
    match int int_max_str_digits (dict_get_or "platform" "-1" env),
          int int_max_str_digits (dict_get_or "PLATFORM_PSERIES_LPAR" "-2" env) with
    | Some platform, Some lpar =>
        if negb (platform =? lpar)%Z then unsupported else ret tt
    | _, _ => unsupported
    end.

Definition main (argv : list string) : M W unit :=
  load_platform_env_and_check ;;
  match parse_known_args argv with
  | ParseError usage message =>
      errorprint usage ;;
      errorprint message ;;
      sys_exit 2
  | Parsed args =>
      let num_options := length argv in
      if (num_options =? 0)%nat || help_flag args then helpinfo
      else if version args then versioninfo
      else
        set_noisy (Z.of_nat (noisy args)) ;;
        verboseprint (APP_NAME ++ ": executing in verbose mode." ++ nl) ;;
        r <- findsystools ;;
        if negb (r =? 0)%Z then sys_exit 1 else
        driver_path <- is_driver_installed ;;
        if driver_path =? EmptyString then sys_exit 1 else
        if status_flag args then status else
        (if rescan_flag args then rescan else ret tt) ;;
        if all_flag args then closeall else
        if negb (close_device args =? EmptyString) then
          closedevice (close_device args) else
        if negb (query_node args =? EmptyString) then
          querynode (query_node args) else
        if negb (query_console args =? EmptyString) then
          queryconsole (query_console args) else
        ret tt
  end.

End Program.
End Startup.

(** ** What the further properties are about *)

Module Behaviour.
Import Re CharClass Py Builtins Hvcsadmin Trace Claim Startup.

(** What was written to standard output, and the writes. *)
Definition printed (l : list event) : list string :=
  flat_map (fun e => match e with EvPrint Stdout s => [s] | _ => [] end) l.

Definition writes (l : list event) : list event := filter is_write l.

(** The commands that were run. *)
Definition commands_run (l : list event) : list string :=
  flat_map (fun e => match e with EvRun cmd => [cmd] | _ => [] end) l.

(** [obeys Q m]: in every world and at every noise level [n] the call
    [m] runs in a way that does not depend on the log, every event of
    the run satisfies [Q n], and the world is the same afterwards unless
    something was written. *)
Definition obeys {W A} (Q : Z -> event -> Prop) (m : M W A) : Prop :=
  forall w n, exists o w' evs,
    runs m w n o w' evs /\ Forall (Q n) evs /\ (writes evs = [] -> w' = w).

(** [steady m]: two runs of [m] from the same world at two noise levels
    end in the same way in the same world, and do and report the same. *)
Definition steady {W A} (m : M W A) : Prop :=
  forall w n n', exists o w' evs evs',
    runs m w n o w' evs /\ runs m w n' o w' evs'
    /\ actions evs = actions evs' /\ errors evs = errors evs'.

(** Events that are no writes; events that are no output at the noise
    level 0 or below; events that are no other write than that of 0 to
    a [vterm_state] attribute, or of 1 to a rescan attribute. *)
Definition no_write (n : Z) (e : event) : Prop := is_write e = false.

Definition quiet (n : Z) (e : event) : Prop :=
  (n <= 0)%Z -> forall s, e <> EvPrint Stdout s.

Definition closes_only (e : event) : Prop :=
  match e with
  | EvWrite path data => data = "0" /\ exists device_path, path = vstate device_path
  | _ => True
  end.

Definition rescans_only (e : event) : Prop :=
  match e with
  | EvWrite path data =>
      data = "1" /\ exists driver_path, path = path_join driver_path "rescan"
  | _ => True
  end.

(** A group of a search, empty when the search found nothing. *)
Definition field (m : option (list string)) (i : nat) : string :=
  match m with
  | Some g => group i g
  | None => EmptyString
  end.

(** The line that [displaybypath] prints for a device path and the
    contents of its three attributes. *)
Definition status_line (path current_vty vterm_state index : string) : string :=
  "vty-server@" ++ field (search RE_VTY_SERVER_HEX path) 1
    ++ " partition:" ++ field (search RE_CLC (strip current_vty)) 2
    ++ " slot:" ++ field (search RE_CLC (strip current_vty)) 3
    ++ " /dev/" ++ DRIVER ++ strip index
    ++ " vterm-state:" ++ strip vterm_state.

(** What [closedevice] says at the end, at the noise level 1 or above:
    the node is mapped to the adapter [name], whose connection was
    closed. *)
Definition msg_mapped (parameter name : string) : string :=
  APP_NAME ++ ": /dev/node/" ++ getnodename parameter ++ getindex parameter
           ++ " is mapped to vty-server@" ++ name ++ "." ++ nl.

Definition msg_closed (name : string) : string :=
  APP_NAME ++ ": closed vty-server@" ++ name ++ " partner adapter connection." ++ nl.


(** What [env -0] prints for a list of bindings: each name, an equals
    sign, the value and a NUL. *)
Definition env0 (bindings : list (string * string)) : string :=
  fold_right (fun kv out => fst kv ++ "=" ++ snd kv ++ String NUL out)
             EmptyString bindings.

(** A binding as [env -0] prints it, without the NUL. *)
Definition render (kv : string * string) : string :=
  fst kv ++ "=" ++ snd kv.

(** The character [c] does not occur in [s]. *)
Definition no_char (c : ascii) (s : string) : bool :=
  all (fun x => negb (Ascii.eqb x c)) s.

(** A binding that [env -0] can print: no equals sign in the name, no
    NUL in the name or in the value. *)
Definition binding_ok (kv : string * string) : bool :=
  no_char "=" (fst kv) && no_char NUL (fst kv) && no_char NUL (snd kv).

(** The command of [load_platform_env_and_check], the environment it
    reads from the output of the command, and its two messages. *)
Definition platform_command {I : Interpreter} : string :=
  "bash -c " ++ shlex.quote (". " ++ shlex.quote PSERIES_PLATFORM ++ "; env -0").

Definition platform_env (proc : completed) : dict :=
  read_env (split NUL (stdout proc)) [].

Definition msg_no_platform : string :=
  APP_NAME ++ ": failed to read platform variables from the environment" ++ nl.

Definition msg_unsupported (env : dict) : string :=
  APP_NAME ++ ": is not supported on the "
           ++ dict_get_or "platform_name" EmptyString env ++ " platform" ++ nl.

(** The two variables are bound in [env] to the same number. *)
Definition on_lpar {I : Interpreter} (env : dict) : Prop :=
  exists platform lpar number,
    dict_get "platform" env = Some platform
    /\ dict_get "PLATFORM_PSERIES_LPAR" env = Some lpar
    /\ int int_max_str_digits platform = Some number
    /\ int int_max_str_digits lpar = Some number.

(** The steps of [closedevice] and [querynode] before the resolution
    pass: the name, the index and the node of /dev. *)
Definition checks_pass {W} {P : Platform W} (w : W) (parameter : string) : Prop :=
  getnodename parameter = GLOBAL_NODE_NAME
  /\ rmatch RE_LEADING_ZERO (getindex parameter) = None
  /\ path_exists w (dev_node parameter) = true.

(** The checks of [main] before an operation pass in [w]: the platform
    is a partition, [which] finds systool, and systool lists a driver
    directory for the driver hvcs. *)
Definition ready {W} {P : Platform W} {I : Interpreter} (w : W) : Prop :=
  (exists proc,
      run_command w platform_command = Started proc
      /\ on_lpar (platform_env proc))
  /\ (exists proc,
         run_command w "which systool" = Started proc
         /\ strip (stdout proc) <> EmptyString)
  /\ (exists proc,
         run_command w systool_drivers = Started proc
         /\ returncode proc = 0%Z
         /\ hd EmptyString (Block.rescan_candidates [] (splitlines (stdout proc)))
            <> EmptyString).

(** The command line [argv] is parsed as [args] and asks for neither
    the help text nor the version. *)
Definition asks {I : Interpreter} (argv : list string) (args : namespace) : Prop :=
  parse_known_args argv = Parsed args
  /\ argv <> []
  /\ help_flag args = false
  /\ version args = false.

(** The operation that the options select after [-rescan]. *)
Definition selected {W} {P : Platform W} (args : namespace) : M W unit :=
  if all_flag args then closeall
  else if negb (close_device args =? EmptyString) then closedevice (close_device args)
  else if negb (query_node args =? EmptyString) then querynode (query_node args)
  else if negb (query_console args =? EmptyString) then queryconsole (query_console args)
  else ret tt.

(** The options of [args] that [main] looks at, the others cleared:
    [num_options] is the number of words of the command line. *)
Definition effective (num_options : nat) (args : namespace) : namespace :=
  if (num_options =? 0)%nat || help_flag args then
    Namespace false true 0 false false false EmptyString EmptyString EmptyString
  else if version args then
    Namespace false false 0 false false true EmptyString EmptyString EmptyString
  else if status_flag args then
    Namespace false false (noisy args) true false false
              EmptyString EmptyString EmptyString
  else if all_flag args then
    Namespace true false (noisy args) false (rescan_flag args) false
              EmptyString EmptyString EmptyString
  else if negb (close_device args =? EmptyString) then
    Namespace false false (noisy args) false (rescan_flag args) false
              EmptyString (close_device args) EmptyString
  else if negb (query_node args =? EmptyString) then
    Namespace false false (noisy args) false (rescan_flag args) false
              (query_node args) EmptyString EmptyString
  else
    Namespace false false (noisy args) false (rescan_flag args) false
              EmptyString EmptyString (query_console args).


(** The three attributes that [displaybypath] tests, in the order of
    the tests. *)
Definition displayed_attributes : list string :=
  ["current_vty"; "index"; "vterm_state"].

(** What [main] does after the options are read, when neither the help
    text nor the version is asked for; and what it does with the
    namespace of the options. *)
Definition after_options {W} {P : Platform W} (args : namespace) : M W unit :=
  verboseprint (APP_NAME ++ ": executing in verbose mode." ++ nl) ;;
  r <- findsystools ;;
  if negb (r =? 0)%Z then sys_exit 1 else
  driver_path <- is_driver_installed ;;
  if (driver_path =? EmptyString)%string then sys_exit 1 else
  if status_flag args then status else
  (if rescan_flag args then rescan else ret tt) ;;
  selected args.

Definition after_parse {W} {P : Platform W}
           (num_options : nat) (args : namespace) : M W unit :=
  if (num_options =? 0)%nat || help_flag args then helpinfo
  else if version args then versioninfo
  else set_noisy (Z.of_nat (noisy args)) ;; after_options args.

(** How a call ends when it ends with the call [m] and drops what [m]
    returns. *)
Definition forget {A} (o : outcome A) : outcome unit :=
  match o with
  | Ret _ => Ret tt
  | Exit c => Exit c
  | Raise => Raise
  end.

(** A run in which the noise level may change: from [n] to [n']. *)
Definition runs_to {W A} (m : M W A) (w : W) (n : Z)
           (o : outcome A) (w' : W) (n' : Z) (evs : list event) : Prop :=
  forall l, m (State w n l) = (o, State w' n' (l ++ evs)).

(** The character 3 does not occur in [s] before its last character. *)
Fixpoint last_three_only (s : string) : bool :=
  match s with
  | EmptyString => true
  | String c EmptyString => true
  | String c s' => negb (Ascii.eqb c "3") && last_three_only s'
  end.

(** The pattern of a unit address at the end of a path, for a class of
    digits: one character or more, then a group of a 3 and digits up to
    the end. *)
Definition unit_pattern (q : ascii -> bool) : pattern :=
  [Plus dot; Open; Chr "3"; Plus q; Close; Eol].

(** The last character of a string, [d] when it is empty. *)
Fixpoint last_char (s : string) (d : ascii) : ascii :=
  match s with
  | EmptyString => d
  | String c s' => last_char s' c
  end.

End Behaviour.

(** ** An interpreter and more worlds for examples *)

Module Scenario.
Import CharClass Py Builtins Hvcsadmin Startup Fixture Behaviour.

Definition no_options : namespace :=
  Namespace false false 0 false false false EmptyString EmptyString EmptyString.

Definition set_all (a : namespace) : namespace :=
  Namespace true (help_flag a) (noisy a) (status_flag a) (rescan_flag a)
            (version a) (query_node a) (close_device a) (query_console a).

Definition set_help (a : namespace) : namespace :=
  Namespace (all_flag a) true (noisy a) (status_flag a) (rescan_flag a)
            (version a) (query_node a) (close_device a) (query_console a).

Definition count_noisy (a : namespace) : namespace :=
  Namespace (all_flag a) (help_flag a) (S (noisy a)) (status_flag a)
            (rescan_flag a) (version a) (query_node a) (close_device a)
            (query_console a).

Definition set_status (a : namespace) : namespace :=
  Namespace (all_flag a) (help_flag a) (noisy a) true (rescan_flag a)
            (version a) (query_node a) (close_device a) (query_console a).

Definition set_rescan (a : namespace) : namespace :=
  Namespace (all_flag a) (help_flag a) (noisy a) (status_flag a) true
            (version a) (query_node a) (close_device a) (query_console a).

Definition set_version (a : namespace) : namespace :=
  Namespace (all_flag a) (help_flag a) (noisy a) (status_flag a)
            (rescan_flag a) true (query_node a) (close_device a)
            (query_console a).

Definition set_node (v : string) (a : namespace) : namespace :=
  Namespace (all_flag a) (help_flag a) (noisy a) (status_flag a)
            (rescan_flag a) (version a) v (close_device a) (query_console a).

Definition set_close (v : string) (a : namespace) : namespace :=
  Namespace (all_flag a) (help_flag a) (noisy a) (status_flag a)
            (rescan_flag a) (version a) (query_node a) v (query_console a).

Definition set_console (v : string) (a : namespace) : namespace :=
  Namespace (all_flag a) (help_flag a) (noisy a) (status_flag a)
            (rescan_flag a) (version a) (query_node a) (close_device a) v.

(** A word that can be the value of an option: it does not start with a
    dash. *)
Definition is_value (word : string) : bool :=
  negb (String.prefix "-" word).

(** A parser for the examples.  It reads the command lines in which
    every option is spelled in full and an option that takes a value
    finds it in the next word, and on these it returns what the parser
    of [main] returns; it leaves aside the words that are no options,
    and it rejects every other command line. *)
Fixpoint spelled_out (argv : list string) (a : namespace) : parsed :=
  match argv with
  | [] => Parsed a
  | word :: rest =>
      if word =? "-all" then spelled_out rest (set_all a)
      else if (word =? "-help") || (word =? "-?") then spelled_out rest (set_help a)
      else if word =? "-noisy" then spelled_out rest (count_noisy a)
      else if word =? "-status" then spelled_out rest (set_status a)
      else if word =? "-rescan" then spelled_out rest (set_rescan a)
      else if word =? "-version" then spelled_out rest (set_version a)
      else if (word =? "-node") || (word =? "-close") || (word =? "-console") then
        match rest with
        | value :: rest' =>
            if is_value value then
              spelled_out rest'
                          (if word =? "-node" then set_node value a
                           else if word =? "-close" then set_close value a
                           else set_console value a)
            else ParseError "usage" (word ++ ": expected one argument")
        | [] => ParseError "usage" (word ++ ": expected one argument")
        end
      else if is_value word then spelled_out rest a
      else ParseError "usage" (word ++ ": not spelled in full")
  end.

#[export] Instance python : Interpreter := {
  PSERIES_PLATFORM := "/usr/sbin/pseries_platform";
  int_max_str_digits := 4300;
  parse_known_args argv := spelled_out argv no_options
}.

(** The command of [load_platform_env_and_check] for [python]. *)
Definition bash_command : string :=
  "bash -c '. /usr/sbin/pseries_platform; env -0'".

Definition lpar_env : string :=
  env0 [ ("PATH", "/usr/sbin:/usr/bin"); ("platform", "4");
         ("platform_name", "PowerVM pSeries LPAR");
         ("PLATFORM_PSERIES_LPAR", "4"); ("PLATFORM_POWERNV", "2") ].

Definition powernv_env : string :=
  env0 [ ("PATH", "/usr/sbin:/usr/bin"); ("platform", "2");
         ("platform_name", "PowerNV Host");
         ("PLATFORM_PSERIES_LPAR", "4"); ("PLATFORM_POWERNV", "2") ].

Definition startup_commands (env : string) : list (string * string) :=
  [ (bash_command, env); ("which systool", eol "/usr/bin/systool") ].

(** A partition with the four adapters of [w0], where every write goes
    through; the same with the second connected adapter refusing the
    write; and a PowerNV host. *)
Definition lpar : sim :=
  Sim sys_files [] [] (dev w0) (startup_commands lpar_env ++ sys_commands).

Definition lpar_denied : sim :=
  Sim sys_files [] ["/sys/devices/vio/30000006/vterm_state"] (dev w0)
      (startup_commands lpar_env ++ sys_commands).

Definition powernv : sim :=
  Sim sys_files [] [] (dev w0) (startup_commands powernv_env ++ sys_commands).

(** A node of /dev that maps to no adapter. *)
Definition w_unmapped : sim :=
  Sim sys_files [] [] ["hvcs5"] sys_commands.

(** An adapter in the slot 10: its unit address ends in a letter. *)
Definition vio_index_hex : string :=
  unlines ([ line "  " "Driver" "hvcs";
             line "  " "Driver path" "/sys/bus/vio/drivers/hvcs" ]
             ++ device "3000000a" "index" "0").

Definition w_hex : sim :=
  Sim (attributes "3000000a" "1" "0" "U9406.520.100048A-V15-C10") [] []
      ["hvcs0"] [ ("systool -b vio -D -A index -p", vio_index_hex) ].

(** An adapter without its index attribute. *)
Definition w_partial : sim :=
  Sim [ ("/sys/devices/vio/30000004/current_vty",
         eol "U9406.520.100048A-V15-C0");
        ("/sys/devices/vio/30000004/vterm_state", eol "0") ] [] [] [] [].


Definition lpar_bare : sim :=
  Sim sys_files [] [] (dev w0) [ (bash_command, lpar_env) ].

Definition lpar_unloaded : sim :=
  Sim sys_files [] [] (dev w0)
      (startup_commands lpar_env ++ [ ("systool -b vio -D -p", EmptyString) ]).

(** A /dev without a node of one digit. *)
Definition w_no_nodes : sim :=
  Sim sys_files [] [] ["tty1"; "hvcs10"; "hvcs"; "hvcs1x"] sys_commands.

End Scenario.

(** * Properties *)

(** ** Facts about the matcher *)

Module ReFacts.
Import Re.

Lemma append_nil_r (s : string) : s ++ EmptyString = s.
Proof. induction s; simpl; congruence. Qed.

Lemma append_assoc (a b c : string) : (a ++ b) ++ c = a ++ (b ++ c).
Proof. induction a; simpl; congruence. Qed.

Lemma all_app p (a b : string) : all p (a ++ b) = all p a && all p b.
Proof.
  induction a as [|c a IH]; simpl; [reflexivity|].
  now rewrite IH, andb_assoc.
Qed.

Lemma all_impl (p q : ascii -> bool) (s : string) :
  (forall c, p c = true -> q c = true) -> all p s = true -> all q s = true.
Proof.
  intros Hpq. induction s as [|c s IH]; simpl; [reflexivity|].
  intros H. apply andb_true_iff in H as [Hc Hs].
  now rewrite (Hpq _ Hc), IH.
Qed.

Lemma pushs_nil cur : pushs EmptyString cur = cur.
Proof. destruct cur; simpl; [now rewrite append_nil_r | reflexivity]. Qed.

Lemma pushs_push c u cur : pushs u (push c cur) = pushs (String c u) cur.
Proof. destruct cur; simpl; [now rewrite append_assoc | reflexivity]. Qed.

Lemma pushs_app u v cur : pushs v (pushs u cur) = pushs (u ++ v) cur.
Proof. destruct cur; simpl; [now rewrite append_assoc | reflexivity]. Qed.

Section StarFacts.
Context {R : Type}.
Variable p : ascii -> bool.
Variable k : bool -> string -> option string -> option R.

(** A successful repetition took a prefix in the class and handed the
    rest to the continuation. *)
Lemma star_inv s : forall b cur r,
  star p k b s cur = Some r ->
  exists u v b', s = u ++ v /\ all p u = true
                 /\ k b' v (pushs u cur) = Some r.
Proof.
  induction s as [|c s IH]; intros b cur r H; simpl in H.
  - exists EmptyString, EmptyString, b. rewrite pushs_nil; repeat split; assumption.
  - destruct (p c) eqn:Hc.
    + destruct (star p k false s (push c cur)) as [r'|] eqn:Hs.
      * injection H as <-.
        destruct (IH _ _ _ Hs) as (u & v & b' & -> & Hu & Hk).
        exists (String c u), v, b'. simpl. rewrite Hc, Hu.
        now rewrite <- pushs_push.
      * exists EmptyString, (String c s), b. rewrite pushs_nil; simpl; rewrite ?Hc, ?Hs; repeat split; assumption.
    + exists EmptyString, (String c s), b. rewrite pushs_nil; simpl; rewrite ?Hc, ?Hs; repeat split; assumption.
Qed.

(** Greedy: when the repetition succeeds after a prefix in the class,
    it succeeds with the same result from before that prefix. *)
Lemma star_greedy u : forall v b cur r,
  all p u = true ->
  star p k (match u with EmptyString => b | _ => false end) v (pushs u cur)
  = Some r ->
  star p k b (u ++ v) cur = Some r.
Proof.
  induction u as [|c u IH]; intros v b cur r Hu H; simpl in *.
  - now rewrite pushs_nil in H.
  - apply andb_true_iff in Hu as [Hc Hu]. rewrite Hc.
    rewrite <- pushs_push in H.
    rewrite (IH v false (push c cur) r Hu); [reflexivity|].
    now destruct u.
Qed.

(** The repetition stops at a character outside the class. *)
Lemma star_stop c s b cur :
  p c = false -> star p k b (String c s) cur = k b (String c s) cur.
Proof. intros H. cbn [star]. now rewrite H. Qed.

(** When the continuation fails after every non-empty prefix, the
    repetition falls back to taking nothing. *)
Lemma star_fallback w : forall b cur,
  (forall u v, w = u ++ v -> u <> EmptyString ->
               k false v (pushs u cur) = None) ->
  star p k b w cur = k b w cur.
Proof.
  induction w as [|c w IH]; intros b cur H; cbn [star]; [reflexivity|].
  destruct (p c); [|reflexivity].
  rewrite IH.
  - assert (E : k false w (pushs (String c EmptyString) cur) = None)
      by (apply H; [reflexivity | discriminate]).
    change (pushs (String c EmptyString) cur) with (push c cur) in E.
    now rewrite E.
  - intros u v -> Hu. rewrite pushs_push.
    apply (H (String c u) v eq_refl). discriminate.
Qed.

Lemma plus_inv s cur r :
  plus p k s cur = Some r ->
  exists c u v b', s = String c u ++ v /\ all p (String c u) = true
                   /\ k b' v (pushs (String c u) cur) = Some r.
Proof.
  destruct s as [|c s]; simpl; [discriminate|].
  destruct (p c) eqn:Hc; [|discriminate]. intros H.
  destruct (star_inv _ _ _ _ H) as (u & v & b' & -> & Hu & Hk).
  exists c, u, v, b'. simpl. rewrite Hc, Hu, <- pushs_push. auto.
Qed.

Lemma plus_inv' s cur r :
  plus p k s cur = Some r ->
  exists u v b', s = u ++ v /\ u <> EmptyString /\ all p u = true
                 /\ k b' v (pushs u cur) = Some r.
Proof.
  intros H. apply plus_inv in H as (c & u & v & b' & -> & Hu & Hk).
  exists (String c u), v, b'. repeat split; auto. discriminate.
Qed.

Lemma plus_greedy c u v cur r :
  all p (String c u) = true ->
  star p k false v (pushs (String c u) cur) = Some r ->
  plus p k (String c u ++ v) cur = Some r.
Proof.
  simpl. intros H Hk. apply andb_true_iff in H as [Hc Hu]. rewrite Hc.
  rewrite <- pushs_push in Hk. apply star_greedy; [exact Hu|].
  now destruct u.
Qed.

Lemma plus_greedy' u v cur r :
  u <> EmptyString ->
  all p u = true ->
  star p k false v (pushs u cur) = Some r ->
  plus p k (u ++ v) cur = Some r.
Proof.
  destruct u as [|c u]; [congruence|]. intros _. apply plus_greedy.
Qed.

(** When the continuation refuses what the class accepts and ignores
    the beginning-of-subject flag, the repetition just drops the
    longest prefix in the class. *)
Lemma star_skip s : forall b,
  (forall b' c t, p c = true -> k b' (String c t) None = None) ->
  (forall b1 b2 t, k b1 t None = k b2 t None) ->
  star p k b s None = k b (dropwhile p s) None.
Proof.
  intros b Hfail Hflag. revert b.
  induction s as [|c s IH]; intros b; simpl; [reflexivity|].
  destruct (p c) eqn:Hc; [|reflexivity].
  rewrite IH. destruct (k false (dropwhile p s) None) eqn:Hk.
  - now rewrite (Hflag b false), Hk.
  - now rewrite Hfail, (Hflag b false), Hk.
Qed.
End StarFacts.

(** Whether a repetition succeeds depends only on whether its
    continuation does.  *)
Lemma star_is_some {R1 R2} p
      (k1 : bool -> string -> option string -> option R1)
      (k2 : bool -> string -> option string -> option R2) s :
  (forall b t c1 c2, k1 b t c1 = None <-> k2 b t c2 = None) ->
  forall b c1 c2, star p k1 b s c1 = None <-> star p k2 b s c2 = None.
Proof.
  intros Hk. induction s as [|c s IH]; intros b c1 c2; simpl; [apply Hk|].
  destruct (p c); [|apply Hk].
  specialize (IH false (push c c1) (push c c2)).
  destruct (star p k1 false s (push c c1)), (star p k2 false s (push c c2));
    try (split; discriminate).
  - exfalso. destruct IH as [_ IH]. now specialize (IH eq_refl).
  - exfalso. destruct IH as [IH _]. now specialize (IH eq_refl).
  - apply Hk.
Qed.

(** Literal text matches itself and nothing else. *)
Lemma run_lit a : forall r b t cur done,
  run (lit a ++ r)%list b (a ++ t) cur done
  = run r (match a with EmptyString => b | _ => false end) t (pushs a cur) done.
Proof.
  induction a as [|c a IH]; intros; simpl.
  - now rewrite pushs_nil.
  - rewrite Ascii.eqb_refl, IH, pushs_push. now destruct a.
Qed.

Lemma run_lit_cont a : forall r b s cur done g,
  run (lit a ++ r)%list b s cur done = Some g ->
  exists t, s = a ++ t
            /\ run r (match a with EmptyString => b | _ => false end) t
                   (pushs a cur) done = Some g.
Proof.
  induction a as [|c a IH]; intros r b s cur done g H; cbn [lit app run] in H.
  - exists s. now rewrite pushs_nil.
  - destruct s as [|x s]; [discriminate|].
    destruct (Ascii.eqb_spec x c) as [->|]; [|discriminate].
    destruct (IH _ _ _ _ _ _ H) as (t & -> & Ht). exists t. split; [reflexivity|].
    rewrite pushs_push in Ht. now destruct a.
Qed.

Lemma run_lit_inv a : forall r b s cur done g,
  run (lit a ++ r)%list b s cur done = Some g ->
  exists t, s = a ++ t.
Proof.
  intros r b s cur done g H.
  apply run_lit_cont in H as (t & -> & _). now exists t.
Qed.

End ReFacts.

(** ** Facts about the patterns of the script *)

Module PatternFacts.
Import Re CharClass ReFacts Hvcsadmin.

(** Case analysis on a subject against literal pattern characters. *)
Ltac eat H :=
  repeat (simpl in H;
          match type of H with
          | match ?s with EmptyString => _ | String _ _ => _ end = Some _ =>
              destruct s; [discriminate H|]
          | (if Ascii.eqb ?a ?c then _ else _) = Some _ =>
              destruct (Ascii.eqb_spec a c); [subst a | discriminate H]
          end).

(** The line starts, after blanks, with [key]. *)
Definition leads (key line : string) : Prop :=
  exists t, dropwhile space line = key ++ t.

Lemma lead_key k0 key rest line g :
  space k0 = false ->
  rmatch ([Bol; Star space] ++ lit (String k0 key) ++ rest)%list line = Some g ->
  leads (String k0 key) line.
Proof.
  intros Hk0 H. unfold rmatch in H. cbn [app run] in H.
  rewrite star_skip in H.
  - eapply run_lit_inv. exact H.
  - intros b' c t Hc. cbn [lit app run].
    destruct (Ascii.eqb_spec c k0) as [->|]; [congruence | reflexivity].
  - reflexivity.
Qed.

Lemma driver_leads l g : rmatch RE_DRIVER l = Some g -> leads "Driver = " l.
Proof. intros H. eapply lead_key; [reflexivity | exact H]. Qed.

Lemma driver_path_leads l g :
  rmatch RE_DRIVER_PATH l = Some g -> leads "Driver path = " l.
Proof. intros H. eapply lead_key; [reflexivity | exact H]. Qed.

Lemma device_path_leads l g :
  rmatch RE_DEVICE_PATH l = Some g -> leads "Device path = " l.
Proof. intros H. eapply lead_key; [reflexivity | exact H]. Qed.

Lemma device_leads l g : rmatch RE_DEVICE l = Some g -> leads "Device = " l.
Proof. intros H. eapply lead_key; [reflexivity | exact H]. Qed.

Lemma vterm_state_leads l g :
  rmatch RE_VTERM_STATE l = Some g -> leads "vterm_state" l.
Proof. intros H. eapply lead_key; [reflexivity | exact H]. Qed.

Lemma index_leads l g : rmatch RE_INDEX l = Some g -> leads "index" l.
Proof. intros H. eapply lead_key; [reflexivity | exact H]. Qed.

Lemma current_vty_leads l g :
  rmatch RE_CURRENT_VTY l = Some g -> leads "current_vty" l.
Proof. intros H. eapply lead_key; [reflexivity | exact H]. Qed.

(** Two keys that differ before either ends cannot lead the same line. *)
Ltac clash :=
  match goal with
  | H1 : leads _ ?l, H2 : leads _ ?l |- _ =>
      let t1 := fresh in let t2 := fresh in
      destruct H1 as [t1 H1]; destruct H2 as [t2 H2];
      rewrite H1 in H2; simpl in H2; congruence
  end.

(** [pat] does not match a line that [other] matches. *)
Ltac exclude pat lead_pat :=
  match goal with
  | |- rmatch pat ?l = None =>
      let E := fresh in
      destruct (rmatch pat l) eqn:E; [exfalso | reflexivity];
      apply lead_pat in E
  end.

(** A line has at most one of the shapes the scans look for. *)
Lemma index_exclusive l g :
  rmatch RE_INDEX l = Some g ->
  rmatch RE_DRIVER l = None /\ rmatch RE_DEVICE_PATH l = None.
Proof.
  intros H. apply index_leads in H. split.
  - exclude RE_DRIVER driver_leads. clash.
  - exclude RE_DEVICE_PATH device_path_leads. clash.
Qed.

Lemma current_vty_exclusive l g :
  rmatch RE_CURRENT_VTY l = Some g ->
  rmatch RE_DRIVER l = None /\ rmatch RE_DEVICE_PATH l = None.
Proof.
  intros H. apply current_vty_leads in H. split.
  - exclude RE_DRIVER driver_leads. clash.
  - exclude RE_DEVICE_PATH device_path_leads. clash.
Qed.

Lemma vterm_state_exclusive l g :
  rmatch RE_VTERM_STATE l = Some g ->
  rmatch RE_DRIVER l = None /\ rmatch RE_DEVICE_PATH l = None
  /\ rmatch RE_DEVICE l = None.
Proof.
  intros H. apply vterm_state_leads in H. repeat split.
  - exclude RE_DRIVER driver_leads. clash.
  - exclude RE_DEVICE_PATH device_path_leads. clash.
  - exclude RE_DEVICE device_leads. clash.
Qed.

Lemma driver_path_exclusive l g :
  rmatch RE_DRIVER_PATH l = Some g -> rmatch RE_DRIVER l = None.
Proof.
  intros H. apply driver_path_leads in H.
  exclude RE_DRIVER driver_leads. clash.
Qed.

Lemma device_path_exclusive l g :
  rmatch RE_DEVICE_PATH l = Some g -> rmatch RE_DRIVER l = None.
Proof.
  intros H. apply device_path_leads in H.
  exclude RE_DRIVER driver_leads. clash.
Qed.

(** *** The device node patterns *)

Definition eol_or_digit c := digit c || is_code 10 c.

Lemma at_eol_all tl : at_eol tl = true -> all eol_or_digit tl = true.
Proof.
  destruct tl as [|c [|]]; cbn [all at_eol]; try discriminate; auto.
  intros H. unfold eol_or_digit. now rewrite H, orb_true_r.
Qed.

Lemma at_eol_star {R} (k : bool -> string -> option string -> option R) tl cur :
  at_eol tl = true -> star digit k false tl cur = k false tl cur.
Proof.
  destruct tl as [|c [|]]; cbn [star at_eol]; try discriminate; auto.
  unfold is_code, digit, between. intros H. apply N.eqb_eq in H. now rewrite H.
Qed.

Lemma run_node_name_inv b s g :
  run RE_NODE_NAME b s None [] = Some g ->
  g = ["hvcs"] /\ exists ds tl, s = "hvcs" ++ ds ++ tl /\ ds <> EmptyString /\ all digit ds = true /\ at_eol tl = true.
Proof.
  unfold RE_NODE_NAME. intros H. eat H.
  apply plus_inv in H as (c & u & v & b' & -> & Hall & Hk).
  destruct (at_eol v) eqn:Hv; [|discriminate]. injection Hk as <-.
  split; [reflexivity|]. exists (String c u), v. repeat split; auto. discriminate.
Qed.

Lemma run_node_index_inv b s g :
  run RE_NODE_INDEX b s None [] = Some g ->
  exists ds tl, g = [ds] /\ s = "hvcs" ++ ds ++ tl /\ ds <> EmptyString /\ all digit ds = true /\ at_eol tl = true.
Proof.
  unfold RE_NODE_INDEX. intros H. eat H.
  apply plus_inv in H as (c & u & v & b' & -> & Hall & Hk).
  simpl in Hk.
  destruct (at_eol v) eqn:Hv; [|discriminate]. injection Hk as <-.
  exists (String c u), v. repeat split; auto. discriminate.
Qed.

Lemma run_node_name_ok b ds tl :
  ds <> EmptyString -> all digit ds = true -> at_eol tl = true ->
  run RE_NODE_NAME b ("hvcs" ++ ds ++ tl) None [] = Some ["hvcs"].
Proof.
  intros Hne Hd Htl. destruct ds as [|d ds]; [congruence|].
  unfold RE_NODE_NAME.
  cbn [app lit GLOBAL_NODE_NAME run append Ascii.eqb Bool.eqb push close].
  apply plus_greedy; [exact Hd|].
  rewrite at_eol_star by exact Htl. now rewrite Htl.
Qed.

Lemma run_node_index_ok b ds tl :
  ds <> EmptyString -> all digit ds = true -> at_eol tl = true ->
  run RE_NODE_INDEX b ("hvcs" ++ ds ++ tl) None [] = Some [ds].
Proof.
  intros Hne Hd Htl. destruct ds as [|d ds]; [congruence|].
  unfold RE_NODE_INDEX.
  cbn [app lit GLOBAL_NODE_NAME run append Ascii.eqb Bool.eqb push close].
  apply plus_greedy; [exact Hd|].
  rewrite at_eol_star by exact Htl. cbn [run pushs]. now rewrite Htl.
Qed.

Lemma no_earlier_match b c pre ds :
  ds <> EmptyString -> all digit ds = true ->
  run RE_NODE_INDEX b (String c pre ++ "hvcs" ++ ds) None [] = None.
Proof.
  intros Hne Hd.
  destruct (run RE_NODE_INDEX b (String c pre ++ "hvcs" ++ ds) None []) eqn:H; [|reflexivity].
  exfalso.
  apply run_node_index_inv in H as (ds' & tl & _ & E & _ & Hd' & Htl).
  assert (Hq : all eol_or_digit (ds' ++ tl) = true).
  { rewrite all_app, (at_eol_all _ Htl), andb_true_r.
    apply (all_impl digit); [|exact Hd'].
    intros x Hx. unfold eol_or_digit. now rewrite Hx. }
  simpl in E. injection E as -> E.
  destruct pre as [|c1 pre]; simpl in E; [discriminate E|]. injection E as -> E.
  destruct pre as [|c2 pre]; simpl in E; [discriminate E|]. injection E as -> E.
  destruct pre as [|c3 pre]; simpl in E; [discriminate E|]. injection E as -> E.
  rewrite <- E, all_app in Hq. simpl in Hq.
  now rewrite andb_false_r in Hq.
Qed.

Lemma getindex_suffix pre ds :
  ds <> EmptyString -> all digit ds = true ->
  getindex (pre ++ "hvcs" ++ ds) = ds.
Proof.
  intros Hne Hd. unfold getindex, search.
  assert (G : forall b, search_from RE_NODE_INDEX b (pre ++ "hvcs" ++ ds) = Some [ds]).
  { induction pre as [|c pre IH]; intros b.
    - pose proof (run_node_index_ok b ds EmptyString Hne Hd eq_refl) as H.
      rewrite append_nil_r in H.
      destruct ds; [congruence|]. cbn [append search_from] in *. now rewrite H.
    - cbn [append search_from].
      pose proof (no_earlier_match b c pre ds Hne Hd) as H. cbn [append] in H.
      rewrite H. apply IH. }
  now rewrite G.
Qed.

Lemma getnodename_suffix pre ds :
  ds <> EmptyString -> all digit ds = true ->
  getnodename (pre ++ "hvcs" ++ ds) = "hvcs".
Proof.
  intros Hne Hd. unfold getnodename, search.
  assert (G : forall b, search_from RE_NODE_NAME b (pre ++ "hvcs" ++ ds) = Some ["hvcs"]).
  { induction pre as [|c pre IH]; intros b.
    - pose proof (run_node_name_ok b ds EmptyString Hne Hd eq_refl) as H.
      rewrite append_nil_r in H.
      destruct ds; [congruence|]. cbn [append search_from] in *. now rewrite H.
    - cbn [append search_from].
      destruct (run RE_NODE_NAME b _ None []) eqn:H.
      + apply run_node_name_inv in H as [-> _]. reflexivity.
      + apply IH. }
  now rewrite G.
Qed.

End PatternFacts.

(** ** The lines that the patterns accept *)

Module LineFacts.
Import Re CharClass Py ReFacts Hvcsadmin Block PatternFacts.

Lemma at_eol_space t : at_eol t = true -> all space t = true.
Proof.
  destruct t as [|c [|]]; cbn [at_eol all]; try discriminate; [reflexivity|].
  unfold is_code, space, between. intros H. apply N.eqb_eq in H. now rewrite H.
Qed.

Lemma space_not_dquote c : space c = true -> Ascii.eqb c dquote = false.
Proof.
  intros Hc. destruct (Ascii.eqb_spec c dquote) as [->|]; [discriminate Hc | reflexivity].
Qed.

(** The tail of a key and value line: the value up to the last double
    quote, then blanks. *)
Lemma value_tail_grammar v tail b :
  all dot v = true -> all space tail = true ->
  run value_tail b (quoted v ++ tail) None [] = Some [v]%list.
Proof.
  intros Hv Ht. unfold value_tail, quoted.
  cbn [run append]. rewrite Ascii.eqb_refl. cbn [push run].
  rewrite append_assoc. apply star_greedy; [exact Hv|].
  cbn [append].
  rewrite star_fallback.
  - cbn [run pushs append close]. rewrite Ascii.eqb_refl. cbn [push].
    rewrite <- (append_nil_r tail). apply star_greedy; [exact Ht|].
    reflexivity.
  - intros u t E Hu. destruct u as [|c u]; [congruence|].
    cbn [append] in E. injection E as <- ->.
    rewrite all_app in Ht. apply andb_true_iff in Ht as [_ Ht].
    destruct t as [|a t]; [reflexivity|].
    cbn [all] in Ht. apply andb_true_iff in Ht as [Ha _].
    now rewrite (space_not_dquote _ Ha).
Qed.

Lemma value_tail_shape s b g :
  run value_tail b s None [] = Some g ->
  exists v tail,
    s = quoted v ++ tail /\ g = [v]%list
    /\ all dot v = true /\ all space tail = true.
Proof.
  unfold value_tail. intros H. eat H.
  apply star_inv in H as (v & t1 & b1 & -> & Hv & H).
  eat H.
  apply star_inv in H as (tail & t2 & b2 & -> & Ht & H).
  destruct (at_eol t2) eqn:He; [|discriminate H]. injection H as <-.
  exists v, (tail ++ t2). split; [|split; [reflexivity|split; [exact Hv|]]].
  - unfold quoted. cbn [append].
    repeat (progress (rewrite ?append_assoc; cbn [append])). reflexivity.
  - now rewrite all_app, Ht, (at_eol_space _ He).
Qed.

Lemma key_line_grammar k0 key indent v tail :
  space k0 = false ->
  all space indent = true -> all dot v = true -> all space tail = true ->
  rmatch (quoted_value (lit (String k0 key)))
         (key_line indent (String k0 key) v tail)
  = Some [v]%list.
Proof.
  intros Hk Hi Hv Ht. unfold rmatch, quoted_value, key_line.
  cbn [app run]. apply star_greedy; [exact Hi|].
  cbn [append]. rewrite star_stop by exact Hk.
  match goal with
  | |- context [String k0 (key ++ ?x)] =>
      change (String k0 (key ++ x)) with (String k0 key ++ x)
  end.
  rewrite run_lit. now apply value_tail_grammar.
Qed.

Lemma key_line_shape key line g :
  rmatch (quoted_value (lit key)) line = Some g ->
  exists indent v tail,
    line = key_line indent key v tail /\ g = [v]%list
    /\ all space indent = true /\ all dot v = true /\ all space tail = true.
Proof.
  unfold rmatch, quoted_value, key_line. cbn [app run]. intros H.
  apply star_inv in H as (indent & t0 & b0 & -> & Hi & H).
  apply run_lit_cont in H as (t1 & -> & H).
  cbn [pushs] in H.
  apply value_tail_shape in H as (v & tail & -> & -> & Hv & Ht).
  now exists indent, v, tail.
Qed.

Lemma attr_line_grammar n0 name indent gap v tail :
  space n0 = false ->
  all space indent = true -> all space gap = true ->
  all dot v = true -> all space tail = true ->
  rmatch (quoted_value (attr_key (String n0 name)))
         (attr_line indent (String n0 name) gap v tail)
  = Some [v]%list.
Proof.
  intros Hn Hi Hg Hv Ht. unfold rmatch, quoted_value, attr_key, attr_line.
  rewrite <- !app_assoc.
  cbn [app run]. apply star_greedy; [exact Hi|].
  cbn [append]. rewrite star_stop by exact Hn.
  match goal with
  | |- context [String n0 (name ++ ?x)] =>
      change (String n0 (name ++ x)) with (String n0 name ++ x)
  end.
  rewrite run_lit. cbn [app run].
  apply star_greedy; [exact Hg|].
  cbn [append]. rewrite star_stop by reflexivity.
  cbn [lit app run]. rewrite !Ascii.eqb_refl. cbn [push pushs].
  exact (value_tail_grammar v tail false Hv Ht).
Qed.

Lemma attr_line_shape name line g :
  rmatch (quoted_value (attr_key name)) line = Some g ->
  exists indent gap v tail,
    line = attr_line indent name gap v tail /\ g = [v]%list
    /\ all space indent = true /\ all space gap = true
    /\ all dot v = true /\ all space tail = true.
Proof.
  unfold rmatch, quoted_value, attr_key, attr_line.
  rewrite <- !app_assoc. cbn [app run]. intros H.
  apply star_inv in H as (indent & t0 & b0 & -> & Hi & H).
  apply run_lit_cont in H as (t1 & -> & H).
  cbn [pushs app run] in H.
  apply star_inv in H as (gap & t2 & b2 & -> & Hg & H).
  cbn [pushs] in H.
  cbn [lit app run] in H.
  destruct t2 as [|c1 t2]; [discriminate H|].
  destruct (Ascii.eqb_spec c1 "="); [subst c1|discriminate H].
  destruct t2 as [|c2 t2]; [discriminate H|].
  destruct (Ascii.eqb_spec c2 " "); [subst c2|discriminate H].
  cbn [push] in H.
  apply (value_tail_shape _ false) in H as (v & tail & -> & -> & Hv & Ht).
  exists indent, gap, v, tail. repeat split; try assumption; reflexivity.
Qed.

Ltac lits :=
  repeat (progress (cbn [app lit run push append close rev];
                    rewrite ?Ascii.eqb_refl, ?append_assoc)).

Ltac take_star H := apply star_greedy; [exact H|]; lits.
Ltac take_plus N H := apply plus_greedy'; [exact N | exact H|]; lits.
Ltac stop := rewrite star_stop by reflexivity; lits.


(** A [current_vty] line matches exactly when it is written as the
    grammar of location codes says, and its groups are the partition and
    the slot. *)
Lemma current_vty_grammar indent gap tail m1 m2 m3 p s :
  all space indent = true -> all space gap = true -> all space tail = true ->
  filled word m1 -> filled word m2 -> filled word m3 ->
  filled digit p -> filled digit s ->
  rmatch RE_CURRENT_VTY
         (indent ++ "current_vty" ++ gap ++ "= "
                 ++ quoted (location_code m1 m2 m3 p s) ++ tail)
  = Some [p; s]%list.
Proof.
  intros Hi Hg Ht [N1 W1] [N2 W2] [N3 W3] [Np Dp] [Ns Ds].
  unfold rmatch, RE_CURRENT_VTY, quoted, location_code.
  lits.
  take_star Hi. stop.
  take_star Hg. stop.
  take_plus N1 W1. stop.
  take_plus N2 W2. stop.
  take_plus N3 W3. stop.
  take_plus Np Dp. stop.
  take_plus Ns Ds. stop.
  rewrite <- (append_nil_r tail). take_star Ht.
  reflexivity.
Qed.

Lemma current_vty_shape line g :
  rmatch RE_CURRENT_VTY line = Some g ->
  exists indent gap tail m1 m2 m3 p s,
    line = indent ++ "current_vty" ++ gap ++ "= "
                  ++ quoted (location_code m1 m2 m3 p s) ++ tail
    /\ g = [p; s]%list
    /\ all space indent = true /\ all space gap = true /\ all space tail = true
    /\ filled word m1 /\ filled word m2 /\ filled word m3
    /\ filled digit p /\ filled digit s.
Proof.
  unfold rmatch, RE_CURRENT_VTY. cbn [app lit run]. intros H.
  apply star_inv in H as (indent & t0 & b0 & -> & Hi & H).
  eat H.
  apply star_inv in H as (gap & t1 & b1 & -> & Hg & H).
  eat H.
  apply plus_inv' in H as (m1 & t2 & b2 & -> & N1 & W1 & H). eat H.
  apply plus_inv' in H as (m2 & t3 & b3 & -> & N2 & W2 & H). eat H.
  apply plus_inv' in H as (m3 & t4 & b4 & -> & N3 & W3 & H). eat H.
  apply plus_inv' in H as (p & t5 & b5 & -> & Np & Dp & H). eat H.
  apply plus_inv' in H as (s & t6 & b6 & -> & Ns & Ds & H). eat H.
  apply star_inv in H as (tail & t7 & b7 & -> & Ht & H).
  destruct (at_eol t7) eqn:He; [|discriminate H].
  injection H as <-.
  exists indent, gap, (tail ++ t7), m1, m2, m3, p, s.
  split; [|split; [reflexivity|]].
  - unfold quoted, location_code.
    repeat (progress (rewrite ?append_assoc; cbn [append])). reflexivity.
  - rewrite all_app, Ht, (at_eol_space _ He). repeat split; assumption.
Qed.

(** The value of a line, read off the way it is written. *)
Lemma value_of_key_line k0 key line v :
  space k0 = false ->
  value_of (quoted_value (lit (String k0 key))) line = Some v
  <-> exists indent tail,
        line = key_line indent (String k0 key) v tail
        /\ all space indent = true /\ all dot v = true
        /\ all space tail = true.
Proof.
  intros Hk. unfold value_of. split.
  - destruct (rmatch (quoted_value (lit (String k0 key))) line) as [g|] eqn:E;
      [|discriminate].
    apply key_line_shape in E as (indent & v' & tail & -> & -> & Hi & Hv & Ht).
    intros [= <-]. now exists indent, tail.
  - intros (indent & tail & -> & Hi & Hv & Ht).
    now rewrite (key_line_grammar k0 key indent v tail Hk Hi Hv Ht).
Qed.

Lemma value_of_attr_line n0 name line v :
  space n0 = false ->
  value_of (quoted_value (attr_key (String n0 name))) line = Some v
  <-> exists indent gap tail,
        line = attr_line indent (String n0 name) gap v tail
        /\ all space indent = true /\ all space gap = true
        /\ all dot v = true /\ all space tail = true.
Proof.
  intros Hn. unfold value_of. split.
  - destruct (rmatch (quoted_value (attr_key (String n0 name))) line)
      as [g|] eqn:E; [|discriminate].
    apply attr_line_shape in E
      as (indent & gap & v' & tail & -> & -> & Hi & Hg & Hv & Ht).
    intros [= <-]. now exists indent, gap, tail.
  - intros (indent & gap & tail & -> & Hi & Hg & Hv & Ht).
    now rewrite (attr_line_grammar n0 name indent gap v tail Hn Hi Hg Hv Ht).
Qed.

Lemma location_of_line line p s :
  location_of line = Some (p, s)
  <-> exists indent gap tail m1 m2 m3,
        line = attr_line indent "current_vty" gap
                         (location_code m1 m2 m3 p s) tail
        /\ all space indent = true /\ all space gap = true
        /\ all space tail = true
        /\ filled word m1 /\ filled word m2 /\ filled word m3
        /\ filled digit p /\ filled digit s.
Proof.
  unfold location_of. split.
  - destruct (rmatch RE_CURRENT_VTY line) as [g|] eqn:E; [|discriminate].
    apply current_vty_shape in E
      as (indent & gap & tail & m1 & m2 & m3 & p' & s' & -> & -> & H).
    cbn [group Nat.sub nth]. intros [= <- <-].
    now exists indent, gap, tail, m1, m2, m3.
  - intros (indent & gap & tail & m1 & m2 & m3 & -> & Hi & Hg & Ht
            & H1 & H2 & H3 & Hp & Hs).
    unfold attr_line.
    now rewrite (current_vty_grammar indent gap tail m1 m2 m3 p s
                   Hi Hg Ht H1 H2 H3 Hp Hs).
Qed.

End LineFacts.

(** ** Facts about blocks and scans *)

Module BlockFacts.
Import Re Hvcsadmin Block.
Local Open Scope list_scope.

Lemma driver_of_snoc before line :
  driver_of (before ++ [line])%list
  = match value_of RE_DRIVER line with
    | Some name => name
    | None => driver_of before
    end.
Proof. unfold driver_of. now rewrite rev_app_distr. Qed.

Lemma device_path_of_snoc before line :
  device_path_of (before ++ [line])%list
  = match value_of RE_DRIVER line with
    | Some _ => EmptyString
    | None =>
        match value_of RE_DEVICE_PATH line with
        | Some path => path
        | None => device_path_of before
        end
    end.
Proof. unfold device_path_of. now rewrite rev_app_distr. Qed.

Lemma snoc_app {A} (before : list A) x mid :
  ((before ++ [x]) ++ mid = before ++ x :: mid)%list.
Proof. now rewrite <- app_assoc. Qed.

Section ScanFacts.
Context {A : Type}.
Variable attr : string -> option A.
Variable hit : A -> bool.
Hypothesis attr_exclusive : forall line a,
  attr line = Some a ->
  rmatch RE_DRIVER line = None /\ rmatch RE_DEVICE_PATH line = None.

(** One step of the scan: either the line resolves, or the scan goes
    on in the context of one more line. *)
Lemma scan_step line rest before :
  (attr_match attr hit before line
   /\ scan attr hit (line :: rest) (driver_of before) (device_path_of before)
      = Some (device_path_of before))
  \/ (~ attr_match attr hit before line
      /\ scan attr hit (line :: rest) (driver_of before) (device_path_of before)
         = scan attr hit rest (driver_of (before ++ [line]))
                (device_path_of (before ++ [line]))).
Proof.
  rewrite driver_of_snoc, device_path_of_snoc. unfold value_of.
  cbn [scan].
  destruct (rmatch RE_DRIVER line) as [m|] eqn:Hd.
  { right. split; [|reflexivity].
    intros (_ & a & Ha & _). apply attr_exclusive in Ha as [Ha _]. congruence. }
  destruct (rmatch RE_DEVICE_PATH line) as [m|] eqn:Hp.
  { right. split; [|reflexivity].
    intros (_ & a & Ha & _). apply attr_exclusive in Ha as [_ Ha]. congruence. }
  destruct (attr line) as [a|] eqn:Ha.
  - destruct (String.eqb_spec (driver_of before) DRIVER) as [Hdrv|Hdrv]; cbn [andb].
    + destruct (hit a) eqn:Hh.
      * left. split; [|reflexivity]. split; [exact Hdrv|]. now exists a.
      * right. split; [|reflexivity].
        intros (_ & a' & Ha' & Hh'). congruence.
    + right. split; [|reflexivity]. now intros (? & _).
  - right. split; [|reflexivity]. intros (_ & a' & Ha' & _). congruence.
Qed.

Lemma scan_some rest : forall before p,
  scan attr hit rest (driver_of before) (device_path_of before) = Some p
  <-> exists mid line after,
        rest = mid ++ line :: after
        /\ attr_match attr hit (before ++ mid) line
        /\ (forall m1 l1 m2, mid = m1 ++ l1 :: m2 ->
                             ~ attr_match attr hit (before ++ m1) l1)
        /\ p = device_path_of (before ++ mid).
Proof.
  induction rest as [|line rest IH]; intros before p.
  - split; [discriminate|]. intros (mid & l & after & E & _).
    now destruct mid.
  - destruct (scan_step line rest before) as [[Hm ->]|[Hn ->]].
    + split.
      * intros [= <-]. exists [], line, rest. rewrite app_nil_r.
        split; [reflexivity|]. split; [exact Hm|]. split; [|reflexivity].
        intros m1 l1 m2 E. now destruct m1.
      * intros (mid & l & after & E & Hl & Hfirst & ->).
        destruct mid as [|x mid]; cbn in E; [injection E as <- <- | injection E as <- ->].
        -- now rewrite app_nil_r.
        -- exfalso. apply (Hfirst [] line mid eq_refl).
           now rewrite app_nil_r.
    + rewrite IH. split.
      * intros (mid & l & after & -> & Hl & Hfirst & ->).
        exists (line :: mid), l, after. rewrite snoc_app in *.
        split; [reflexivity|]. split; [exact Hl|]. split; [|reflexivity].
        intros m1 l1 m2 E. destruct m1 as [|x m1]; cbn in E; [injection E as <- <- | injection E as <- ->].
        -- now rewrite app_nil_r.
        -- rewrite <- snoc_app. now apply (Hfirst m1 l1 m2).
      * intros (mid & l & after & E & Hl & Hfirst & ->).
        destruct mid as [|x mid]; cbn in E; [injection E as <- <- | injection E as <- ->].
        -- exfalso. apply Hn. now rewrite app_nil_r in Hl.
        -- exists mid, l, after. rewrite snoc_app.
           split; [reflexivity|]. split; [exact Hl|]. split; [|reflexivity].
           intros m1 l1 m2 ->. rewrite snoc_app.
           now apply (Hfirst (line :: m1) l1 m2).
Qed.

Lemma scan_none rest : forall before,
  scan attr hit rest (driver_of before) (device_path_of before) = None
  <-> forall mid line after,
        rest = mid ++ line :: after ->
        ~ attr_match attr hit (before ++ mid) line.
Proof.
  induction rest as [|line rest IH]; intros before.
  - split; [|reflexivity]. intros _ mid l after E. now destruct mid.
  - destruct (scan_step line rest before) as [[Hm ->]|[Hn ->]].
    + split; [discriminate|]. intros H. exfalso.
      apply (H [] line rest eq_refl). now rewrite app_nil_r.
    + rewrite IH. split.
      * intros H mid l after E.
        destruct mid as [|x mid]; cbn in E; [injection E as <- <- | injection E as <- ->].
        -- now rewrite app_nil_r.
        -- rewrite <- snoc_app. now apply (H mid l after).
      * intros H mid l after ->. rewrite snoc_app.
        now apply (H (line :: mid) l after).
Qed.
End ScanFacts.
End BlockFacts.

(** ** Rules for runs *)

Module Steps.
Import Re Py Hvcsadmin Trace.
Local Open Scope list_scope.

Section Rules.
Context {W : Type} {P : Platform W}.

Lemma runs_ret {A} (a : A) (w : W) n : runs (ret a) w n (Ret a) w [].
Proof. intros l. unfold ret. now rewrite app_nil_r. Qed.

Lemma runs_sys_exit {A} c (w : W) n :
  runs (@sys_exit W A c) w n (Exit c) w [].
Proof. intros l. unfold sys_exit. now rewrite app_nil_r. Qed.

Lemma runs_bind {A B} (m : M W A) (k : A -> M W B) w n a w1 e1 o w2 e2 :
  runs m w n (Ret a) w1 e1 ->
  runs (k a) w1 n o w2 e2 ->
  runs (bind m k) w n o w2 (e1 ++ e2).
Proof.
  intros H1 H2 l. unfold bind. now rewrite H1, H2, app_assoc.
Qed.

Lemma runs_bind_exit {A B} (m : M W A) (k : A -> M W B) w n c w1 e1 :
  runs m w n (Exit c) w1 e1 -> runs (bind m k) w n (Exit c) w1 e1.
Proof. intros H1 l. unfold bind. now rewrite H1. Qed.

Lemma runs_bind_raise {A B} (m : M W A) (k : A -> M W B) w n w1 e1 :
  runs m w n Raise w1 e1 -> runs (bind m k) w n Raise w1 e1.
Proof. intros H1 l. unfold bind. now rewrite H1. Qed.

Lemma runs_eq {A} (m : M W A) w n o w' e e' :
  runs m w n o w' e -> e = e' -> runs m w n o w' e'.
Proof. now intros H <-. Qed.

Lemma bind_unfold {A B} (m : M W A) (k : A -> M W B) st :
  bind m k st = match m st with
                | (Ret a, st') => k a st'
                | (Exit c, st') => (Exit c, st')
                | (Raise, st') => (Raise, st')
                end.
Proof. reflexivity. Qed.

(** A call runs in one way only. *)
Lemma runs_unique {A} (m : M W A) w n o1 w1 e1 o2 w2 e2 :
  runs m w n o1 w1 e1 -> runs m w n o2 w2 e2 ->
  o1 = o2 /\ w1 = w2 /\ e1 = e2.
Proof.
  intros H1 H2. specialize (H1 []). specialize (H2 []).
  rewrite H1 in H2. now injection H2 as -> -> ->.
Qed.

Lemma runs_emit e (w : W) n : runs (emit e) w n (Ret tt) w [e].
Proof. intros l. reflexivity. Qed.

Lemma runs_verboseprint s (w : W) n :
  runs (verboseprint s) w n (Ret tt) w (vmsg n s).
Proof.
  intros l. unfold verboseprint, vmsg, bind, get_noisy, sys_stdout_write,
    emit, ret. cbn.
  destruct (n >? 1)%Z; [reflexivity | now rewrite app_nil_r].
Qed.

Lemma runs_statusprint s (w : W) n :
  runs (statusprint s) w n (Ret tt) w (smsg n s).
Proof.
  intros l. unfold statusprint, smsg, bind, get_noisy, sys_stdout_write,
    emit, ret. cbn.
  destruct (n >? 0)%Z; [reflexivity | now rewrite app_nil_r].
Qed.

Lemma runs_errorprint s (w : W) n :
  runs (errorprint s) w n (Ret tt) w [EvPrint Stderr s].
Proof. intros l. reflexivity. Qed.

Lemma runs_print s (w : W) n :
  runs (print s) w n (Ret tt) w [EvPrint Stdout (s ++ nl)%string].
Proof. intros l. reflexivity. Qed.

Lemma runs_exists p (w : W) n :
  runs (os_path_exists p) w n (Ret (path_exists w p)) w [EvExists p].
Proof. intros l. reflexivity. Qed.

Lemma runs_listdir p (w : W) n :
  runs (os_listdir p) w n (Ret (listdir w p)) w [EvListdir p].
Proof. intros l. reflexivity. Qed.

Lemma runs_read p (w : W) n :
  runs (read_text p) w n
       (match read_file w p with Some s => Ret s | None => Raise end)
       w [EvRead p].
Proof.
  intros l. unfold read_text, bind, emit, get_world, ret, raise. cbn.
  now destruct (read_file w p).
Qed.

Lemma runs_read_ok p s (w : W) n :
  read_file w p = Some s -> runs (read_text p) w n (Ret s) w [EvRead p].
Proof. intros H. pose proof (runs_read p w n) as R. now rewrite H in R. Qed.

Lemma runs_read_fail p (w : W) n :
  read_file w p = None -> runs (read_text p) w n Raise w [EvRead p].
Proof. intros H. pose proof (runs_read p w n) as R. now rewrite H in R. Qed.

Lemma runs_write p d (w : W) n :
  runs (try_write_text p d) w n
       (Ret (fst (write_file w p d))) (snd (write_file w p d))
       [EvWrite p d].
Proof.
  intros l. unfold try_write_text, bind, emit, get_world, set_world, ret.
  cbn. now destruct (write_file w p d).
Qed.

Lemma runs_run_cmd cmd (w : W) n :
  exists o evs,
    runs (run_cmd cmd) w n o w evs
    /\ actions evs = [EvRun cmd]
    /\ match run_command w cmd with
       | Started proc => o = Ret proc /\ evs = [EvRun cmd]
       | PopenError _ => o = Exit 1%Z
       end.
Proof.
  unfold run_cmd. destruct (run_command w cmd) as [proc|e] eqn:E.
  - exists (Ret proc), [EvRun cmd]. split; [|now split].
    intros l. unfold bind, emit, get_world, ret. cbn. now rewrite E.
  - exists (Exit 1%Z),
      [EvRun cmd;
       EvPrint Stderr (APP_NAME ++ ": failed to run command: " ++ cmd
                         ++ ": " ++ e ++ nl)%string].
    split; [|now split].
    intros l. unfold bind, emit, get_world, errorprint, sys_exit. cbn.
    rewrite E. cbn. now rewrite <- app_assoc.
Qed.

(** The actions of a log are read piece by piece; messages leave none. *)
Lemma actions_app a b : actions (a ++ b) = actions a ++ actions b.
Proof. apply filter_app. Qed.

Lemma actions_vmsg n s : actions (vmsg n s) = [].
Proof. unfold vmsg. now destruct (n >? 1)%Z. Qed.

Lemma actions_smsg n s : actions (smsg n s) = [].
Proof. unfold smsg. now destruct (n >? 0)%Z. Qed.

Lemma errors_app a b : errors (a ++ b) = errors a ++ errors b.
Proof. apply flat_map_app. Qed.

Lemma errors_vmsg n s : errors (vmsg n s) = [].
Proof. unfold vmsg. now destruct (n >? 1)%Z. Qed.

Lemma errors_smsg n s : errors (smsg n s) = [].
Proof. unfold smsg. now destruct (n >? 0)%Z. Qed.

End Rules.

Create Rewrite HintDb trace.
#[export] Hint Rewrite @actions_app @actions_vmsg @actions_smsg
  @errors_app @errors_vmsg @errors_smsg app_nil_r app_nil_l : trace.

End Steps.

(** ** The resolvers *)

Module Resolve.
Import Re CharClass Py ReFacts Hvcsadmin Block Trace PatternFacts BlockFacts Steps.
Local Open Scope list_scope.

Definition index_test (target : string) (v : string) : bool := v =? target.

Definition console_test (target : string) (loc : string * string) : bool :=
  (target =? fst loc) && (snd loc =? "0").

Lemma index_scan_is_scan target lines : forall ld dp idx,
  index_scan target lines ld dp idx
  = scan (value_of RE_INDEX) (index_test target) lines ld dp.
Proof.
  induction lines as [|line rest IH]; intros ld dp idx; [reflexivity|].
  cbn [index_scan scan]. unfold value_of, index_test.
  destruct (rmatch RE_DRIVER line); [apply IH|].
  destruct (rmatch RE_DEVICE_PATH line); [apply IH|].
  destruct (rmatch RE_INDEX line); [|apply IH].
  now rewrite IH.
Qed.

Lemma partition_scan_is_scan target lines : forall ld fp fs dp,
  partition_scan target lines ld fp fs dp
  = scan location_of (console_test target) lines ld dp.
Proof.
  induction lines as [|line rest IH]; intros ld fp fs dp; [reflexivity|].
  cbn [partition_scan scan]. unfold location_of, console_test.
  destruct (rmatch RE_DRIVER line); [apply IH|].
  destruct (rmatch RE_DEVICE_PATH line); [apply IH|].
  destruct (rmatch RE_CURRENT_VTY line); [|apply IH].
  cbn [fst snd]. now rewrite IH, andb_assoc.
Qed.

Lemma index_attr_exclusive line a :
  value_of RE_INDEX line = Some a ->
  rmatch RE_DRIVER line = None /\ rmatch RE_DEVICE_PATH line = None.
Proof.
  unfold value_of. destruct (rmatch RE_INDEX line) eqn:E; [|discriminate].
  intros _. eapply index_exclusive, E.
Qed.

Lemma location_attr_exclusive line a :
  location_of line = Some a ->
  rmatch RE_DRIVER line = None /\ rmatch RE_DEVICE_PATH line = None.
Proof.
  unfold location_of. destruct (rmatch RE_CURRENT_VTY line) eqn:E; [|discriminate].
  intros _. eapply current_vty_exclusive, E.
Qed.

Lemma index_match_attr target before line :
  attr_match (value_of RE_INDEX) (index_test target) before line
  <-> index_match target before line.
Proof.
  unfold attr_match, index_match, index_test. split.
  - intros (Hd & a & Ha & He). apply String.eqb_eq in He. now subst.
  - intros (Hd & Ha). split; [exact Hd|]. exists target.
    now rewrite String.eqb_refl.
Qed.

Lemma console_match_attr target before line :
  attr_match location_of (console_test target) before line
  <-> console_match target before line.
Proof.
  unfold attr_match, console_match, console_test. split.
  - intros (Hd & [p s] & Ha & He). cbn in He.
    apply andb_true_iff in He as [Hp Hs].
    apply String.eqb_eq in Hp, Hs. now subst.
  - intros (Hd & Ha). split; [exact Hd|]. exists (target, "0"%string).
    cbn. now rewrite String.eqb_refl.
Qed.

(** The scan from the first line, for a test that agrees with [Q]. *)
Section FromStart.
Context {A : Type}.
Variable attr : string -> option A.
Variable hit : A -> bool.
Variable Q : list string -> string -> Prop.
Hypothesis attr_exclusive : forall line a,
  attr line = Some a ->
  rmatch RE_DRIVER line = None /\ rmatch RE_DEVICE_PATH line = None.
Hypothesis agree : forall before line,
  attr_match attr hit before line <-> Q before line.

Lemma scan_first lines p :
  scan attr hit lines EmptyString EmptyString = Some p
  <-> exists before line,
        first_such Q lines before line /\ p = device_path_of before.
Proof.
  change (scan attr hit lines EmptyString EmptyString)
    with (scan attr hit lines (driver_of []) (device_path_of [])).
  rewrite (scan_some attr hit attr_exclusive). cbn [app]. split.
  - intros (mid & line & after & -> & Hm & Hfirst & ->).
    exists mid, line. split; [|reflexivity]. split; [now exists after|].
    split; [now apply agree|].
    intros b1 l1 a1 E Hq. apply (Hfirst _ _ _ E). now apply agree.
  - intros (before & line & ([after ->] & Hq & Hfirst) & ->).
    exists before, line, after. split; [reflexivity|].
    split; [now apply agree|]. split; [|reflexivity].
    intros m1 l1 m2 E Hm. apply (Hfirst _ _ _ E). now apply agree.
Qed.

Lemma scan_nowhere lines :
  scan attr hit lines EmptyString EmptyString = None
  <-> none_such Q lines.
Proof.
  change (scan attr hit lines EmptyString EmptyString)
    with (scan attr hit lines (driver_of []) (device_path_of [])).
  rewrite (scan_none attr hit attr_exclusive). cbn [app]. unfold none_such.
  split; intros H before line after E Hq; apply (H _ _ _ E); now apply agree.
Qed.
End FromStart.

(** The loop of [get_device_path_by_index] returns at the first line
    that resolves the index, with the device path of its block, and
    runs to the end when none does. *)
Lemma index_scan_spec target lines :
  (forall p,
      index_scan target lines EmptyString EmptyString EmptyString = Some p
      <-> exists before line,
            first_such (index_match target) lines before line
            /\ p = device_path_of before)
  /\ (index_scan target lines EmptyString EmptyString EmptyString = None
      <-> none_such (index_match target) lines).
Proof.
  rewrite index_scan_is_scan. split; [intros p|].
  - apply scan_first; [apply index_attr_exclusive | apply index_match_attr].
  - apply scan_nowhere; [apply index_attr_exclusive | apply index_match_attr].
Qed.

Lemma partition_scan_spec target lines :
  (forall p,
      partition_scan target lines EmptyString EmptyString EmptyString EmptyString
      = Some p
      <-> exists before line,
            first_such (console_match target) lines before line
            /\ p = device_path_of before)
  /\ (partition_scan target lines EmptyString EmptyString EmptyString EmptyString
      = None
      <-> none_such (console_match target) lines).
Proof.
  rewrite partition_scan_is_scan. split; [intros p|].
  - apply scan_first; [apply location_attr_exclusive | apply console_match_attr].
  - apply scan_nowhere; [apply location_attr_exclusive | apply console_match_attr].
Qed.

End Resolve.

(** ** Closing one adapter *)

Module CloseFacts.
Import Re CharClass Py ReFacts Hvcsadmin Block Trace Claim PatternFacts BlockFacts Steps Resolve.
Local Open Scope list_scope.

Section Close.
Context {W : Type} {P : Platform W}.

Lemma runs_validindex ds (w : W) n :
  exists evs,
    runs (validindex ds) w n
         (Ret (if is_some (rmatch RE_LEADING_ZERO ds) then (-1)%Z else 0%Z))
         w evs
    /\ actions evs = [].
Proof.
  unfold validindex.
  destruct (is_some (rmatch RE_LEADING_ZERO ds)); eexists; split.
  - eapply runs_bind; [apply runs_verboseprint|].
    eapply runs_bind; [apply runs_errorprint | apply runs_ret].
  - now autorewrite with trace.
  - eapply runs_bind; [apply runs_verboseprint|].
    eapply runs_bind; [apply runs_verboseprint | apply runs_ret].
  - now autorewrite with trace.
Qed.

Lemma runs_finddeventry name nr (w : W) n :
  exists evs,
    runs (finddeventry name nr) w n
         (Ret (if path_exists w ("/dev/" ++ name ++ nr)%string
               then 0%Z else (-1)%Z))
         w evs
    /\ actions evs = [EvExists ("/dev/" ++ name ++ nr)%string].
Proof.
  unfold finddeventry.
  destruct (path_exists w ("/dev/" ++ name ++ nr)%string) eqn:E; eexists; split.
  - eapply runs_bind; [apply runs_verboseprint|].
    eapply runs_bind; [apply runs_exists|]. cbv beta. rewrite E. cbn [negb].
    eapply runs_bind; [apply runs_verboseprint | apply runs_ret].
  - now autorewrite with trace.
  - eapply runs_bind; [apply runs_verboseprint|].
    eapply runs_bind; [apply runs_exists|]. cbv beta. rewrite E. cbn [negb].
    eapply runs_bind; [apply runs_errorprint | apply runs_ret].
  - now autorewrite with trace.
Qed.

Lemma runs_get_device_path_by_index target (w : W) n :
  exists evs,
    runs (get_device_path_by_index target) w n (index_result w target) w evs
    /\ actions evs = [EvRun "systool -b vio -D -A index -p"].
Proof.
  unfold get_device_path_by_index, index_result.
  destruct (runs_run_cmd "systool -b vio -D -A index -p" w n)
    as (o & e & Hcmd & He & Ho).
  destruct (run_command w "systool -b vio -D -A index -p") as [proc|err].
  - destruct Ho as [-> ->].
    destruct (negb (returncode proc =? 0)%Z) eqn:Hrc.
    + eexists. split.
      * eapply runs_bind; [apply runs_verboseprint|].
        eapply runs_bind; [exact Hcmd|]. cbv beta. rewrite Hrc.
        eapply runs_bind; [apply runs_errorprint | apply runs_ret].
      * now autorewrite with trace.
    + destruct (index_scan target (splitlines (stdout proc))
                           EmptyString EmptyString EmptyString) eqn:E;
        eexists; split.
      * eapply runs_bind; [apply runs_verboseprint|].
        eapply runs_bind; [exact Hcmd|]. cbv beta. rewrite Hrc, E.
        eapply runs_bind; [apply runs_verboseprint | apply runs_ret].
      * now autorewrite with trace.
      * eapply runs_bind; [apply runs_verboseprint|].
        eapply runs_bind; [exact Hcmd|]. cbv beta. rewrite Hrc, E.
        eapply runs_bind; [apply runs_statusprint | apply runs_ret].
      * now autorewrite with trace.
  - subst o. eexists. split.
    + eapply runs_bind; [apply runs_verboseprint|].
      eapply runs_bind_exit. exact Hcmd.
    + autorewrite with trace. exact He.
Qed.


(** The run of [closedevice] up to the first read of [vterm_state],
    when the identifier resolves; [k] stands for the rest. *)
Ltac resolve_steps Hres :=
  let Hname := fresh "Hname" in
  let Hzero := fresh "Hzero" in
  let Hdev := fresh "Hdev" in
  let Hne := fresh "Hne" in
  let proc := fresh "proc" in
  let Hrun := fresh "Hrun" in
  let Hrc := fresh "Hrc" in
  let Hscan := fresh "Hscan" in
  destruct Hres as (Hname & Hzero & Hdev & (proc & Hrun & Hrc & Hscan) & Hne);
  let e1 := fresh "e1" in let R1 := fresh "R1" in let A1 := fresh "A1" in
  let e2 := fresh "e2" in let R2 := fresh "R2" in let A2 := fresh "A2" in
  let e3 := fresh "e3" in let R3 := fresh "R3" in let A3 := fresh "A3" in
  match type of Hrun with
  | run_command ?w _ = _ =>
      match goal with
      | |- context [runs (closedevice ?p) w ?n] =>
          destruct (runs_validindex (getindex p) w n) as (e1 & R1 & A1);
          destruct (runs_finddeventry GLOBAL_NODE_NAME (getindex p) w n)
            as (e2 & R2 & A2);
          destruct (runs_get_device_path_by_index (getindex p) w n)
            as (e3 & R3 & A3)
      end
  end;
  rewrite Hzero in R1; cbn [is_some] in R1;
  rewrite Hdev in R2;
  unfold index_result in R3; rewrite Hrun, Hrc, Hscan in R3;
  cbn [Z.eqb negb] in R3;
  apply String.eqb_neq in Hne.

Lemma closedevice_already_free (w : W) n parameter device_path content :
  resolves_to w parameter device_path ->
  path_exists w (vstate device_path) = true ->
  read_file w (vstate device_path) = Some content ->
  strip content = "0"%string ->
  exists evs,
    runs (closedevice parameter) w n (Exit 0%Z) w evs
    /\ actions evs = [EvExists (dev_node parameter); EvRun systool_index;
                      EvExists (vstate device_path);
                      EvRead (vstate device_path)].
Proof.
  intros Hres Hex Hread Hzero0. resolve_steps Hres.
  eexists. split.
  - unfold closedevice. rewrite Hname, String.eqb_refl. cbn [negb].
    eapply runs_bind; [exact R1|]. cbv beta. cbn [Z.eqb negb].
    eapply runs_bind; [exact R2|]. cbv beta. cbn [Z.eqb negb].
    eapply runs_bind; [exact R3|]. cbv beta. rewrite Hne.
    eapply runs_bind; [apply runs_verboseprint|].
    eapply runs_bind; [apply runs_exists|]. cbv beta.
    fold (vstate device_path). rewrite Hex. cbn [negb].
    eapply runs_bind; [apply runs_verboseprint|].
    eapply runs_bind; [apply runs_read_ok; exact Hread|]. cbv beta.
    rewrite Hzero0. cbn [fullmatch rmatch RE_ZERO app run Ascii.eqb Bool.eqb is_some].
    eapply runs_bind; [apply runs_statusprint | apply runs_sys_exit].
  - autorewrite with trace. rewrite A1, A2, A3. reflexivity.
Qed.


Lemma zero_iff s : zero s = true <-> s = "0"%string.
Proof.
  unfold zero, fullmatch, rmatch, RE_ZERO. cbn [app run].
  destruct s as [|c s]; [split; discriminate|].
  destruct (Ascii.eqb_spec c "0") as [->|Hc].
  - destruct s; cbn; split; congruence.
  - cbn. split; [discriminate | congruence].
Qed.

Lemma closedevice_write_checked (w : W) n parameter device_path
      content ok w' content' :
  resolves_to w parameter device_path ->
  path_exists w (vstate device_path) = true ->
  read_file w (vstate device_path) = Some content ->
  strip content <> "0"%string ->
  write_file w (vstate device_path) "0" = (ok, w') ->
  read_file w' (vstate device_path) = Some content' ->
  exists o evs said,
    runs (closedevice parameter) w n o w' (evs ++ said)
    /\ actions evs = [EvExists (dev_node parameter); EvRun systool_index;
                      EvExists (vstate device_path);
                      EvRead (vstate device_path);
                      EvWrite (vstate device_path) "0";
                      EvRead (vstate device_path)]
    /\ (strip content' <> "0"%string ->
        o = Exit 1%Z
        /\ said = [EvPrint Stderr (msg_failed device_path);
                   EvPrint Stderr msg_dmesg])
    /\ (strip content' = "0"%string ->
        o = Ret tt /\ actions said = [] /\ errors said = []).
Proof.
  intros Hres Hex Hread Hnz Hwrite Hread'. resolve_steps Hres.
  assert (Hz : zero (strip content) = false).
  { destruct (zero (strip content)) eqn:E; [|reflexivity].
    now apply zero_iff in E. }
  pose proof (runs_write (vstate device_path) "0" w n) as Rw.
  rewrite Hwrite in Rw. cbn [fst snd] in Rw.
  assert (Hrun' : forall o said,
             runs (if negb (zero (strip content'))
                   then errorprint (msg_failed device_path) ;;
                        errorprint msg_dmesg ;; sys_exit 1
                   else
                     let m := search RE_VTY_SERVER_DEC device_path in
                     let vty_server :=
                       match m with
                       | Some g => group 1 g
                       | None => EmptyString
                       end in
                     statusprint
                       (APP_NAME ++ ": /dev/node/" ++ GLOBAL_NODE_NAME
                          ++ getindex parameter ++ " is mapped to vty-server@"
                          ++ vty_server ++ "." ++ nl)%string ;;
                     statusprint
                       (APP_NAME ++ ": closed vty-server@" ++ vty_server
                          ++ " partner adapter connection." ++ nl)%string)
                  w' n o w' said ->
             exists evs,
               runs (closedevice parameter) w n o w' (evs ++ said)
               /\ actions evs
                  = [EvExists (dev_node parameter); EvRun systool_index;
                     EvExists (vstate device_path);
                     EvRead (vstate device_path);
                     EvWrite (vstate device_path) "0";
                     EvRead (vstate device_path)]).
  { intros o said Htail. eexists. split.
    - eapply runs_eq.
      + unfold closedevice. rewrite Hname, String.eqb_refl. cbn [negb].
        eapply runs_bind; [exact R1|]. cbv beta. cbn [Z.eqb negb].
        eapply runs_bind; [exact R2|]. cbv beta. cbn [Z.eqb negb].
        eapply runs_bind; [exact R3|]. cbv beta. rewrite Hne.
        eapply runs_bind; [apply runs_verboseprint|].
        eapply runs_bind; [apply runs_exists|]. cbv beta.
        fold (vstate device_path). rewrite Hex. cbn [negb].
        eapply runs_bind; [apply runs_verboseprint|].
        eapply runs_bind; [apply runs_read_ok; exact Hread|]. cbv beta.
        fold (zero (strip content)). rewrite Hz.
        eapply runs_bind; [apply runs_verboseprint|].
        eapply runs_bind; [exact Rw|].
        eapply runs_bind; [apply runs_read_ok; exact Hread'|]. cbv beta.
        exact Htail.
      + rewrite !app_assoc. reflexivity.
    - autorewrite with trace. rewrite A1, A2, A3. reflexivity. }
  destruct (zero (strip content')) eqn:Hz'; cbn [negb] in Hrun'.
  - edestruct Hrun' as (evs & Hr & Ha).
    { eapply runs_bind; [apply runs_statusprint | apply runs_statusprint]. }
    exists (Ret tt), evs. eexists. split; [exact Hr|].
    split; [exact Ha|]. split.
    + intros Hc. apply zero_iff in Hz'. contradiction.
    + intros _. now autorewrite with trace.
  - edestruct Hrun' as (evs & Hr & Ha).
    { eapply runs_bind; [apply runs_errorprint |].
      eapply runs_bind; [apply runs_errorprint | apply runs_sys_exit]. }
    exists (Exit 1%Z), evs. eexists. split; [exact Hr|].
    split; [exact Ha|]. split.
    + intros _. split; reflexivity.
    + intros Hc. apply zero_iff in Hc. congruence.
Qed.


(** Rewriting a hypothesis one call at a time. *)
Ltac step_in H R := rewrite bind_unfold, (R _) in H; cbv beta iota in H.

Lemma closedevice_success (w : W) n l parameter st' :
  closedevice parameter (State w n l) = (Ret tt, st') ->
  exists device_path content',
    world st' = snd (write_file w (vstate device_path) "0")
    /\ read_file (world st') (vstate device_path) = Some content'
    /\ strip content' = "0"%string.
Proof.
  intros H. unfold closedevice in H.
  destruct (negb (getnodename parameter =? GLOBAL_NODE_NAME)%string).
  { step_in H (runs_errorprint (APP_NAME ++ ": " ++ parameter
                   ++ " is an invalid device node name." ++ nl)%string w n).
    discriminate H. }
  destruct (runs_validindex (getindex parameter) w n) as (e1 & R1 & _).
  step_in H R1.
  destruct (is_some (rmatch RE_LEADING_ZERO (getindex parameter)));
    cbn [Z.eqb negb] in H; [discriminate H|].
  destruct (runs_finddeventry (getnodename parameter) (getindex parameter) w n)
    as (e2 & R2 & _).
  step_in H R2.
  destruct (path_exists w ("/dev/" ++ getnodename parameter
                             ++ getindex parameter)%string);
    cbn [Z.eqb negb] in H; [|discriminate H].
  destruct (runs_get_device_path_by_index (getindex parameter) w n)
    as (e3 & R3 & _).
  step_in H R3.
  destruct (index_result w (getindex parameter)) as [device_path| |];
    [|discriminate H|discriminate H].
  destruct (device_path =? EmptyString)%string; [discriminate H|].
  step_in H (runs_verboseprint (APP_NAME ++ ": vty-server adapter " ++ device_path
                  ++ " maps to /dev/" ++ getnodename parameter
                  ++ getindex parameter ++ "." ++ nl)%string w n).
  step_in H (runs_exists (path_join device_path "vterm_state") w n).
  destruct (path_exists w (path_join device_path "vterm_state"));
    cbn [negb] in H.
  2:{ step_in H (runs_errorprint (APP_NAME
                    ++ ": vterm_state attribute does not exist." ++ nl)%string w n).
      discriminate H. }
  step_in H (runs_verboseprint (APP_NAME ++ ": verified that "
                  ++ path_join device_path "vterm_state"
                  ++ " attribute exists." ++ nl)%string w n).
  step_in H (runs_read (path_join device_path "vterm_state") w n).
  destruct (read_file w (path_join device_path "vterm_state")) as [content|];
    [|discriminate H].
  destruct (is_some (fullmatch RE_ZERO (strip content))).
  { step_in H (runs_statusprint (APP_NAME ++ ": vty-server adapter " ++ device_path
                   ++ " is already disconnected." ++ nl)%string w n).
    discriminate H. }
  step_in H (runs_verboseprint (APP_NAME
                  ++ ": preparing to terminate vty-server connection at "
                  ++ device_path ++ "." ++ nl)%string w n).
  step_in H (runs_write (path_join device_path "vterm_state") "0" w n).
  set (w' := snd (write_file w (path_join device_path "vterm_state") "0")) in *.
  step_in H (runs_read (path_join device_path "vterm_state") w' n).
  destruct (read_file w' (path_join device_path "vterm_state"))
    as [content'|] eqn:Hread'; [|discriminate H].
  destruct (is_some (fullmatch RE_ZERO (strip content'))) eqn:Hz;
    cbn [negb] in H.
  2:{ step_in H (runs_errorprint (APP_NAME ++ ": vty-server adapter " ++ device_path
                    ++ " disconnection failed." ++ nl)%string w' n).
      step_in H (runs_errorprint (APP_NAME
                    ++ ": please check dmesg for further information." ++ nl)%string w' n).
      discriminate H. }
  cbv zeta in H.
  match type of H with
  | context [statusprint ?s1 ;; statusprint ?s2] =>
      step_in H (runs_statusprint s1 w' n);
      rewrite (runs_statusprint s2 w' n _) in H
  end.
  injection H as <-. cbn [world]. exists device_path, content'.
  split; [reflexivity|]. split; [exact Hread'|]. now apply zero_iff.
Qed.

End Close.
End CloseFacts.

(** ** The sweeps: closing all adapters and rescanning *)

Module SweepFacts.
Import Re CharClass Py ReFacts Hvcsadmin Block Trace Claim PatternFacts BlockFacts Steps.
Local Open Scope list_scope.

Lemma value_of_none pat line : rmatch pat line = None -> value_of pat line = None.
Proof. unfold value_of. now intros ->. Qed.

Lemma value_of_some pat line m :
  rmatch pat line = Some m -> value_of pat line = Some (group 1 m).
Proof. unfold value_of. now intros ->. Qed.

(** The connected adapters are those of the lines at which [closeall]
    writes. *)
Lemma connected_from_spec rest : forall before path,
  In path (connected_from before rest)
  <-> exists mid line after,
        rest = mid ++ line :: after
        /\ connected_here (before ++ mid) line = true
        /\ path = device_path_of (before ++ mid).
Proof.
  induction rest as [|line rest IH]; intros before path; cbn [connected_from].
  { split; [intros []|]. intros (mid & l & after & E & _). now destruct mid. }
  rewrite in_app_iff, IH. split.
  - intros [H|(mid & l & after & -> & Hc & ->)].
    + destruct (connected_here before line) eqn:Hc; [|destruct H].
      destruct H as [<-|[]]. exists [], line, rest.
      now rewrite app_nil_r.
    + exists (line :: mid), l, after. now rewrite snoc_app in *.
  - intros (mid & l & after & E & Hc & ->).
    destruct mid as [|x mid]; cbn in E; [injection E as <- <- | injection E as <- ->].
    + left. rewrite app_nil_r in *. rewrite Hc. now left.
    + right. exists mid, l, after. now rewrite snoc_app.
Qed.

Section Sweeps.
Context {W : Type} {P : Platform W}.

(** The loop of [closeall] writes once at every connected adapter of
    the configured driver, whatever the writes do, and reads nothing. *)
Lemma runs_closeall_scan rest : forall before dev vs (w : W) n,
  exists evs,
    runs (closeall_scan rest (driver_of before) dev vs (device_path_of before))
         w n (Ret tt) (write_all w (connected_from before rest)) evs
    /\ actions evs = map close_write (connected_from before rest).
Proof.
  induction rest as [|line rest IH]; intros before dev vs w n.
  { exists []. split; [apply runs_ret | reflexivity]. }
  cbn [closeall_scan connected_from]. unfold connected_here.
  pose proof (driver_of_snoc before line) as Hd.
  pose proof (device_path_of_snoc before line) as Hp.
  destruct (rmatch RE_DRIVER line) as [m|] eqn:E1.
  { rewrite (value_of_some _ _ _ E1) in Hd, Hp.
    destruct (rmatch RE_VTERM_STATE line) as [m'|] eqn:E4.
    { apply vterm_state_exclusive in E4 as (E4 & _). congruence. }
    rewrite (value_of_none _ _ E4), andb_false_r. cbn [app].
    rewrite <- Hd, <- Hp. apply IH. }
  rewrite (value_of_none _ _ E1) in Hd, Hp.
  destruct (rmatch RE_DEVICE_PATH line) as [m|] eqn:E2.
  { rewrite (value_of_some _ _ _ E2) in Hp.
    destruct (rmatch RE_VTERM_STATE line) as [m'|] eqn:E4.
    { apply vterm_state_exclusive in E4 as (_ & E4 & _). congruence. }
    rewrite (value_of_none _ _ E4), andb_false_r. cbn [app].
    rewrite <- Hd, <- Hp. apply IH. }
  rewrite (value_of_none _ _ E2) in Hp.
  destruct (rmatch RE_DEVICE line) as [m|] eqn:E3.
  { destruct (rmatch RE_VTERM_STATE line) as [m'|] eqn:E4.
    { apply vterm_state_exclusive in E4 as (_ & _ & E4). congruence. }
    rewrite (value_of_none _ _ E4), andb_false_r. cbn [app].
    rewrite <- Hd, <- Hp. apply IH. }
  destruct (rmatch RE_VTERM_STATE line) as [m|] eqn:E4.
  - rewrite (value_of_some _ _ _ E4).
    destruct ((driver_of before =? DRIVER)%string
              && (group 1 m =? "1")%string) eqn:Hc.
    + cbn [app write_all map].
      set (w1 := snd (write_file w (path_join (device_path_of before)
                                              "vterm_state") "0")).
      destruct (IH (before ++ [line]) dev (group 1 m) w1 n) as (evs & R & A).
      rewrite Hd, Hp in R.
      pose proof (runs_write (path_join (device_path_of before) "vterm_state")
                             "0" w n) as Rw.
      fold w1 in Rw.
      destruct (fst (write_file w (path_join (device_path_of before)
                                             "vterm_state") "0")).
      * eexists. split.
        -- eapply runs_bind; [|exact R].
           eapply runs_bind; [exact Rw|]. cbv beta iota.
           apply runs_statusprint.
        -- autorewrite with trace. now rewrite A.
      * eexists. split.
        -- eapply runs_bind; [|exact R].
           eapply runs_bind; [exact Rw|]. cbv beta iota.
           apply runs_ret.
        -- autorewrite with trace. now rewrite A.
    + cbn [app].
      destruct (IH (before ++ [line]) dev (group 1 m) w n) as (evs & R & A).
      rewrite Hd, Hp in R.
      eexists. split.
      * eapply runs_bind; [apply runs_ret | exact R].
      * exact A.
  - rewrite (value_of_none _ _ E4), andb_false_r. cbn [app].
    rewrite <- Hd, <- Hp. apply IH.
Qed.


(** The loop of [rescan] tries the candidates in order and stops at
    the first write that goes through. *)
Lemma runs_rescan_scan rest : forall before driver_path (w : W) n,
  exists evs,
    runs (rescan_scan rest (driver_of before) driver_path) w n
         (Ret (existsb snd (fst (try_each w (rescan_candidates before rest)))))
         (snd (try_each w (rescan_candidates before rest))) evs
    /\ actions evs
       = map rescan_write (fst (try_each w (rescan_candidates before rest)))
    /\ errors evs = [].
Proof.
  induction rest as [|line rest IH]; intros before driver_path w n.
  { exists []. split; [apply runs_ret | now split]. }
  cbn [rescan_scan rescan_candidates].
  pose proof (driver_of_snoc before line) as Hd.
  destruct (rmatch RE_DRIVER line) as [m|] eqn:E1.
  { rewrite (value_of_some _ _ _ E1) in Hd.
    destruct (rmatch RE_DRIVER_PATH line) as [m'|] eqn:E2.
    { apply driver_path_exclusive in E2. congruence. }
    rewrite (value_of_none _ _ E2). cbn [app].
    rewrite <- Hd. apply IH. }
  rewrite (value_of_none _ _ E1) in Hd.
  destruct (rmatch RE_DRIVER_PATH line) as [m|] eqn:E2.
  - rewrite (value_of_some _ _ _ E2).
    destruct (driver_of before =? DRIVER)%string eqn:Hc.
    + cbn [app try_each].
      pose proof (runs_write (path_join (group 1 m) "rescan") "1" w n) as Rw.
      destruct (write_file w (path_join (group 1 m) "rescan") "1")
        as [ok w1] eqn:Hw.
      cbn [fst snd] in Rw. destruct ok.
      * cbn [fst snd existsb orb map]. eexists. split.
        -- eapply runs_bind; [exact Rw|]. cbv beta iota.
           eapply runs_bind; [apply runs_statusprint | apply runs_ret].
        -- now autorewrite with trace.
      * destruct (IH (before ++ [line]) (group 1 m) w1 n) as (evs & R & A & E).
        rewrite Hd in R.
        destruct (try_each w1 (rescan_candidates (before ++ [line]) rest))
          as [tried w2].
        cbn [fst snd existsb orb map] in *. eexists. split.
        -- eapply runs_bind; [exact Rw|]. cbv beta iota. exact R.
        -- autorewrite with trace. rewrite A, E. now split.
    + cbn [app]. rewrite <- Hd. apply IH.
  - rewrite (value_of_none _ _ E2). cbn [app].
    rewrite <- Hd. apply IH.
Qed.

(** What [try_each] returns: the candidates up to the first whose
    write goes through, all before it marked as failed; when none
    goes through, all of them. *)
Lemma try_each_shape paths : forall (w : W),
  let tried := fst (try_each w paths) in
  (existsb snd tried = false
   /\ tried = map (fun p => (p, false)) paths)
  \/ (existsb snd tried = true
      /\ exists failed path skipped,
           paths = failed ++ path :: skipped
           /\ tried = map (fun p => (p, false)) failed ++ [(path, true)]).
Proof.
  induction paths as [|path rest IH]; intros w; cbn [try_each].
  { left. now split. }
  destruct (write_file w (path_join path "rescan") "1") as [ok w1].
  destruct ok.
  - right. cbn. split; [reflexivity|]. now exists [], path, rest.
  - specialize (IH w1). destruct (try_each w1 rest) as [tried w2].
    cbn [fst snd] in *. destruct IH as [[Hn ->]|[Hy (f & p & s & -> & ->)]].
    + left. cbn. now rewrite Hn.
    + right. cbn [existsb snd orb]. split; [exact Hy|].
      now exists (path :: f), p, s.
Qed.

End Sweeps.
End SweepFacts.

(** ** What a scan carries from one block to the next *)

Module ContextFacts.
Import Re CharClass Py ReFacts Hvcsadmin Block Trace Claim PatternFacts BlockFacts Steps Resolve.
Local Open Scope list_scope.

Section ScanContext.
Context {A : Type}.
Variable attr : string -> option A.
Variable hit : A -> bool.

Lemma scan_without_driver rest : forall dp dp',
  scan attr hit rest EmptyString dp = scan attr hit rest EmptyString dp'.
Proof.
  induction rest as [|line rest IH]; intros dp dp'; cbn [scan]; [reflexivity|].
  destruct (rmatch RE_DRIVER line); [reflexivity|].
  destruct (rmatch RE_DEVICE_PATH line); [reflexivity|].
  destruct (attr line); [|apply IH].
  cbn [String.eqb DRIVER andb]. apply IH.
Qed.

Lemma scan_skips pre rest :
  no_driver pre ->
  scan attr hit (pre ++ rest) EmptyString EmptyString
  = scan attr hit rest EmptyString EmptyString.
Proof.
  induction 1 as [|line pre Hline _ IH]; [reflexivity|].
  cbn [app scan]. rewrite Hline.
  destruct (rmatch RE_DEVICE_PATH line).
  { rewrite <- IH. apply scan_without_driver. }
  destruct (attr line); [|exact IH].
  cbn [String.eqb DRIVER andb]. exact IH.
Qed.

Lemma scan_resets d m rest ld dp ld' dp' :
  rmatch RE_DRIVER d = Some m ->
  scan attr hit (d :: rest) ld dp = scan attr hit (d :: rest) ld' dp'.
Proof. intros H. cbn [scan]. now rewrite H. Qed.
End ScanContext.

Section SweepContext.
Context {W : Type} {P : Platform W}.

Lemma closeall_scan_state rest : forall ld dev vs vs' dp,
  @closeall_scan W P rest ld dev vs dp = closeall_scan rest ld dev vs' dp.
Proof.
  induction rest as [|line rest IH]; intros ld dev vs vs' dp;
    cbn [closeall_scan]; [reflexivity|].
  destruct (rmatch RE_DRIVER line); [apply IH|].
  destruct (rmatch RE_DEVICE_PATH line); [apply IH|].
  destruct (rmatch RE_DEVICE line); [apply IH|].
  destruct (rmatch RE_VTERM_STATE line); [reflexivity | apply IH].
Qed.

Lemma closeall_without_driver rest : forall dev vs dp dev' vs' dp',
  @closeall_scan W P rest EmptyString dev vs dp
  = closeall_scan rest EmptyString dev' vs' dp'.
Proof.
  induction rest as [|line rest IH]; intros dev vs dp dev' vs' dp';
    cbn [closeall_scan]; [reflexivity|].
  destruct (rmatch RE_DRIVER line); [apply closeall_scan_state|].
  destruct (rmatch RE_DEVICE_PATH line); [apply IH|].
  destruct (rmatch RE_DEVICE line); [apply IH|].
  destruct (rmatch RE_VTERM_STATE line) as [v|]; [|apply IH].
  cbn [String.eqb DRIVER andb].
  now rewrite (IH dev (group 1 v) dp dev' (group 1 v) dp').
Qed.

Lemma closeall_skips pre rest :
  no_driver pre ->
  @closeall_scan W P (pre ++ rest) EmptyString EmptyString EmptyString EmptyString
  = closeall_scan rest EmptyString EmptyString EmptyString EmptyString.
Proof.
  induction 1 as [|line pre Hline _ IH]; [reflexivity|].
  cbn [app closeall_scan]. rewrite Hline.
  destruct (rmatch RE_DEVICE_PATH line).
  { rewrite <- IH. apply closeall_without_driver. }
  destruct (rmatch RE_DEVICE line).
  { rewrite <- IH. apply closeall_without_driver. }
  destruct (rmatch RE_VTERM_STATE line) as [v|]; [|exact IH].
  cbn [String.eqb DRIVER andb].
  rewrite <- IH.
  rewrite (closeall_without_driver (pre ++ rest) EmptyString (group 1 v)
             EmptyString EmptyString EmptyString EmptyString).
  reflexivity.
Qed.

Lemma closeall_resets d m rest ld dev vs dp ld' dev' vs' dp' :
  rmatch RE_DRIVER d = Some m ->
  @closeall_scan W P (d :: rest) ld dev vs dp
  = closeall_scan (d :: rest) ld' dev' vs' dp'.
Proof. intros H. cbn [closeall_scan]. rewrite H. apply closeall_scan_state. Qed.

Lemma rescan_scan_state rest : forall ld dp dp',
  @rescan_scan W P rest ld dp = rescan_scan rest ld dp'.
Proof.
  induction rest as [|line rest IH]; intros ld dp dp';
    cbn [rescan_scan]; [reflexivity|].
  destruct (rmatch RE_DRIVER line); [reflexivity|].
  destruct (rmatch RE_DRIVER_PATH line); [reflexivity | apply IH].
Qed.

Lemma rescan_skips pre rest :
  no_driver pre ->
  @rescan_scan W P (pre ++ rest) EmptyString EmptyString
  = rescan_scan rest EmptyString EmptyString.
Proof.
  induction 1 as [|line pre Hline _ IH]; [reflexivity|].
  cbn [app rescan_scan]. rewrite Hline.
  destruct (rmatch RE_DRIVER_PATH line); [|exact IH].
  cbn [String.eqb DRIVER]. rewrite <- IH. apply rescan_scan_state.
Qed.

Lemma rescan_resets d m rest ld dp ld' dp' :
  rmatch RE_DRIVER d = Some m ->
  @rescan_scan W P (d :: rest) ld dp = rescan_scan (d :: rest) ld' dp'.
Proof. intros H. cbn [rescan_scan]. now rewrite H. Qed.
End SweepContext.
End ContextFacts.

(** ** Identifiers of device nodes *)

Module NodeFacts.
Import Re CharClass Py ReFacts Hvcsadmin Block Trace Claim PatternFacts BlockFacts Steps.

(** Both searches of an identifier succeed together, and the index
    found is a run of digits. *)
Lemma search_node_both s : forall b,
  match search_from RE_NODE_NAME b s with
  | Some g =>
      g = ["hvcs"]%list
      /\ exists ds, search_from RE_NODE_INDEX b s = Some [ds]%list
                    /\ ds <> EmptyString /\ all digit ds = true
  | None => search_from RE_NODE_INDEX b s = None
  end.
Proof.
  assert (Hhit : forall b s g,
             run RE_NODE_NAME b s None [] = Some g ->
             g = ["hvcs"]%list
             /\ exists ds, run RE_NODE_INDEX b s None [] = Some [ds]%list
                           /\ ds <> EmptyString /\ all digit ds = true).
  { intros b s0 g H.
    apply run_node_name_inv in H as (-> & ds & tl & -> & Hne & Hd & Htl).
    split; [reflexivity|]. exists ds.
    now rewrite (run_node_index_ok b ds tl Hne Hd Htl). }
  assert (Hmiss : forall b s,
             run RE_NODE_NAME b s None [] = None ->
             run RE_NODE_INDEX b s None [] = None).
  { intros b s0 H.
    destruct (run RE_NODE_INDEX b s0 None []) eqn:E; [|reflexivity].
    apply run_node_index_inv in E as (ds & tl & _ & -> & Hne & Hd & Htl).
    now rewrite (run_node_name_ok b ds tl Hne Hd Htl) in H. }
  induction s as [|c s IH]; intros b.
  - cbn [search_from].
    destruct (run RE_NODE_NAME b EmptyString None []) eqn:E.
    + destruct (Hhit _ _ _ E) as (-> & ds & -> & H). split; [reflexivity|].
      now exists ds.
    + now rewrite (Hmiss _ _ E).
  - cbn [search_from].
    destruct (run RE_NODE_NAME b (String c s) None []) eqn:E.
    + destruct (Hhit _ _ _ E) as (-> & ds & -> & H). split; [reflexivity|].
      now exists ds.
    + rewrite (Hmiss _ _ E). apply IH.
Qed.

(** When the name of an identifier is the node prefix, its index is a
    run of digits. *)
Lemma getindex_digits parameter :
  getnodename parameter = GLOBAL_NODE_NAME ->
  getindex parameter <> EmptyString /\ all digit (getindex parameter) = true.
Proof.
  unfold getnodename, getindex, search.
  pose proof (search_node_both parameter true) as H.
  destruct (search_from RE_NODE_NAME true parameter).
  - destruct H as (_ & ds & -> & Hne & Hd). intros _. now cbn.
  - discriminate.
Qed.

(** On a run of digits, the test of [validindex] is the leading zero. *)
Lemma leading_zero_digits ds :
  all digit ds = true ->
  is_some (rmatch RE_LEADING_ZERO ds) = leading_zero ds.
Proof.
  intros Hd. unfold rmatch, RE_LEADING_ZERO, leading_zero.
  destruct ds as [|c [|c2 rest]]; cbn [run]; [reflexivity| |].
  - now destruct (Ascii.eqb c "0").
  - destruct (Ascii.eqb c "0"); [|reflexivity].
    cbn [all] in Hd. apply andb_true_iff in Hd as [_ Hd].
    assert (Hdot : all dot (String c2 rest) = true).
    { apply (all_impl digit); [|exact Hd].
      intros x. unfold digit, dot, between, is_code.
      intros Hx. apply andb_true_iff in Hx as [Hlo _].
      apply N.leb_le in Hlo. apply negb_true_iff, N.eqb_neq. lia. }
    match goal with
    | |- is_some (plus dot ?k _ ?cur) = true =>
        pose proof (plus_greedy dot k c2 rest EmptyString cur) as G
    end.
    rewrite append_nil_r in G. erewrite G; [reflexivity | exact Hdot |].
    cbn [star at_eol]. reflexivity.
Qed.

End NodeFacts.

(** ** Calls that do not look at the log *)

Module Frames.
Import Re CharClass Py ReFacts Hvcsadmin Block Trace Claim Steps.
Local Open Scope list_scope.

Section Frames.
Context {W : Type} {P : Platform W}.

Lemma framed_ret {A} (a : A) : framed (@ret W A a).
Proof. intros w n. do 3 eexists. apply runs_ret. Qed.

Lemma framed_sys_exit {A} c : framed (@sys_exit W A c).
Proof. intros w n. do 3 eexists. apply runs_sys_exit. Qed.

Lemma framed_raise {A} : framed (@raise W A).
Proof.
  intros w n. exists Raise, w, []. intros l. unfold raise.
  now rewrite app_nil_r.
Qed.

Lemma framed_emit e : framed (@emit W e).
Proof. intros w n. do 3 eexists. apply runs_emit. Qed.

Lemma framed_get_noisy : framed (@get_noisy W).
Proof.
  intros w n. exists (Ret n), w, []. intros l. unfold get_noisy. cbn.
  now rewrite app_nil_r.
Qed.

Lemma framed_get_world : framed (@get_world W).
Proof.
  intros w n. exists (Ret w), w, []. intros l. unfold get_world. cbn.
  now rewrite app_nil_r.
Qed.

Lemma framed_set_world w1 : framed (@set_world W w1).
Proof.
  intros w n. exists (Ret tt), w1, []. intros l. unfold set_world. cbn.
  now rewrite app_nil_r.
Qed.

Lemma framed_bind {A B} (m : M W A) (k : A -> M W B) :
  framed m -> (forall a, framed (k a)) -> framed (bind m k).
Proof.
  intros Hm Hk w n. destruct (Hm w n) as ([a|c|] & w1 & e1 & R1).
  - destruct (Hk a w1 n) as (o & w2 & e2 & R2).
    do 3 eexists. eapply runs_bind; eassumption.
  - do 3 eexists. eapply runs_bind_exit; eassumption.
  - do 3 eexists. eapply runs_bind_raise; eassumption.
Qed.

(** The calls built from the primitives by sequencing and tests. *)
Ltac framed_auto :=
  repeat (intros;
          first
            [ apply framed_ret | apply framed_sys_exit | apply framed_raise
            | apply framed_emit | apply framed_get_noisy
            | apply framed_get_world | apply framed_set_world
            | apply framed_bind
            | match goal with
              | |- framed (if ?b then _ else _) => destruct b
              | |- framed (match ?x with _ => _ end) => destruct x
              end
            | progress cbv zeta
            | progress unfold verboseprint, statusprint, errorprint, print,
              sys_stdout_write, os_path_exists, os_listdir, read_text,
              try_write_text, run_cmd ]).

Lemma framed_validindex ds : framed (@validindex W ds).
Proof. unfold validindex. framed_auto. Qed.

Lemma framed_finddeventry name nr : framed (@finddeventry W P name nr).
Proof. unfold finddeventry. framed_auto. Qed.

Lemma framed_get_device_path_by_index target :
  framed (@get_device_path_by_index W P target).
Proof. unfold get_device_path_by_index. framed_auto. Qed.

Lemma framed_displaybypath path : framed (@displaybypath W P path).
Proof. unfold displaybypath. framed_auto. Qed.

End Frames.
End Frames.

(** * The claims *)

Import Re CharClass Py ReFacts Hvcsadmin Block Trace Claim.
Import PatternFacts LineFacts BlockFacts Steps Resolve CloseFacts SweepFacts.
Import ContextFacts NodeFacts Frames.

Section Claims.
Context {W : Type} {P : Platform W}.
Local Open Scope list_scope.

Lemma runs_get_device_path_by_partition target (w : W) n proc :
  run_command w "systool -b vio -D -A current_vty -p" = Started proc ->
  returncode proc = 0%Z ->
  exists evs,
    runs (get_device_path_by_partition target) w n
         (Ret match partition_scan target (splitlines (stdout proc))
                      EmptyString EmptyString EmptyString EmptyString with
              | Some path => path
              | None => EmptyString
              end) w evs
    /\ actions evs = [EvRun "systool -b vio -D -A current_vty -p"].
Proof.
  intros Hrun Hrc. unfold get_device_path_by_partition.
  destruct (runs_run_cmd "systool -b vio -D -A current_vty -p" w n)
    as (o & e & Hcmd & _ & Ho).
  rewrite Hrun in Ho. destruct Ho as [-> ->].
  destruct (partition_scan target (splitlines (stdout proc))
              EmptyString EmptyString EmptyString EmptyString) eqn:E;
    eexists; split.
  - eapply runs_bind; [apply runs_verboseprint|].
    eapply runs_bind; [exact Hcmd|]. cbv beta.
    rewrite Hrc. cbn [Z.eqb negb]. rewrite E.
    eapply runs_bind; [apply runs_verboseprint | apply runs_ret].
  - now autorewrite with trace.
  - eapply runs_bind; [apply runs_verboseprint|].
    eapply runs_bind; [exact Hcmd|]. cbv beta.
    rewrite Hrc. cbn [Z.eqb negb]. rewrite E.
    eapply runs_bind; [apply runs_statusprint | apply runs_ret].
  - now autorewrite with trace.
Qed.

Lemma resolved_of_scan Q lines (found : option string) :
  (forall p, found = Some p
             <-> exists before line,
                   first_such Q lines before line /\ p = device_path_of before) ->
  (found = None <-> none_such Q lines) ->
  resolved Q lines match found with Some p => p | None => EmptyString end.
Proof.
  intros Hsome Hnone. split; [|split].
  - intros before line Hf.
    assert (H : found = Some (device_path_of before)).
    { apply Hsome. now exists before, line. }
    now rewrite H.
  - intros Hn. apply Hnone in Hn. now rewrite Hn.
  - destruct found as [p|]; [|congruence]. intros _. now apply Hsome.
Qed.

(** C1.  For every systool output, [get_device_path_by_index] returns
    the device path of the block of the first index line whose value is
    the target index, string for string, in a block of the driver hvcs;
    it returns the empty string, and does not fail, when no line is such
    a line.  An index that differs from the target as a string, as 01
    differs from 1, is not such a line. *)
Theorem resolve_by_index_first_match (w : W) n proc target :
  run_command w "systool -b vio -D -A index -p" = Started proc ->
  returncode proc = 0%Z ->
  exists path evs,
    runs (get_device_path_by_index target) w n (Ret path) w evs
    /\ actions evs = [EvRun "systool -b vio -D -A index -p"]
    /\ resolved (index_match target) (splitlines (stdout proc)) path
    /\ (forall before line value,
           value_of RE_INDEX line = Some value -> value <> target ->
           ~ index_match target before line).
Proof.
  intros Hrun Hrc.
  pose proof (runs_get_device_path_by_index target w n) as (evs & R & A).
  unfold index_result in R. rewrite Hrun, Hrc in R. cbn [Z.eqb negb] in R.
  do 2 eexists. split; [exact R|]. split; [exact A|]. split.
  - destruct (index_scan_spec target (splitlines (stdout proc))) as [Hs Hn].
    now apply resolved_of_scan.
  - intros before line value Hv Hne [_ Hm]. congruence.
Qed.

(** C4.  [get_device_path_by_partition] returns the device path of the
    block of the first [current_vty] line that parses with the target
    partition and slot 0, in a block of the driver hvcs.  A line parses
    as partition [p] and slot [s] exactly when its value is written
    machine, model and serial separated by dots, then -V and the digits
    [p], then -C and the digits [s]; so the code that ends in V15-C0
    gives partition 15 and slot 0, and the one that ends in V15-C1 does
    not resolve partition 15. *)
Theorem resolve_by_partition_first_console (w : W) n proc target :
  run_command w "systool -b vio -D -A current_vty -p" = Started proc ->
  returncode proc = 0%Z ->
  exists path evs,
    runs (get_device_path_by_partition target) w n (Ret path) w evs
    /\ actions evs = [EvRun "systool -b vio -D -A current_vty -p"]
    /\ resolved (console_match target) (splitlines (stdout proc)) path
    /\ (forall line p s,
           location_of line = Some (p, s)
           <-> exists indent gap tail m1 m2 m3,
                 line = attr_line indent "current_vty" gap
                                  (location_code m1 m2 m3 p s) tail
                 /\ all space indent = true /\ all space gap = true
                 /\ all space tail = true
                 /\ filled word m1 /\ filled word m2 /\ filled word m3
                 /\ filled digit p /\ filled digit s)
    /\ location_of (Fixture.line "      " "current_vty" "9406.520.100048A-V15-C0")
       = Some ("15", "0")%string
    /\ location_of (Fixture.line "      " "current_vty" "9406.520.100048A-V15-C1")
       = Some ("15", "1")%string
    /\ (forall before,
           ~ console_match "15" before
             (Fixture.line "      " "current_vty" "9406.520.100048A-V15-C1")).
Proof.
  intros Hrun Hrc.
  destruct (runs_get_device_path_by_partition target w n proc Hrun Hrc)
    as (evs & R & A).
  do 2 eexists. split; [exact R|]. split; [exact A|].
  split; [|split; [|split; [|split]]].
  - destruct (partition_scan_spec target (splitlines (stdout proc))) as [Hs Hn].
    now apply resolved_of_scan.
  - apply location_of_line.
  - vm_compute. reflexivity.
  - vm_compute. reflexivity.
  - intros before [_ H]. vm_compute in H. discriminate H.
Qed.

(** C6.  [closeall] writes 0 to the [vterm_state] file of every
    [vterm_state] line of value 1 in a block of the driver hvcs, in scan
    order, whatever each write does: a write that fails does not stop
    the sweep.  It reads nothing back: the command and the writes are all
    it does. *)
Theorem closeall_sweeps_every_connected (w : W) n proc :
  run_command w "systool -b vio -D -A vterm_state -p" = Started proc ->
  returncode proc = 0%Z ->
  let connected := connected_from [] (splitlines (stdout proc)) in
  exists evs,
    runs closeall w n (Ret tt) (write_all w connected) evs
    /\ actions evs
       = EvRun "systool -b vio -D -A vterm_state -p"
           :: map close_write connected
    /\ (forall path,
           In path connected
           <-> exists before line after,
                 splitlines (stdout proc) = before ++ line :: after
                 /\ connected_here before line = true
                 /\ path = device_path_of before).
Proof.
  intros Hrun Hrc connected.
  destruct (runs_run_cmd "systool -b vio -D -A vterm_state -p" w n)
    as (o & e & Hcmd & _ & Ho).
  rewrite Hrun in Ho. destruct Ho as [-> ->].
  destruct (runs_closeall_scan (splitlines (stdout proc)) [] EmptyString
                               EmptyString w n) as (evs & R & A).
  eexists. split; [|split].
  - unfold closeall. eapply runs_bind; [exact Hcmd|]. cbv beta.
    rewrite Hrc. cbn [Z.eqb negb]. exact R.
  - autorewrite with trace. now rewrite A.
  - intros path. apply (connected_from_spec (splitlines (stdout proc)) [] path).
Qed.

(** The run of [rescan]: the candidates are tried in order up to the
    first write that goes through; when none does, the last thing done
    is the message that nothing was found. *)
Lemma rescan_run (w : W) n proc :
  run_command w systool_drivers = Started proc ->
  returncode proc = 0%Z ->
  let candidates := rescan_candidates [] (splitlines (stdout proc)) in
  let tried := fst (try_each w candidates) in
  exists evs,
    runs rescan w n (Ret tt) (snd (try_each w candidates)) evs
    /\ actions evs = EvRun systool_drivers :: map rescan_write tried
    /\ ((exists failed path skipped,
            candidates = failed ++ path :: skipped
            /\ tried = map failed_write failed ++ [(path, true)]
            /\ errors evs = [])
        \/ (tried = map failed_write candidates
            /\ exists said,
                 evs = said ++ [EvPrint Stderr msg_not_found]
                 /\ errors said = [])).
Proof.
  intros Hrun Hrc candidates tried.
  destruct (runs_run_cmd systool_drivers w n) as (o & e & Hcmd & _ & Ho).
  rewrite Hrun in Ho. destruct Ho as [-> ->].
  destruct (runs_rescan_scan (splitlines (stdout proc)) [] EmptyString w n)
    as (evs & R & A & E).
  fold candidates in R, A. fold tried in R, A.
  destruct (try_each_shape candidates w) as [[Hn Ht]|[Hy Ht]];
    fold tried in Hn || fold tried in Hy; fold tried in Ht.
  - rewrite Hn in R. eexists. split; [|split].
    + eapply runs_eq.
      * unfold rescan. eapply runs_bind; [apply runs_verboseprint|].
        eapply runs_bind; [exact Hcmd|]. cbv beta.
        rewrite Hrc. cbn [Z.eqb negb].
        eapply runs_bind; [exact R|]. cbv beta iota.
        apply runs_errorprint.
      * rewrite !app_assoc. reflexivity.
    + autorewrite with trace. now rewrite A.
    + right. split; [exact Ht|]. eexists. split; [reflexivity|].
      autorewrite with trace. now rewrite E.
  - rewrite Hy in R. eexists. split; [|split].
    + unfold rescan. eapply runs_bind; [apply runs_verboseprint|].
      eapply runs_bind; [exact Hcmd|]. cbv beta.
      rewrite Hrc. cbn [Z.eqb negb].
      eapply runs_bind; [exact R|]. cbv beta iota.
      apply runs_ret.
    + autorewrite with trace. now rewrite A.
    + left. destruct Ht as (failed & path & skipped & Hc & Ht).
      exists failed, path, skipped. split; [exact Hc|]. split; [exact Ht|].
      autorewrite with trace. now rewrite E.
Qed.

(** C9, amended.  [rescan] tries the rescan attribute of the driver
    directories of the blocks of the driver hvcs in scan order, until a
    write goes through, and then stops: one write at most goes through,
    at the first such block whose write does, which is the first such
    block when its write goes through.  When no write goes through over
    the whole scan, the last thing it does is to report that nothing was
    found. *)
Theorem rescan_stops_at_first_success (w : W) n proc :
  run_command w systool_drivers = Started proc ->
  returncode proc = 0%Z ->
  let candidates := rescan_candidates [] (splitlines (stdout proc)) in
  let tried := fst (try_each w candidates) in
  exists evs,
    runs rescan w n (Ret tt) (snd (try_each w candidates)) evs
    /\ actions evs = EvRun systool_drivers :: map rescan_write tried
    /\ ((exists failed path skipped,
            candidates = failed ++ path :: skipped
            /\ tried = map failed_write failed ++ [(path, true)]
            /\ errors evs = [])
        \/ (tried = map failed_write candidates
            /\ exists said,
                 evs = said ++ [EvPrint Stderr msg_not_found]
                 /\ errors said = []))
    /\ (forall first rest,
           candidates = first :: rest ->
           fst (write_file w (path_join first "rescan") "1") = true ->
           tried = [(first, true)]).
Proof.
  intros Hrun Hrc candidates tried.
  destruct (rescan_run w n proc Hrun Hrc) as (evs & R & A & H).
  exists evs. split; [exact R|]. split; [exact A|]. split; [exact H|].
  intros first rest Hc Hw. unfold tried. rewrite Hc. cbn [try_each].
  destruct (write_file w (path_join first "rescan") "1") as [ok w1].
  cbn [fst] in Hw. now subst ok.
Qed.

(** C7.  Lines before the first Driver line are attached to no block:
    the scans find nothing and write nothing over them, and go on as if
    they had not been there.  A Driver line starts afresh: the scan from
    it on does not depend on what the lines before it left in the
    variables of the loop. *)
Theorem scans_keep_one_block (target : string) (pre rest : list string)
        (d : string) (m : list string) (st : state W)
        (ld dev vs dp idx fp fs : string) :
  no_driver pre ->
  rmatch RE_DRIVER d = Some m ->
  (index_scan target pre EmptyString EmptyString EmptyString = None
   /\ index_scan target (pre ++ rest) EmptyString EmptyString EmptyString
      = index_scan target rest EmptyString EmptyString EmptyString
   /\ index_scan target (d :: rest) ld dp idx
      = index_scan target (d :: rest) EmptyString EmptyString EmptyString)
  /\ (partition_scan target pre EmptyString EmptyString EmptyString EmptyString
      = None
      /\ partition_scan target (pre ++ rest)
                        EmptyString EmptyString EmptyString EmptyString
         = partition_scan target rest
                          EmptyString EmptyString EmptyString EmptyString
      /\ partition_scan target (d :: rest) ld fp fs dp
         = partition_scan target (d :: rest)
                          EmptyString EmptyString EmptyString EmptyString)
  /\ (closeall_scan pre EmptyString EmptyString EmptyString EmptyString st
      = (Ret tt, st)
      /\ closeall_scan (pre ++ rest)
                       EmptyString EmptyString EmptyString EmptyString st
         = closeall_scan rest EmptyString EmptyString EmptyString EmptyString st
      /\ closeall_scan (d :: rest) ld dev vs dp st
         = closeall_scan (d :: rest)
                         EmptyString EmptyString EmptyString EmptyString st)
  /\ (rescan_scan pre EmptyString EmptyString st = (Ret false, st)
      /\ rescan_scan (pre ++ rest) EmptyString EmptyString st
         = rescan_scan rest EmptyString EmptyString st
      /\ rescan_scan (d :: rest) ld dp st
         = rescan_scan (d :: rest) EmptyString EmptyString st).
Proof.
  intros Hpre Hd. repeat split.
  - rewrite index_scan_is_scan.
    rewrite <- (app_nil_r pre). now rewrite (scan_skips _ _ pre [] Hpre).
  - rewrite !index_scan_is_scan. now apply scan_skips.
  - rewrite !index_scan_is_scan. eapply scan_resets, Hd.
  - rewrite partition_scan_is_scan.
    rewrite <- (app_nil_r pre). now rewrite (scan_skips _ _ pre [] Hpre).
  - rewrite !partition_scan_is_scan. now apply scan_skips.
  - rewrite !partition_scan_is_scan. eapply scan_resets, Hd.
  - rewrite <- (app_nil_r pre). now rewrite (closeall_skips pre [] Hpre).
  - now rewrite (closeall_skips pre rest Hpre).
  - now rewrite (closeall_resets d m rest ld dev vs dp
                   EmptyString EmptyString EmptyString EmptyString Hd).
  - rewrite <- (app_nil_r pre). now rewrite (rescan_skips pre [] Hpre).
  - now rewrite (rescan_skips pre rest Hpre).
  - now rewrite (rescan_resets d m rest ld dp EmptyString EmptyString Hd).
Qed.

(** C3.  When the identifier resolves to a device whose [vterm_state]
    already reads 0, [closedevice] exits with status 0, leaves the world
    as it is and writes nothing: all it does is to look the node up, run
    systool, and test and read the attribute. *)
Theorem closedevice_free_is_noop (w : W) n parameter device_path content :
  resolves_to w parameter device_path ->
  path_exists w (vstate device_path) = true ->
  read_file w (vstate device_path) = Some content ->
  strip content = "0"%string ->
  exists evs,
    runs (closedevice parameter) w n (Exit 0%Z) w evs
    /\ actions evs = [EvExists (dev_node parameter); EvRun systool_index;
                      EvExists (vstate device_path);
                      EvRead (vstate device_path)]
    /\ Forall (fun e => is_write e = false) evs.
Proof.
  intros Hres Hex Hread Hz.
  destruct (closedevice_already_free w n parameter device_path content
              Hres Hex Hread Hz) as (evs & R & A).
  exists evs. split; [exact R|]. split; [exact A|].
  apply Forall_forall. intros e He.
  destruct e; try reflexivity.
  assert (Hin : In (EvWrite path data) (actions evs)).
  { apply filter_In. now split. }
  rewrite A in Hin. cbn in Hin.
  repeat (destruct Hin as [Hin|Hin]; [discriminate Hin|]). destruct Hin.
Qed.

(** C2.  After the write of 0 to the [vterm_state] file of the resolved
    device the attribute is read again.  When the value read is not 0,
    [closedevice] reports that the disconnection failed and points to
    dmesg, as the last two things it does, and exits with status 1.  It
    returns normally when the value read is 0, and a call of
    [closedevice] that returns normally has read 0 back after its
    write. *)
Theorem closedevice_checks_the_write (w : W) n parameter device_path
        content ok w' content' :
  resolves_to w parameter device_path ->
  path_exists w (vstate device_path) = true ->
  read_file w (vstate device_path) = Some content ->
  strip content <> "0"%string ->
  write_file w (vstate device_path) "0" = (ok, w') ->
  read_file w' (vstate device_path) = Some content' ->
  (exists o evs said,
      runs (closedevice parameter) w n o w' (evs ++ said)
      /\ actions evs = [EvExists (dev_node parameter); EvRun systool_index;
                        EvExists (vstate device_path);
                        EvRead (vstate device_path);
                        EvWrite (vstate device_path) "0";
                        EvRead (vstate device_path)]
      /\ (strip content' <> "0"%string ->
          o = Exit 1%Z
          /\ said = [EvPrint Stderr (msg_failed device_path);
                     EvPrint Stderr msg_dmesg])
      /\ (strip content' = "0"%string ->
          o = Ret tt /\ actions said = [] /\ errors said = []))
  /\ (forall parameter0 (w0 : W) n0 l0 st,
         closedevice parameter0 (State w0 n0 l0) = (Ret tt, st) ->
         exists device_path0 content0,
           world st = snd (write_file w0 (vstate device_path0) "0")
           /\ read_file (world st) (vstate device_path0) = Some content0
           /\ strip content0 = "0"%string).
Proof.
  intros Hres Hex Hread Hnz Hwrite Hread'. split.
  - eapply closedevice_write_checked; eassumption.
  - intros parameter0 w0 n0 l0 st. apply closedevice_success.
Qed.

Lemma closedevice_rejects (w : W) n parameter :
  getnodename parameter = GLOBAL_NODE_NAME ->
  leading_zero (getindex parameter) = true ->
  exists evs,
    runs (closedevice parameter) w n (Exit 1%Z) w evs /\ actions evs = [].
Proof.
  intros Hname Hlz.
  destruct (getindex_digits parameter Hname) as [_ Hd].
  destruct (runs_validindex (getindex parameter) w n) as (e1 & R1 & A1).
  rewrite (leading_zero_digits _ Hd), Hlz in R1.
  eexists. split.
  - unfold closedevice. rewrite Hname, String.eqb_refl. cbn [negb].
    eapply runs_bind; [exact R1|]. cbv beta. cbn [Z.eqb negb].
    apply runs_sys_exit.
  - autorewrite with trace. exact A1.
Qed.

Lemma querynode_rejects (w : W) n parameter :
  getnodename parameter = GLOBAL_NODE_NAME ->
  leading_zero (getindex parameter) = true ->
  exists evs,
    runs (querynode parameter) w n (Exit 1%Z) w evs /\ actions evs = [].
Proof.
  intros Hname Hlz.
  destruct (getindex_digits parameter Hname) as [_ Hd].
  destruct (runs_validindex (getindex parameter) w n) as (e1 & R1 & A1).
  rewrite (leading_zero_digits _ Hd), Hlz in R1.
  eexists. split.
  - unfold querynode. rewrite Hname, String.eqb_refl. cbn [negb].
    eapply runs_bind; [apply runs_verboseprint|].
    eapply runs_bind; [exact R1|]. cbv beta. cbn [Z.eqb negb].
    apply runs_sys_exit.
  - autorewrite with trace. exact A1.
Qed.

(** C5.  The index that [closedevice] and [querynode] validate is a run
    of digits; on a run of digits [validindex] rejects exactly those that
    start with a zero followed by further characters, so 0 is accepted
    and 02 is not; and on a rejected index both calls exit with status 1
    without having looked at /dev or run systool. *)
Theorem validindex_rejects_before_resolution (w : W) n parameter :
  getnodename parameter = GLOBAL_NODE_NAME ->
  leading_zero (getindex parameter) = true ->
  (getindex parameter <> EmptyString
   /\ all digit (getindex parameter) = true)
  /\ (forall ds,
         all digit ds = true ->
         exists evs,
           runs (validindex ds) w n
                (Ret (if leading_zero ds then (-1)%Z else 0%Z)) w evs
           /\ actions evs = [])
  /\ (leading_zero "0" = false /\ leading_zero "02" = true)
  /\ (exists evs,
         runs (closedevice parameter) w n (Exit 1%Z) w evs
         /\ actions evs = [])
  /\ (exists evs,
         runs (querynode parameter) w n (Exit 1%Z) w evs
         /\ actions evs = []).
Proof.
  intros Hname Hlz. split; [now apply getindex_digits|].
  split; [|split; [now split|split]].
  - intros ds Hd. destruct (runs_validindex ds w n) as (evs & R & A).
    rewrite (leading_zero_digits _ Hd) in R. now exists evs.
  - now apply closedevice_rejects.
  - now apply querynode_rejects.
Qed.

Lemma querynode_tail_framed name index :
  framed (r <- @validindex W index ;;
          if negb (r =? 0)%Z then sys_exit 1 else
          r <- finddeventry name index ;;
          if negb (r =? 0)%Z then sys_exit 1 else
          path <- get_device_path_by_index index ;;
          if (path =? EmptyString)%string then ret tt
          else displaybypath path ;; ret tt).
Proof.
  apply framed_bind; [apply framed_validindex|]. intros r.
  destruct (negb (r =? 0)%Z); [apply framed_sys_exit|].
  apply framed_bind; [apply framed_finddeventry|]. intros r'.
  destruct (negb (r' =? 0)%Z); [apply framed_sys_exit|].
  apply framed_bind; [apply framed_get_device_path_by_index|]. intros path.
  destruct (path =? EmptyString)%string; [apply framed_ret|].
  apply framed_bind; [apply framed_displaybypath|]. intros _.
  apply framed_ret.
Qed.

(** C10.  An identifier that ends with the node prefix and a run of
    digits, whatever precedes them, has the name hvcs and those digits
    as its index.  [closedevice] then does on it exactly what it does on
    the node of /dev with those digits, and so does [querynode] but for
    its trace line, which names the identifier. *)
Theorem node_name_check_looks_at_suffix (w : W) n pre ds :
  ds <> EmptyString ->
  all digit ds = true ->
  let given := (pre ++ GLOBAL_NODE_NAME ++ ds)%string in
  let node := ("/dev/" ++ GLOBAL_NODE_NAME ++ ds)%string in
  getnodename given = GLOBAL_NODE_NAME
  /\ getindex given = ds
  /\ (forall st : state W, closedevice given st = closedevice node st)
  /\ (exists o w' rest,
         runs (querynode given) w n o w' (vmsg n (msg_query given) ++ rest)
         /\ runs (querynode node) w n o w' (vmsg n (msg_query node) ++ rest)).
Proof.
  intros Hne Hd given node.
  assert (Hn1 : getnodename given = GLOBAL_NODE_NAME)
    by exact (getnodename_suffix pre ds Hne Hd).
  assert (Hi1 : getindex given = ds) by exact (getindex_suffix pre ds Hne Hd).
  assert (Hn2 : getnodename node = GLOBAL_NODE_NAME)
    by exact (getnodename_suffix "/dev/" ds Hne Hd).
  assert (Hi2 : getindex node = ds) by exact (getindex_suffix "/dev/" ds Hne Hd).
  split; [exact Hn1|]. split; [exact Hi1|]. split.
  - intros st. unfold closedevice. rewrite Hn1, Hi1, Hn2, Hi2.
    rewrite String.eqb_refl. reflexivity.
  - destruct (querynode_tail_framed GLOBAL_NODE_NAME ds w n)
      as (o & w' & rest & R).
    exists o, w', rest. split.
    + unfold querynode. rewrite Hn1, Hi1, String.eqb_refl. cbn [negb].
      eapply runs_bind; [apply runs_verboseprint | exact R].
    + unfold querynode. rewrite Hn2, Hi2, String.eqb_refl. cbn [negb].
      eapply runs_bind; [apply runs_verboseprint | exact R].
Qed.
End Claims.

(** ** The enumeration of [status] *)

Import Fixture.

Lemma search_entry_digits s :
  all digit s = true -> forall b, search_from RE_ENTRY b s = None.
Proof.
  induction s as [|c s IH]; intros Hd b; [reflexivity|].
  cbn [all] in Hd. apply andb_true_iff in Hd as [Hc Hs].
  cbn [search_from]. rewrite (IH Hs).
  unfold RE_ENTRY. cbn [app lit GLOBAL_NODE_NAME run].
  destruct (Ascii.eqb_spec c "h") as [->|]; [discriminate Hc | reflexivity].
Qed.

Lemma search_from_next pat b c s :
  run pat b (String c s) None [] = None ->
  search_from pat b (String c s) = search_from pat false s.
Proof. intros H. cbn [search_from]. now rewrite H. Qed.

Lemma search_entry_multi_digit d ds :
  ds <> EmptyString -> all digit (String d ds) = true ->
  search RE_ENTRY (GLOBAL_NODE_NAME ++ String d ds) = None.
Proof.
  intros Hne Hd. destruct ds as [|d2 ds]; [congruence|].
  pose proof (search_entry_digits _ Hd false) as Hrest.
  cbn [all] in Hd.
  apply andb_true_iff in Hd as [Hd1 Hd]. apply andb_true_iff in Hd as [Hd2 _].
  assert (H10 : is_code 10 d2 = false).
  { unfold digit, between in Hd2. unfold is_code.
    apply andb_true_iff in Hd2 as [Hlo _]. apply N.leb_le in Hlo.
    apply N.eqb_neq. lia. }
  unfold search. cbn [GLOBAL_NODE_NAME append].
  rewrite search_from_next.
  2:{ unfold RE_ENTRY.
      cbn [app lit GLOBAL_NODE_NAME run Ascii.eqb Bool.eqb push].
      rewrite Hd1. cbn [at_eol].
      destruct ds; [now rewrite H10 | reflexivity]. }
  do 3 (rewrite search_from_next by reflexivity).
  exact Hrest.
Qed.

(** C8.  The pattern of [status] takes one digit after the node prefix
    and then the end of the name: a node of /dev with two digits or more
    is not matched, although [getindex] reads its index.  So, in a world
    whose only node is hvcs10, [status] lists /dev, attempts no
    resolution and reports that no adapter was found, while [querynode]
    on that node resolves it and displays its line. *)
Theorem status_misses_multi_digit_nodes :
  (forall d ds,
      ds <> EmptyString -> all digit (String d ds) = true ->
      search RE_ENTRY (GLOBAL_NODE_NAME ++ String d ds) = None
      /\ getindex ("/dev/" ++ GLOBAL_NODE_NAME ++ String d ds) = String d ds)
  /\ status (State w_ten 0 [])
     = (Ret tt,
        State w_ten 0
              [EvListdir "/dev";
               EvPrint Stdout (APP_NAME ++ ": no hvcs adapters found." ++ nl)])
  /\ querynode "/dev/hvcs10" (State w_ten 0 [])
     = (Ret tt,
        State w_ten 0
              [EvExists "/dev/hvcs10"; EvRun systool_index;
               EvExists "/sys/devices/vio/30000006/current_vty";
               EvExists "/sys/devices/vio/30000006/index";
               EvExists "/sys/devices/vio/30000006/vterm_state";
               EvRead "/sys/devices/vio/30000006/current_vty";
               EvRead "/sys/devices/vio/30000006/vterm_state";
               EvRead "/sys/devices/vio/30000006/index";
               EvPrint Stdout
                 ("vty-server@30000006 partition:16 slot:0 /dev/hvcs10 vterm-state:1"
                    ++ nl)]).
Proof.
  split; [|split].
  - intros d ds Hne Hd. split.
    + now apply search_entry_multi_digit.
    + apply (getindex_suffix "/dev/" (String d ds)); [discriminate | exact Hd].
  - vm_compute. reflexivity.
  - vm_compute. reflexivity.
Qed.

(** ** The script on the example world *)

Example index_is_compared_as_a_string :
  index_scan "1" (splitlines vio_index) EmptyString EmptyString EmptyString
  = Some "/sys/devices/vio/30000005"
  /\ index_scan "10" (splitlines vio_index) EmptyString EmptyString EmptyString
     = Some "/sys/devices/vio/30000006"
  /\ index_scan "01" (splitlines vio_index) EmptyString EmptyString EmptyString
     = None
  /\ index_scan "010" (splitlines vio_index) EmptyString EmptyString EmptyString
     = None.
Proof. repeat split; vm_compute; reflexivity. Qed.

Example other_drivers_are_ignored :
  index_scan "7" (splitlines (listing "index" "0" "1" "10" "11" "7"))
             EmptyString EmptyString EmptyString
  = None.
Proof. vm_compute. reflexivity. Qed.

Example first_console_wins :
  partition_scan "15" (splitlines vio_current_vty)
                 EmptyString EmptyString EmptyString EmptyString
  = Some "/sys/devices/vio/30000004"
  /\ partition_scan "16" (splitlines vio_current_vty)
                    EmptyString EmptyString EmptyString EmptyString
     = Some "/sys/devices/vio/30000006"
  /\ partition_scan "17" (splitlines vio_current_vty)
                    EmptyString EmptyString EmptyString EmptyString
     = None.
Proof. repeat split; vm_compute; reflexivity. Qed.

Example node_identifiers :
  getnodename "/dev/hvcs2" = "hvcs" /\ getindex "/dev/hvcs2" = "2"
  /\ getnodename "foohvcs12" = "hvcs" /\ getindex "foohvcs12" = "12"
  /\ getnodename "/dev/hvc2" = EmptyString /\ getindex "/dev/hvc2" = "-1"
  /\ getnodename "/dev/hvcs" = EmptyString /\ getindex "hvcs2x" = "-1".
Proof. repeat split; vm_compute; reflexivity. Qed.

Example leading_zero_indices :
  rmatch RE_LEADING_ZERO "0" = None
  /\ rmatch RE_LEADING_ZERO "10" = None
  /\ rmatch RE_LEADING_ZERO "02" = Some ["02"]%list
  /\ rmatch RE_LEADING_ZERO "00" = Some ["00"]%list.
Proof. repeat split; vm_compute; reflexivity. Qed.

Example closeall_goes_on_after_a_failure :
  closeall (State w_denied 1 [])
  = (Ret tt,
     State (write_all w_denied ["/sys/devices/vio/30000005";
                                "/sys/devices/vio/30000006";
                                "/sys/devices/vio/30000007"]%list) 1
           [EvRun "systool -b vio -D -A vterm_state -p";
            close_write "/sys/devices/vio/30000005";
            EvPrint Stdout (APP_NAME ++ ": closed vty-server@30000005"
                                     ++ " partner adapter connection." ++ nl);
            close_write "/sys/devices/vio/30000006";
            close_write "/sys/devices/vio/30000007";
            EvPrint Stdout (APP_NAME ++ ": closed vty-server@30000007"
                                     ++ " partner adapter connection." ++ nl)]%list)
  /\ read_file (write_all w_denied ["/sys/devices/vio/30000005";
                                    "/sys/devices/vio/30000006";
                                    "/sys/devices/vio/30000007"]%list)
               "/sys/devices/vio/30000006/vterm_state"
     = Some (eol "1").
Proof. split; vm_compute; reflexivity. Qed.

Example closedevice_disconnects :
  closedevice "/dev/hvcs1" (State w0 0 [])
  = (Ret tt,
     State (snd (write_file w0 "/sys/devices/vio/30000005/vterm_state" "0")) 0
           [EvExists "/dev/hvcs1"; EvRun systool_index;
            EvExists "/sys/devices/vio/30000005/vterm_state";
            EvRead "/sys/devices/vio/30000005/vterm_state";
            EvWrite "/sys/devices/vio/30000005/vterm_state" "0";
            EvRead "/sys/devices/vio/30000005/vterm_state"]%list).
Proof. vm_compute. reflexivity. Qed.

Example closedevice_reports_a_write_without_effect :
  closedevice "/dev/hvcs1" (State w_stuck 0 [])
  = (Exit 1%Z,
     State w_stuck 0
           [EvExists "/dev/hvcs1"; EvRun systool_index;
            EvExists "/sys/devices/vio/30000005/vterm_state";
            EvRead "/sys/devices/vio/30000005/vterm_state";
            EvWrite "/sys/devices/vio/30000005/vterm_state" "0";
            EvRead "/sys/devices/vio/30000005/vterm_state";
            EvPrint Stderr (msg_failed "/sys/devices/vio/30000005");
            EvPrint Stderr msg_dmesg]%list).
Proof. vm_compute. reflexivity. Qed.

Example rescan_reports_not_found :
  rescan (State (Sim sys_files [] ["/sys/bus/vio/drivers/hvcs/rescan"]
                     (dev w0) sys_commands) 0 [])
  = (Ret tt,
     State (Sim sys_files [] ["/sys/bus/vio/drivers/hvcs/rescan"]
                (dev w0) sys_commands) 0
           [EvRun systool_drivers;
            EvWrite "/sys/bus/vio/drivers/hvcs/rescan" "1";
            EvPrint Stderr msg_not_found]%list).
Proof. vm_compute. reflexivity. Qed.

(** ** The claims at concrete inputs *)

Section Witnesses.
Local Open Scope list_scope.

Lemma resolve_by_index_first_match_witness :
  run_command w0 systool_index = Started (ran vio_index)
  /\ exists path evs,
       runs (get_device_path_by_index "1") w0 0 (Ret path) w0 evs
       /\ actions evs = [EvRun systool_index]
       /\ resolved (index_match "1") (splitlines vio_index) path.
Proof.
  assert (Hrun : run_command w0 systool_index = Started (ran vio_index))
    by reflexivity.
  split; [exact Hrun|].
  destruct (resolve_by_index_first_match w0 0 (ran vio_index) "1"
                                         Hrun eq_refl)
    as (path & evs & R & A & Hres & _).
  exists path, evs. repeat split; assumption || apply Hres.
Defined.

Lemma resolve_by_partition_first_console_witness :
  run_command w0 "systool -b vio -D -A current_vty -p"
  = Started (ran vio_current_vty)
  /\ exists path evs,
       runs (get_device_path_by_partition "15") w0 0 (Ret path) w0 evs
       /\ resolved (console_match "15") (splitlines vio_current_vty) path.
Proof.
  assert (Hrun : run_command w0 "systool -b vio -D -A current_vty -p"
                 = Started (ran vio_current_vty)) by reflexivity.
  split; [exact Hrun|].
  destruct (resolve_by_partition_first_console w0 0 (ran vio_current_vty) "15"
                                               Hrun eq_refl)
    as (path & evs & R & _ & Hres & _).
  now exists path, evs.
Defined.

Lemma closeall_sweeps_every_connected_witness :
  fst (write_file w_denied (vstate "/sys/devices/vio/30000006") "0") = false
  /\ exists w' evs,
       runs closeall w_denied 0 (Ret tt) w' evs
       /\ actions evs
          = [EvRun "systool -b vio -D -A vterm_state -p";
             close_write "/sys/devices/vio/30000005";
             close_write "/sys/devices/vio/30000006";
             close_write "/sys/devices/vio/30000007"].
Proof.
  split; [reflexivity|].
  assert (Hrun : run_command w_denied "systool -b vio -D -A vterm_state -p"
                 = Started (ran vio_vterm_state)) by reflexivity.
  destruct (closeall_sweeps_every_connected w_denied 0 (ran vio_vterm_state)
                                            Hrun eq_refl)
    as (evs & R & A & _).
  eexists. exists evs. split; [exact R|]. rewrite A. reflexivity.
Defined.

Lemma rescan_stops_at_first_success_witness :
  fst (write_file w_twice "/sys/bus/vio/drivers/hvcs/rescan" "1") = false
  /\ exists w' evs,
       runs rescan w_twice 0 (Ret tt) w' evs
       /\ actions evs
          = [EvRun systool_drivers;
             rescan_write ("/sys/bus/vio/drivers/hvcs", false);
             rescan_write ("/sys/bus/vio/drivers/hvcs.1", true)].
Proof.
  split; [reflexivity|].
  assert (Hrun : run_command w_twice systool_drivers
                 = Started (ran vio_drivers_twice)) by reflexivity.
  destruct (rescan_stops_at_first_success w_twice 0 (ran vio_drivers_twice)
                                          Hrun eq_refl)
    as (evs & R & A & _).
  eexists. exists evs. split; [exact R|]. rewrite A. reflexivity.
Defined.

Lemma scans_keep_one_block_witness :
  let pre := [line "      " "index" "1";
              line "    " "Device path" "/sys/devices/vio/30000009";
              line "      " "vterm_state" "1"] in
  let d := line "  " "Driver" "hvcs" in
  let rest := splitlines vio_index in
  no_driver pre
  /\ rmatch RE_DRIVER d = Some ["hvcs"%string]
  /\ index_scan "1" (pre ++ d :: rest) EmptyString EmptyString EmptyString
     = index_scan "1" (d :: rest) "ibmvscsi" "/sys/devices/vio/30000002" "7".
Proof.
  intros pre d rest.
  assert (Hpre : no_driver pre) by (repeat constructor).
  assert (Hd : rmatch RE_DRIVER d = Some ["hvcs"%string]) by reflexivity.
  split; [exact Hpre|]. split; [exact Hd|].
  destruct (scans_keep_one_block (W := sim) "1" pre (d :: rest) d ["hvcs"%string]
              (State w0 0 [])
              "ibmvscsi" EmptyString EmptyString
              "/sys/devices/vio/30000002" "7" EmptyString EmptyString
              Hpre Hd)
    as ((_ & Hskip & _) & _).
  destruct (scans_keep_one_block (W := sim) "1" pre rest d ["hvcs"%string]
              (State w0 0 [])
              "ibmvscsi" EmptyString EmptyString
              "/sys/devices/vio/30000002" "7" EmptyString EmptyString
              Hpre Hd)
    as ((_ & _ & Hreset) & _).
  rewrite Hskip. symmetry. exact Hreset.
Defined.

Lemma resolves_hvcs0 : resolves_to w0 "/dev/hvcs0" "/sys/devices/vio/30000004".
Proof.
  repeat split; try reflexivity; [|discriminate].
  exists (ran vio_index). repeat split; reflexivity.
Defined.

Lemma resolves_hvcs1 :
  resolves_to w_stuck "/dev/hvcs1" "/sys/devices/vio/30000005".
Proof.
  repeat split; try reflexivity; [|discriminate].
  exists (ran vio_index). repeat split; reflexivity.
Defined.

Lemma closedevice_free_is_noop_witness :
  read_file w0 (vstate "/sys/devices/vio/30000004") = Some (eol "0")
  /\ exists evs,
       runs (closedevice "/dev/hvcs0") w0 0 (Exit 0%Z) w0 evs
       /\ Forall (fun e => is_write e = false) evs.
Proof.
  split; [reflexivity|].
  destruct (closedevice_free_is_noop w0 0 "/dev/hvcs0"
              "/sys/devices/vio/30000004" (eol "0")
              resolves_hvcs0 eq_refl eq_refl eq_refl)
    as (evs & R & _ & F).
  now exists evs.
Defined.

Lemma closedevice_checks_the_write_witness :
  read_file w_stuck (vstate "/sys/devices/vio/30000005") = Some (eol "1")
  /\ write_file w_stuck (vstate "/sys/devices/vio/30000005") "0"
     = (true, w_stuck)
  /\ exists evs,
       runs (closedevice "/dev/hvcs1") w_stuck 0 (Exit 1%Z) w_stuck
            (evs ++ [EvPrint Stderr (msg_failed "/sys/devices/vio/30000005");
                     EvPrint Stderr msg_dmesg]).
Proof.
  split; [reflexivity|]. split; [reflexivity|].
  assert (Hnz : strip (eol "1") <> "0"%string) by (vm_compute; discriminate).
  destruct (closedevice_checks_the_write w_stuck 0 "/dev/hvcs1"
              "/sys/devices/vio/30000005" (eol "1") true w_stuck (eol "1")
              resolves_hvcs1 eq_refl eq_refl Hnz eq_refl eq_refl)
    as ((o & evs & said & R & _ & Hfail & _) & _).
  destruct (Hfail Hnz) as [-> ->]. now exists evs.
Defined.

Lemma validindex_rejects_before_resolution_witness :
  getindex "/dev/hvcs02" = "02"%string
  /\ exists evs,
       runs (closedevice "/dev/hvcs02") w0 0 (Exit 1%Z) w0 evs
       /\ actions evs = [].
Proof.
  split; [reflexivity|].
  destruct (validindex_rejects_before_resolution w0 0 "/dev/hvcs02"
                                                 eq_refl eq_refl)
    as (_ & _ & _ & H & _).
  exact H.
Defined.

Lemma node_name_check_looks_at_suffix_witness :
  getnodename "/dev/xhvcs2" = "hvcs"%string
  /\ getindex "foohvcs2" = "2"%string
  /\ forall st : state sim,
       closedevice "/dev/xhvcs2" st = closedevice "/dev/hvcs2" st.
Proof.
  assert (Hne : "2"%string <> EmptyString) by discriminate.
  destruct (node_name_check_looks_at_suffix w0 0 "/dev/x" "2" Hne eq_refl)
    as (Hn & _ & Hc & _).
  destruct (node_name_check_looks_at_suffix w0 0 "foo" "2" Hne eq_refl)
    as (_ & Hi & _).
  split; [exact Hn|]. split; [exact Hi|]. exact Hc.
Defined.

(** C9 as the specification states it does not hold: with two blocks of
    the driver hvcs of which the first cannot be written, [rescan] goes
    on to the second and writes there. *)
Lemma rescan_writes_second_block :
  rescan_candidates [] (splitlines vio_drivers_twice)
  = ["/sys/bus/vio/drivers/hvcs"%string; "/sys/bus/vio/drivers/hvcs.1"%string]
  /\ actions (log (snd (rescan (State w_twice 0 []))))
     = [EvRun systool_drivers;
        EvWrite "/sys/bus/vio/drivers/hvcs/rescan" "1";
        EvWrite "/sys/bus/vio/drivers/hvcs.1/rescan" "1"]
  /\ read_file (world (snd (rescan (State w_twice 0 []))))
               "/sys/bus/vio/drivers/hvcs.1/rescan" = Some "1"%string
  /\ ~ rescan_first_block_only w_twice 0 (splitlines vio_drivers_twice).
Proof.
  split; [reflexivity|]. split; [reflexivity|]. split; [reflexivity|].
  intros H.
  assert (Hrun : run_command w_twice systool_drivers
                 = Started (ran vio_drivers_twice)) by reflexivity.
  destruct (rescan_run w_twice 0 (ran vio_drivers_twice) Hrun eq_refl)
    as (evs & R & A & _).
  assert (Hin : In (EvWrite "/sys/bus/vio/drivers/hvcs.1/rescan" "1") evs).
  { assert (Hin : In (EvWrite "/sys/bus/vio/drivers/hvcs.1/rescan" "1")
                     (actions evs)).
    { rewrite A. right. right. left. reflexivity. }
    apply filter_In in Hin. apply Hin. }
  destruct (H _ _ _ R _ _ Hin) as (first & rest & Hc & Hp).
  vm_compute in Hc. injection Hc as <- _. vm_compute in Hp. discriminate Hp.
Qed.
End Witnesses.

(** * The rest of the script *)

Import Re CharClass Py ReFacts Hvcsadmin Block Trace Claim.
Import PatternFacts LineFacts BlockFacts Steps Resolve CloseFacts SweepFacts.
Import ContextFacts NodeFacts Frames.
Import Builtins Startup Scenario Behaviour.

(** ** Identifiers of device nodes, both ways *)

Module NodeShape.
Import Re CharClass Py ReFacts Hvcsadmin PatternFacts NodeFacts.

Lemma at_eol_cases tl :
  at_eol tl = true <-> tl = EmptyString \/ tl = nl.
Proof.
  split.
  - destruct tl as [|c [|]]; cbn [at_eol]; try discriminate; auto.
    unfold is_code, code. intros H. apply N.eqb_eq in H. right. unfold nl, newline.
    f_equal. rewrite <- (ascii_N_embedding c), H. reflexivity.
  - intros [-> | ->]; reflexivity.
Qed.

Lemma all_trail ds tl :
  all digit ds = true -> at_eol tl = true ->
  all eol_or_digit (ds ++ tl) = true.
Proof.
  intros Hd Htl. rewrite all_app, (at_eol_all _ Htl), andb_true_r.
  apply (all_impl digit); [|exact Hd].
  intros x Hx. unfold eol_or_digit. now rewrite Hx.
Qed.

(** No match starts before the last occurrence of the prefix. *)
Lemma not_earlier c pre ds tl ds' tl' :
  all digit ds' = true -> at_eol tl' = true ->
  String c pre ++ "hvcs" ++ ds ++ tl <> "hvcs" ++ ds' ++ tl'.
Proof.
  intros Hd' Htl' E.
  pose proof (all_trail _ _ Hd' Htl') as Hq.
  simpl in E. injection E as -> E.
  destruct pre as [|c1 pre]; simpl in E; [discriminate E|]. injection E as -> E.
  destruct pre as [|c2 pre]; simpl in E; [discriminate E|]. injection E as -> E.
  destruct pre as [|c3 pre]; simpl in E; [discriminate E|]. injection E as -> E.
  rewrite <- E, all_app in Hq. simpl in Hq.
  now rewrite andb_false_r in Hq.
Qed.

Lemma search_index_found pre ds tl :
  ds <> EmptyString -> all digit ds = true -> at_eol tl = true ->
  forall b, search_from RE_NODE_INDEX b (pre ++ "hvcs" ++ ds ++ tl)
            = Some [ds]%list.
Proof.
  intros Hne Hd Htl.
  induction pre as [|c pre IH]; intros b.
  - pose proof (run_node_index_ok b ds tl Hne Hd Htl) as H.
    cbn [append search_from] in *. now rewrite H.
  - destruct (run RE_NODE_INDEX b (String c pre ++ "hvcs" ++ ds ++ tl) None [])
      eqn:H.
    + exfalso.
      apply run_node_index_inv in H as (ds' & tl' & _ & E & _ & Hd' & Htl').
      exact (not_earlier _ _ _ _ _ _ Hd' Htl' E).
    + cbn [append] in *. rewrite search_from_next by exact H. apply IH.
Qed.

Lemma search_name_found pre ds tl :
  ds <> EmptyString -> all digit ds = true -> at_eol tl = true ->
  forall b, search_from RE_NODE_NAME b (pre ++ "hvcs" ++ ds ++ tl)
            = Some ["hvcs"]%list.
Proof.
  intros Hne Hd Htl b.
  pose proof (search_node_both (pre ++ "hvcs" ++ ds ++ tl) b) as H.
  rewrite (search_index_found pre ds tl Hne Hd Htl b) in H.
  destruct (search_from RE_NODE_NAME b _); [|discriminate H].
  now destruct H as [-> _].
Qed.

Lemma search_name_shape s : forall b g,
  search_from RE_NODE_NAME b s = Some g ->
  exists pre ds tl,
    s = pre ++ "hvcs" ++ ds ++ tl
    /\ ds <> EmptyString /\ all digit ds = true /\ at_eol tl = true.
Proof.
  induction s as [|c s IH]; intros b g H; cbn [search_from] in H.
  - destruct (run RE_NODE_NAME b EmptyString None []) eqn:E; [|discriminate H].
    apply run_node_name_inv in E as (_ & ds & tl & E & R).
    exists EmptyString, ds, tl. now split.
  - destruct (run RE_NODE_NAME b (String c s) None []) eqn:E.
    + apply run_node_name_inv in E as (_ & ds & tl & E & R).
      exists EmptyString, ds, tl. now split.
    + apply IH in H as (pre & ds & tl & -> & R).
      exists (String c pre), ds, tl. now split.
Qed.

End NodeShape.

(** ** What [displaybypath] and [closedevice] read off a path and a
    location code *)

Module DisplayFacts.
Import Re CharClass Py ReFacts Hvcsadmin Block PatternFacts LineFacts Behaviour.

Ltac by_cases c :=
  destruct c as [[|] [|] [|] [|] [|] [|] [|] [|]]; vm_compute; congruence.

Lemma digit_not_space c : digit c = true -> space c = false.
Proof. by_cases c. Qed.

Lemma word_not_space c : word c = true -> space c = false.
Proof. by_cases c. Qed.

Lemma digit_dot c : digit c = true -> dot c = true.
Proof. by_cases c. Qed.

Lemma xdigit_dot c : xdigit c = true -> dot c = true.
Proof. by_cases c. Qed.

Lemma snoc_cases (s : string) :
  s = EmptyString \/ exists a c, s = a ++ String c EmptyString.
Proof.
  induction s as [|x s IH]; [now left|]. right.
  destruct IH as [-> | (a & c & ->)].
  - now exists EmptyString, x.
  - now exists (String x a), c.
Qed.

(** *** [str.strip] around a text without blanks at its ends *)

Lemma lstrip_blanks lead t :
  all space lead = true ->
  (forall c t', t = String c t' -> space c = false) ->
  lstrip (lead ++ t) = t.
Proof.
  intros Hl Ht. induction lead as [|x lead IH]; cbn [append lstrip].
  - destruct t as [|c t']; [reflexivity|].
    cbn [lstrip]. now rewrite (Ht c t' eq_refl).
  - cbn [all] in Hl. apply andb_true_iff in Hl as [-> Hl]. now apply IH.
Qed.

Lemma rstrip_blank trail : all space trail = true -> rstrip trail = EmptyString.
Proof.
  induction trail as [|x trail IH]; [reflexivity|].
  cbn [all rstrip]. intros H. apply andb_true_iff in H as [Hx H].
  now rewrite (IH H), Hx.
Qed.

Lemma rstrip_blanks t trail :
  all space trail = true -> rstrip (t ++ trail) = rstrip t.
Proof.
  intros H. induction t as [|x t IH]; cbn [append rstrip].
  - now apply rstrip_blank.
  - now rewrite IH.
Qed.

Lemma rstrip_kept a c :
  space c = false -> rstrip (a ++ String c EmptyString) = a ++ String c EmptyString.
Proof.
  intros Hc. induction a as [|x a IH]; cbn [append rstrip].
  - now rewrite Hc.
  - rewrite IH. now destruct a.
Qed.

Lemma strip_blanks lead a c trail :
  all space lead = true -> all space trail = true ->
  (forall x t', a ++ String c EmptyString = String x t' -> space x = false) ->
  space c = false ->
  strip (lead ++ (a ++ String c EmptyString) ++ trail) = a ++ String c EmptyString.
Proof.
  intros Hl Ht Hfirst Hc. unfold strip.
  rewrite lstrip_blanks; [|exact Hl|].
  - rewrite rstrip_blanks by exact Ht. now apply rstrip_kept.
  - intros x t' E. destruct a as [|y a]; cbn [append] in *.
    + injection E as <- _. exact Hc.
    + injection E as <- _. now apply (Hfirst y (a ++ String c EmptyString)).
Qed.

(** *** The location code in [current_vty] *)

Lemma run_clc b m1 m2 m3 p s :
  filled word m1 -> filled word m2 -> filled word m3 ->
  filled digit p -> filled digit s ->
  run RE_CLC b (location_code m1 m2 m3 p s) None []
  = Some [m1 ++ "." ++ m2 ++ "." ++ m3; p; s].
Proof.
  intros [N1 W1] [N2 W2] [N3 W3] [Np Dp] [Ns Ds].
  unfold RE_CLC, location_code.
  lits.
  take_plus N1 W1. stop.
  take_plus N2 W2. stop.
  take_plus N3 W3. stop.
  take_plus Np Dp. stop.
  rewrite <- (append_nil_r s) at 1. take_plus Ns Ds.
  cbn [star pushs push close at_eol append rev app].
  rewrite ?append_assoc. reflexivity.
Qed.

Lemma search_hit pat b s g :
  run pat b s None [] = Some g -> search_from pat b s = Some g.
Proof. intros H. destruct s; cbn [search_from]; now rewrite H. Qed.

Lemma location_code_ends m1 m2 m3 p s :
  filled word m1 -> filled digit s ->
  exists a c,
    location_code m1 m2 m3 p s = a ++ String c EmptyString
    /\ space c = false
    /\ (forall x t', a ++ String c EmptyString = String x t' -> space x = false).
Proof.
  intros [N1 W1] [Ns Ds].
  destruct (snoc_cases s) as [-> | (s' & c & ->)]; [congruence|].
  rewrite all_app in Ds. apply andb_true_iff in Ds as [_ Dc].
  cbn [all] in Dc. rewrite andb_true_r in Dc.
  exists (m1 ++ "." ++ m2 ++ "." ++ m3 ++ "-V" ++ p ++ "-C" ++ s'), c.
  split; [|split].
  - unfold location_code. now rewrite !append_assoc.
  - now apply digit_not_space.
  - destruct m1 as [|y m1]; [congruence|].
    cbn [append all] in *. intros x t' [= <- _].
    apply andb_true_iff in W1 as [W1 _]. now apply word_not_space.
Qed.

Lemma clc_of_content lead trail m1 m2 m3 p s :
  all space lead = true -> all space trail = true ->
  filled word m1 -> filled word m2 -> filled word m3 ->
  filled digit p -> filled digit s ->
  search RE_CLC (strip (lead ++ location_code m1 m2 m3 p s ++ trail))
  = Some [m1 ++ "." ++ m2 ++ "." ++ m3; p; s].
Proof.
  intros Hl Ht F1 F2 F3 Fp Fs.
  destruct (location_code_ends m1 m2 m3 p s F1 Fs) as (a & c & E & Hc & Hfirst).
  rewrite E, strip_blanks by assumption. rewrite <- E.
  apply search_hit, run_clc; assumption.
Qed.

(** *** The unit address at the end of a device path *)

Section UnitAddress.
Variable q : ascii -> bool.

Lemma last_three_snoc u v :
  last_three_only (u ++ String "3" v) = true -> v = EmptyString.
Proof.
  induction u as [|x u IH]; cbn [append].
  - destruct v; [reflexivity|]. cbn. discriminate.
  - intros H. apply IH.
    destruct (u ++ String "3" v) eqn:E.
    + destruct u; discriminate E.
    + cbn [last_three_only] in H. now apply andb_true_iff in H as [_ H].
Qed.

Lemma run_name_here b h cur :
  h <> EmptyString -> all q h = true ->
  run [Open; Chr "3"; Plus q; Close; Eol] b ("3" ++ h) cur []
  = Some ["3" ++ h].
Proof.
  intros N H. cbn [run append push]. rewrite Ascii.eqb_refl. cbn [push append].
  rewrite <- (append_nil_r h) at 1.
  apply plus_greedy'; [exact N | exact H |].
  cbn [star run at_eol pushs close rev]. reflexivity.
Qed.

Lemma run_name_later b v cur g :
  run [Open; Chr "3"; Plus q; Close; Eol] b v cur [] = Some g ->
  exists v', v = String "3" v' /\ v' <> EmptyString.
Proof.
  cbn [run]. intros H.
  destruct v as [|c v']; [discriminate H|].
  destruct (Ascii.eqb_spec c "3") as [->|]; [|discriminate H].
  exists v'. split; [reflexivity|].
  apply plus_inv' in H as (u & t & b' & -> & Nu & _).
  destruct u; [congruence | discriminate].
Qed.

Lemma unit_address pre h :
  pre <> EmptyString -> all dot pre = true ->
  h <> EmptyString -> all q h = true -> last_three_only h = true ->
  search (unit_pattern q) (pre ++ "3" ++ h) = Some ["3" ++ h].
Proof.
  intros Npre Hpre Nh Hh Hlast.
  apply search_hit. unfold unit_pattern. cbn [run].
  apply plus_greedy'; [exact Npre | exact Hpre |].
  match goal with
  | |- star ?p ?k ?b ?w ?cur = _ => rewrite (star_fallback p k w b cur)
  end.
  - exact (run_name_here false h None Nh Hh).
  - intros u v E Nu.
    destruct (run [Open; Chr "3"; Plus q; Close; Eol] false v
                  (pushs u (pushs pre None)) []) eqn:R; [|exact R].
    exfalso. apply run_name_later in R as (v' & -> & Nv).
    destruct u as [|x u]; [congruence|].
    cbn [append] in E. injection E as <- E.
    subst h. apply last_three_snoc in Hlast. congruence.
Qed.

Lemma last_char_app a b d : last_char (a ++ b) d = last_char b (last_char a d).
Proof. revert d. induction a as [|x a IH]; intros d; cbn; auto. Qed.

Lemma last_char_all (p : ascii -> bool) s d :
  s <> EmptyString -> all p s = true -> p (last_char s d) = true.
Proof.
  revert d. induction s as [|x s IH]; intros d N H; [congruence|].
  cbn [all last_char] in *. apply andb_true_iff in H as [Hx H].
  destruct s as [|y s]; [exact Hx|]. apply IH; [discriminate | exact H].
Qed.

Lemma run_unit_ends b s g d :
  run (unit_pattern q) b s None [] = Some g ->
  q (last_char s d) = true \/ last_char s d = newline.
Proof.
  unfold unit_pattern. cbn [run]. intros H.
  apply plus_inv' in H as (u & v & b' & -> & Nu & Hu & H).
  destruct (run_name_later b' v (pushs u None) g H) as (v' & -> & Nv).
  cbn [run] in H. rewrite Ascii.eqb_refl in H.
  apply plus_inv' in H as (h & t & b'' & -> & Nh & Hh & H).
  cbn [run] in H. destruct (at_eol t) eqn:Ht; [|discriminate H].
  rewrite last_char_app. cbn [last_char]. rewrite last_char_app.
  destruct t as [|c [|]]; cbn [at_eol] in Ht; try discriminate Ht.
  - left. cbn [last_char]. now apply last_char_all.
  - right. cbn [last_char]. unfold is_code, code in Ht. apply N.eqb_eq in Ht.
    unfold newline. rewrite <- (ascii_N_embedding c), Ht. reflexivity.
Qed.

Lemma unit_address_none s : forall b d,
  q (last_char s d) = false -> last_char s d <> newline ->
  search_from (unit_pattern q) b s = None.
Proof.
  induction s as [|c s IH]; intros b d Hq Hn; cbn [search_from].
  - reflexivity.
  - destruct (run (unit_pattern q) b (String c s) None []) eqn:R.
    + exfalso. apply (run_unit_ends _ _ _ d) in R as [R | R]; congruence.
    + destruct s as [|c' s']; [reflexivity|].
      apply (IH false c); assumption.
Qed.

End UnitAddress.

End DisplayFacts.

(** ** Calls that keep to a rule *)

Module Rules.
Import Re CharClass Py Builtins ReFacts Hvcsadmin Block Trace Claim Startup Behaviour Steps.
Local Open Scope list_scope.

Lemma writes_app a b : writes (a ++ b) = writes a ++ writes b.
Proof. apply filter_app. Qed.

Lemma printed_app a b : printed (a ++ b) = printed a ++ printed b.
Proof. apply flat_map_app. Qed.

Lemma commands_run_app a b :
  commands_run (a ++ b) = commands_run a ++ commands_run b.
Proof. apply flat_map_app. Qed.

Section Obeys.
Context {W : Type} {P : Platform W} {I : Interpreter}.
Variable Q : Z -> event -> Prop.
Hypothesis Hstat : forall n s, (n >? 0)%Z = true -> Q n (EvPrint Stdout s).
Hypothesis Herr : forall n s, Q n (EvPrint Stderr s).
Hypothesis Hact : forall n e, is_print e = false -> is_write e = false -> Q n e.
Hypothesis Hprint : forall n s, Q n (EvPrint Stdout s).
Hypothesis Hclose : forall n device_path, Q n (EvWrite (vstate device_path) "0").
Hypothesis Hrescan :
  forall n driver_path, Q n (EvWrite (path_join driver_path "rescan") "1").

Lemma obeys_ret {A} (a : A) : obeys Q (@ret W A a).
Proof.
  intros w n. exists (Ret a), w, []. split; [apply runs_ret|]. now split.
Qed.

Lemma obeys_sys_exit {A} c : obeys Q (@sys_exit W A c).
Proof.
  intros w n. exists (Exit c), w, []. split; [apply runs_sys_exit|]. now split.
Qed.

Lemma obeys_bind {A B} (m : M W A) (k : A -> M W B) :
  obeys Q m -> (forall a, obeys Q (k a)) -> obeys Q (bind m k).
Proof.
  intros Hm Hk w n.
  destruct (Hm w n) as (o & w1 & e1 & R1 & F1 & K1).
  destruct o as [a | c |].
  - destruct (Hk a w1 n) as (o2 & w2 & e2 & R2 & F2 & K2).
    exists o2, w2, (e1 ++ e2). split; [eapply runs_bind; eassumption|].
    split; [now apply Forall_app|].
    rewrite writes_app. intros H. apply app_eq_nil in H as [H1 H2].
    rewrite (K2 H2). now apply K1.
  - exists (Exit c), w1, e1. split; [now apply runs_bind_exit|]. now split.
  - exists Raise, w1, e1. split; [now apply runs_bind_raise|]. now split.
Qed.

Lemma obeys_verboseprint s : obeys Q (@verboseprint W s).
Proof.
  intros w n. exists (Ret tt), w, (vmsg n s).
  split; [apply runs_verboseprint|]. split; [|reflexivity].
  unfold vmsg. destruct (n >? 1)%Z eqn:E; constructor; [|constructor].
  apply Hstat. apply Z.gtb_lt in E. apply Z.gtb_lt. lia.
Qed.

Lemma obeys_statusprint s : obeys Q (@statusprint W s).
Proof.
  intros w n. exists (Ret tt), w, (smsg n s).
  split; [apply runs_statusprint|]. split; [|reflexivity].
  unfold smsg. destruct (n >? 0)%Z eqn:E; constructor; [|constructor].
  now apply Hstat.
Qed.

Lemma obeys_errorprint s : obeys Q (@errorprint W s).
Proof.
  intros w n. exists (Ret tt), w, [EvPrint Stderr s].
  split; [apply runs_errorprint|]. split; [|reflexivity].
  constructor; [apply Herr | constructor].
Qed.

Lemma obeys_print s : obeys Q (@print W s).
Proof.
  intros w n. exists (Ret tt), w, [EvPrint Stdout (s ++ nl)%string].
  split; [apply runs_print|]. split; [|reflexivity].
  constructor; [apply Hprint | constructor].
Qed.

Lemma obeys_exists p : obeys Q (@os_path_exists W P p).
Proof.
  intros w n. exists (Ret (path_exists w p)), w, [EvExists p].
  split; [apply runs_exists|]. split; [|reflexivity].
  constructor; [now apply Hact | constructor].
Qed.

Lemma obeys_listdir p : obeys Q (@os_listdir W P p).
Proof.
  intros w n. eexists _, w, [EvListdir p].
  split; [apply runs_listdir|]. split; [|reflexivity].
  constructor; [now apply Hact | constructor].
Qed.

Lemma obeys_read p : obeys Q (@read_text W P p).
Proof.
  intros w n. eexists _, w, [EvRead p].
  split; [apply runs_read|]. split; [|reflexivity].
  constructor; [now apply Hact | constructor].
Qed.

Lemma obeys_close_write device_path :
  obeys Q (@try_write_text W P (path_join device_path "vterm_state") "0").
Proof.
  intros w n. eexists _, _, _.
  split; [apply runs_write|]. split; [|discriminate].
  constructor; [apply (Hclose n device_path) | constructor].
Qed.

Lemma obeys_rescan_write driver_path :
  obeys Q (@try_write_text W P (path_join driver_path "rescan") "1").
Proof.
  intros w n. eexists _, _, _.
  split; [apply runs_write|]. split; [|discriminate].
  constructor; [apply Hrescan | constructor].
Qed.

Lemma runs_run_cmd_started cmd proc (w : W) n :
  run_command w cmd = Started proc ->
  runs (run_cmd cmd) w n (Ret proc) w [EvRun cmd].
Proof.
  intros H l. unfold run_cmd, bind, emit, get_world, ret. cbn.
  rewrite H. reflexivity.
Qed.

Lemma runs_run_cmd_error cmd e (w : W) n :
  run_command w cmd = PopenError e ->
  runs (run_cmd cmd) w n (Exit 1%Z) w
       [EvRun cmd;
        EvPrint Stderr (APP_NAME ++ ": failed to run command: " ++ cmd
                                 ++ ": " ++ e ++ nl)%string].
Proof.
  intros H l. unfold run_cmd, bind, emit, get_world, ret. cbn.
  rewrite H. unfold errorprint, emit, sys_exit. cbn.
  now rewrite <- app_assoc.
Qed.

Lemma obeys_run_cmd cmd : obeys Q (@run_cmd W P cmd).
Proof.
  intros w n. destruct (run_command w cmd) as [proc | e] eqn:E.
  - eexists _, w, _. split; [apply (runs_run_cmd_started cmd proc); exact E|].
    split; [|reflexivity]. constructor; [now apply Hact | constructor].
  - eexists _, w, _. split; [apply (runs_run_cmd_error cmd e); exact E|].
    split; [|reflexivity].
    constructor; [now apply Hact|]. constructor; [apply Herr | constructor].
Qed.

Ltac obeys_auto :=
  repeat (intros;
          first [
          lazymatch goal with
          | |- obeys _ (bind _ _) => apply obeys_bind
          | |- obeys _ (ret _) => apply obeys_ret
          | |- obeys _ (sys_exit _) => apply obeys_sys_exit
          | |- obeys _ (verboseprint _) => apply obeys_verboseprint
          | |- obeys _ (statusprint _) => apply obeys_statusprint
          | |- obeys _ (errorprint _) => apply obeys_errorprint
          | |- obeys _ (print _) => apply obeys_print
          | |- obeys _ (os_path_exists _) => apply obeys_exists
          | |- obeys _ (os_listdir _) => apply obeys_listdir
          | |- obeys _ (read_text _) => apply obeys_read
          | |- obeys _ (try_write_text (path_join _ "vterm_state") "0") =>
              apply obeys_close_write
          | |- obeys _ (try_write_text (path_join _ "rescan") "1") =>
              apply obeys_rescan_write
          | |- obeys _ (run_cmd _) => apply obeys_run_cmd
          | |- obeys _ (if ?b then _ else _) => destruct b
          | |- obeys _ (match ?x with _ => _ end) => destruct x
          | |- obeys _ (let _ := _ in _) => cbv zeta
          end
          | match goal with
            | H : context [obeys] |- obeys _ _ => apply H
            end ]).

Lemma obeys_validindex ds : obeys Q (@validindex W ds).
Proof. unfold validindex. obeys_auto. Qed.

Lemma obeys_finddeventry name nr : obeys Q (@finddeventry W P name nr).
Proof. unfold finddeventry. obeys_auto. Qed.

Lemma obeys_get_device_path_by_index target :
  obeys Q (@get_device_path_by_index W P target).
Proof. unfold get_device_path_by_index. obeys_auto. Qed.

Lemma obeys_get_device_path_by_partition target :
  obeys Q (@get_device_path_by_partition W P target).
Proof. unfold get_device_path_by_partition. obeys_auto. Qed.

Lemma obeys_displaybypath path : obeys Q (@displaybypath W P path).
Proof. unfold displaybypath. obeys_auto. Qed.

Lemma obeys_querynode dev_node : obeys Q (@querynode W P dev_node).
Proof.
  unfold querynode.
  pose proof obeys_validindex. pose proof obeys_finddeventry.
  pose proof obeys_get_device_path_by_index. pose proof obeys_displaybypath.
  obeys_auto.
Qed.

Lemma obeys_queryconsole partition : obeys Q (@queryconsole W P partition).
Proof.
  unfold queryconsole.
  pose proof obeys_get_device_path_by_partition. pose proof obeys_displaybypath.
  obeys_auto.
Qed.

Lemma obeys_status_loop entries : forall count,
  obeys Q (@status_loop W P entries count).
Proof.
  pose proof obeys_get_device_path_by_index. pose proof obeys_displaybypath.
  induction entries as [|entry rest IH]; intros count; cbn [status_loop];
    obeys_auto.
Qed.

Lemma obeys_status : obeys Q (@status W P).
Proof. unfold status. pose proof obeys_status_loop. obeys_auto. Qed.

Lemma obeys_closeall_scan lines : forall ld dev vs dp,
  obeys Q (@closeall_scan W P lines ld dev vs dp).
Proof.
  induction lines as [|line rest IH]; intros ld dev vs dp;
    cbn [closeall_scan]; obeys_auto.
Qed.

Lemma obeys_closeall : obeys Q (@closeall W P).
Proof. unfold closeall. pose proof obeys_closeall_scan. obeys_auto. Qed.

Lemma obeys_rescan_scan lines : forall ld dp,
  obeys Q (@rescan_scan W P lines ld dp).
Proof.
  induction lines as [|line rest IH]; intros ld dp;
    cbn [rescan_scan]; obeys_auto.
Qed.

Lemma obeys_rescan : obeys Q (@rescan W P).
Proof. unfold rescan. pose proof obeys_rescan_scan. obeys_auto. Qed.

Lemma obeys_closedevice parameter : obeys Q (@closedevice W P parameter).
Proof.
  unfold closedevice.
  pose proof obeys_validindex. pose proof obeys_finddeventry.
  pose proof obeys_get_device_path_by_index.
  obeys_auto.
Qed.

Lemma obeys_is_driver_installed : obeys Q (@is_driver_installed W P).
Proof. unfold is_driver_installed. obeys_auto. Qed.

Lemma obeys_findsystools : obeys Q (@findsystools W P).
Proof. unfold findsystools. obeys_auto. Qed.

Lemma obeys_versioninfo : obeys Q (@versioninfo W).
Proof. unfold versioninfo. obeys_auto. Qed.

Lemma obeys_helpinfo : obeys Q (@helpinfo W).
Proof. unfold helpinfo. obeys_auto. Qed.

Lemma obeys_load_platform_env_and_check :
  obeys Q (@load_platform_env_and_check W P I).
Proof. unfold load_platform_env_and_check. obeys_auto. Qed.

End Obeys.

(** A call that obeys any rule runs, whatever the log. *)
Lemma obeys_framed {W A} Q (m : M W A) : obeys Q m -> framed m.
Proof.
  intros H w n. destruct (H w n) as (o & w' & evs & R & _).
  now exists o, w', evs.
Qed.

(** A call that does not look at the log runs as it does from the empty
    log. *)
Lemma runs_from_nil {W A} (m : M W A) w n o w' evs :
  framed m ->
  m (State w n []) = (o, State w' n evs) ->
  runs m w n o w' evs.
Proof.
  intros F H. destruct (F w n) as (o1 & w1 & e1 & R).
  pose proof (R []) as R0. rewrite H in R0. cbn [app] in R0.
  injection R0 as -> -> ->. exact R.
Qed.

End Rules.

(** ** The noise level and what a call does *)

Module Noise.
Import Re CharClass Py Builtins ReFacts Hvcsadmin Block Trace Claim Startup Behaviour Steps Rules.
Local Open Scope list_scope.

Section Steady.
Context {W : Type} {P : Platform W}.

Lemma steady_same {A} (m : M W A) :
  (forall w, exists o w' evs, forall n, runs m w n o w' evs) -> steady m.
Proof.
  intros H w n n'. destruct (H w) as (o & w' & evs & R).
  exists o, w', evs, evs. repeat split; auto.
Qed.

Lemma steady_ret {A} (a : A) : steady (@ret W A a).
Proof.
  apply steady_same. intros w. exists (Ret a), w, []. intros n. apply runs_ret.
Qed.

Lemma steady_sys_exit {A} c : steady (@sys_exit W A c).
Proof.
  apply steady_same. intros w. exists (Exit c), w, []. intros n.
  apply runs_sys_exit.
Qed.

Lemma steady_bind {A B} (m : M W A) (k : A -> M W B) :
  steady m -> (forall a, steady (k a)) -> steady (bind m k).
Proof.
  intros Hm Hk w n n'.
  destruct (Hm w n n') as (o & w1 & e1 & e1' & R1 & R1' & A1 & E1).
  destruct o as [a | c |].
  - destruct (Hk a w1 n n') as (o2 & w2 & e2 & e2' & R2 & R2' & A2 & E2).
    exists o2, w2, (e1 ++ e2), (e1' ++ e2').
    split; [eapply runs_bind; eassumption|].
    split; [eapply runs_bind; eassumption|].
    rewrite !actions_app, !errors_app. split; congruence.
  - exists (Exit c), w1, e1, e1'.
    split; [now apply runs_bind_exit|]. split; [now apply runs_bind_exit|].
    now split.
  - exists Raise, w1, e1, e1'.
    split; [now apply runs_bind_raise|]. split; [now apply runs_bind_raise|].
    now split.
Qed.

Lemma steady_verboseprint s : steady (@verboseprint W s).
Proof.
  intros w n n'. exists (Ret tt), w, (vmsg n s), (vmsg n' s).
  split; [apply runs_verboseprint|]. split; [apply runs_verboseprint|].
  now rewrite !actions_vmsg, !errors_vmsg.
Qed.

Lemma steady_statusprint s : steady (@statusprint W s).
Proof.
  intros w n n'. exists (Ret tt), w, (smsg n s), (smsg n' s).
  split; [apply runs_statusprint|]. split; [apply runs_statusprint|].
  now rewrite !actions_smsg, !errors_smsg.
Qed.

Lemma steady_errorprint s : steady (@errorprint W s).
Proof.
  apply steady_same. intros w. eexists _, _, _. intros n. apply runs_errorprint.
Qed.

Lemma steady_print s : steady (@print W s).
Proof.
  apply steady_same. intros w. eexists _, _, _. intros n. apply runs_print.
Qed.

Lemma steady_exists p : steady (@os_path_exists W P p).
Proof.
  apply steady_same. intros w. eexists _, _, _. intros n. apply runs_exists.
Qed.

Lemma steady_listdir p : steady (@os_listdir W P p).
Proof.
  apply steady_same. intros w. eexists _, _, _. intros n. apply runs_listdir.
Qed.

Lemma steady_read p : steady (@read_text W P p).
Proof.
  apply steady_same. intros w. eexists _, _, _. intros n. apply runs_read.
Qed.

Lemma steady_write p d : steady (@try_write_text W P p d).
Proof.
  apply steady_same. intros w. eexists _, _, _. intros n. apply runs_write.
Qed.

Lemma steady_run_cmd cmd : steady (@run_cmd W P cmd).
Proof.
  apply steady_same. intros w.
  destruct (run_command w cmd) as [proc | e] eqn:E.
  - eexists _, _, _. intros n. now apply (runs_run_cmd_started cmd proc).
  - eexists _, _, _. intros n. now apply (runs_run_cmd_error cmd e).
Qed.

Ltac steady_auto :=
  repeat (intros;
          first [
          lazymatch goal with
          | |- steady (bind _ _) => apply steady_bind
          | |- steady (ret _) => apply steady_ret
          | |- steady (sys_exit _) => apply steady_sys_exit
          | |- steady (verboseprint _) => apply steady_verboseprint
          | |- steady (statusprint _) => apply steady_statusprint
          | |- steady (errorprint _) => apply steady_errorprint
          | |- steady (print _) => apply steady_print
          | |- steady (os_path_exists _) => apply steady_exists
          | |- steady (os_listdir _) => apply steady_listdir
          | |- steady (read_text _) => apply steady_read
          | |- steady (try_write_text _ _) => apply steady_write
          | |- steady (run_cmd _) => apply steady_run_cmd
          | |- steady (if ?b then _ else _) => destruct b
          | |- steady (match ?x with _ => _ end) => destruct x
          | |- steady (let _ := _ in _) => cbv zeta
          end
          | match goal with
            | H : context [steady] |- steady _ => apply H
            end ]).

Lemma steady_validindex ds : steady (@validindex W ds).
Proof. unfold validindex. steady_auto. Qed.

Lemma steady_finddeventry name nr : steady (@finddeventry W P name nr).
Proof. unfold finddeventry. steady_auto. Qed.

Lemma steady_get_device_path_by_index target :
  steady (@get_device_path_by_index W P target).
Proof. unfold get_device_path_by_index. steady_auto. Qed.

Lemma steady_get_device_path_by_partition target :
  steady (@get_device_path_by_partition W P target).
Proof. unfold get_device_path_by_partition. steady_auto. Qed.

Lemma steady_displaybypath path : steady (@displaybypath W P path).
Proof. unfold displaybypath. steady_auto. Qed.

Lemma steady_querynode dev_node : steady (@querynode W P dev_node).
Proof.
  unfold querynode.
  pose proof steady_validindex. pose proof steady_finddeventry.
  pose proof steady_get_device_path_by_index. pose proof steady_displaybypath.
  steady_auto.
Qed.

Lemma steady_queryconsole partition : steady (@queryconsole W P partition).
Proof.
  unfold queryconsole.
  pose proof steady_get_device_path_by_partition.
  pose proof steady_displaybypath.
  steady_auto.
Qed.

Lemma steady_status_loop entries : forall count,
  steady (@status_loop W P entries count).
Proof.
  pose proof steady_get_device_path_by_index. pose proof steady_displaybypath.
  induction entries as [|entry rest IH]; intros count; cbn [status_loop];
    steady_auto.
Qed.

Lemma steady_status : steady (@status W P).
Proof. unfold status. pose proof steady_status_loop. steady_auto. Qed.

Lemma steady_closeall_scan lines : forall ld dev vs dp,
  steady (@closeall_scan W P lines ld dev vs dp).
Proof.
  induction lines as [|line rest IH]; intros ld dev vs dp;
    cbn [closeall_scan]; steady_auto.
Qed.

Lemma steady_closeall : steady (@closeall W P).
Proof. unfold closeall. pose proof steady_closeall_scan. steady_auto. Qed.

Lemma steady_rescan_scan lines : forall ld dp,
  steady (@rescan_scan W P lines ld dp).
Proof.
  induction lines as [|line rest IH]; intros ld dp;
    cbn [rescan_scan]; steady_auto.
Qed.

Lemma steady_rescan : steady (@rescan W P).
Proof. unfold rescan. pose proof steady_rescan_scan. steady_auto. Qed.

Lemma steady_closedevice parameter : steady (@closedevice W P parameter).
Proof.
  unfold closedevice.
  pose proof steady_validindex. pose proof steady_finddeventry.
  pose proof steady_get_device_path_by_index.
  steady_auto.
Qed.

End Steady.
End Noise.

(** ** Following a run step by step *)

Module Exec.
Import Re CharClass Py Builtins ReFacts Hvcsadmin Block Trace Claim Startup Behaviour Steps Rules.
Local Open Scope list_scope.

Lemma framed_by_rule {W A} (m : M W A) : obeys (fun _ _ => True) m -> framed m.
Proof. apply obeys_framed. Qed.

Lemma printed_vmsg n s : (n <= 1)%Z -> printed (vmsg n s) = [].
Proof.
  intros H. unfold vmsg. destruct (n >? 1)%Z eqn:E; [|reflexivity].
  apply Z.gtb_lt in E. lia.
Qed.

Lemma printed_smsg n s : (n <= 0)%Z -> printed (smsg n s) = [].
Proof.
  intros H. unfold smsg. destruct (n >? 0)%Z eqn:E; [|reflexivity].
  apply Z.gtb_lt in E. lia.
Qed.

Lemma writes_vmsg n s : writes (vmsg n s) = [].
Proof. unfold vmsg. now destruct (n >? 1)%Z. Qed.

Lemma writes_smsg n s : writes (smsg n s) = [].
Proof. unfold smsg. now destruct (n >? 0)%Z. Qed.

Lemma commands_run_vmsg n s : commands_run (vmsg n s) = [].
Proof. unfold vmsg. now destruct (n >? 1)%Z. Qed.

Lemma commands_run_smsg n s : commands_run (smsg n s) = [].
Proof. unfold smsg. now destruct (n >? 0)%Z. Qed.

Lemma smsg_on n s : (0 < n)%Z -> smsg n s = [EvPrint Stdout s].
Proof.
  intros H. unfold smsg. destruct (n >? 0)%Z eqn:E; [reflexivity|].
  rewrite Z.gtb_ltb in E. apply Z.ltb_ge in E. lia.
Qed.

Lemma vmsg_off n s : (n <= 1)%Z -> vmsg n s = [].
Proof.
  intros H. unfold vmsg. destruct (n >? 1)%Z eqn:E; [|reflexivity].
  apply Z.gtb_lt in E. lia.
Qed.

Lemma smsg_off n s : (n <= 0)%Z -> smsg n s = [].
Proof.
  intros H. unfold smsg. destruct (n >? 0)%Z eqn:E; [|reflexivity].
  apply Z.gtb_lt in E. lia.
Qed.

#[export] Hint Rewrite writes_app printed_app commands_run_app
  writes_vmsg writes_smsg commands_run_vmsg commands_run_smsg : trace.

(** One call: a primitive, or a call whose run is among the hypotheses. *)
Ltac run_atom :=
  lazymatch goal with
  | |- runs (ret _) _ _ _ _ _ => apply runs_ret
  | |- runs (sys_exit _) _ _ _ _ _ => apply runs_sys_exit
  | |- runs (verboseprint _) _ _ _ _ _ => apply runs_verboseprint
  | |- runs (statusprint _) _ _ _ _ _ => apply runs_statusprint
  | |- runs (errorprint _) _ _ _ _ _ => apply runs_errorprint
  | |- runs (print _) _ _ _ _ _ => apply runs_print
  | |- runs (os_path_exists _) _ _ _ _ _ => apply runs_exists
  | |- runs (os_listdir _) _ _ _ _ _ => apply runs_listdir
  | |- runs (try_write_text _ _) _ _ _ _ _ => apply runs_write
  | |- runs (read_text ?p) ?w ?n _ _ _ =>
      match goal with
      | H : read_file w p = Some ?s |- _ => apply (runs_read_ok p s w n H)
      | H : read_file w p = None |- _ => apply (runs_read_fail p w n H)
      end
  | |- runs (run_cmd ?c) ?w ?n _ _ _ =>
      match goal with
      | H : run_command w c = Started ?proc |- _ =>
          apply (runs_run_cmd_started c proc w n H)
      | H : run_command w c = PopenError ?e |- _ =>
          apply (runs_run_cmd_error c e w n H)
      end
  | |- runs ?m ?w ?n _ _ _ =>
      match goal with
      | H : runs m w n _ _ _ |- _ => exact H
      end
  end.

(** Rewriting with the equations among the hypotheses. *)
Ltac run_simpl :=
  cbv beta;
  repeat match goal with
         | H : ?x = _ |- context [?x] => rewrite H
         end;
  rewrite ?String.eqb_refl;
  cbv beta iota; cbn [negb is_some Z.eqb fst snd].

(** The calls of the script that a run goes into. *)
Ltac run_enter :=
  lazymatch goal with
  | |- runs (validindex _) _ _ _ _ _ => unfold validindex
  | |- runs (finddeventry _ _) _ _ _ _ _ => unfold finddeventry
  | |- runs (get_device_path_by_index _) _ _ _ _ _ =>
      unfold get_device_path_by_index
  | |- runs (get_device_path_by_partition _) _ _ _ _ _ =>
      unfold get_device_path_by_partition
  | |- runs (displaybypath _) _ _ _ _ _ => unfold displaybypath
  | |- runs findsystools _ _ _ _ _ => unfold findsystools
  | |- runs is_driver_installed _ _ _ _ _ => unfold is_driver_installed
  | |- runs load_platform_env_and_check _ _ _ _ _ =>
      unfold load_platform_env_and_check
  | |- runs versioninfo _ _ _ _ _ => unfold versioninfo
  end.

Ltac run_step :=
  lazymatch goal with
  | |- runs (bind _ _) _ _ _ _ _ =>
      first [ eapply runs_bind; [solve [run_call]|]
            | apply runs_bind_exit; solve [run_call]
            | apply runs_bind_raise; solve [run_call] ]
  | |- runs (let _ := _ in _) _ _ _ _ _ => cbv zeta
  | |- _ => run_atom
  end
with run_call :=
  first [ run_atom
        | run_enter; repeat (run_simpl; run_step) ].

Ltac run_all := repeat (run_simpl; run_step).

End Exec.

(** ** The runs of [displaybypath] *)

Module DisplayRuns.
Import Re CharClass Py Builtins ReFacts Hvcsadmin Block Trace Claim Startup Behaviour Steps Rules DisplayFacts Exec.
Local Open Scope list_scope.

Section Runs.
Context {W : Type} {P : Platform W}.

Lemma runs_displaybypath (w : W) n path current_vty vterm_state index :
  path <> EmptyString ->
  path_exists w (path_join path "current_vty") = true ->
  path_exists w (path_join path "index") = true ->
  path_exists w (path_join path "vterm_state") = true ->
  read_file w (path_join path "current_vty") = Some current_vty ->
  read_file w (path_join path "vterm_state") = Some vterm_state ->
  read_file w (path_join path "index") = Some index ->
  exists said,
    runs (displaybypath path) w n (Ret 0%Z) w
         (said ++ [EvPrint Stdout
                    (status_line path current_vty vterm_state index ++ nl)])
    /\ actions said
       = [EvExists (path_join path "current_vty");
          EvExists (path_join path "index");
          EvExists (path_join path "vterm_state");
          EvRead (path_join path "current_vty");
          EvRead (path_join path "vterm_state");
          EvRead (path_join path "index")]
    /\ errors said = []
    /\ ((n <= 1)%Z -> printed said = []).
Proof.
  intros Hne E1 E2 E3 R1 R2 R3. apply String.eqb_neq in Hne.
  eexists. split; [|split; [|split]].
  - eapply runs_eq.
    + unfold displaybypath. run_all.
    + unfold status_line, field. rewrite app_nil_r, !app_assoc. reflexivity.
  - now autorewrite with trace.
  - now autorewrite with trace.
  - intros Hn. autorewrite with trace. rewrite !printed_vmsg by exact Hn.
    reflexivity.
Qed.

End Runs.
End DisplayRuns.

(** ** More runs of [closedevice] and [querynode] *)

Module CloseRuns.
Import Re CharClass Py Builtins ReFacts Hvcsadmin Block Trace Claim Startup Behaviour.
Import PatternFacts BlockFacts Steps Resolve CloseFacts Rules DisplayFacts Exec.
Local Open Scope list_scope.

Section Runs.
Context {W : Type} {P : Platform W}.

Lemma not_zero s : s <> "0"%string -> is_some (fullmatch RE_ZERO s) = false.
Proof.
  intros H. destruct (is_some (fullmatch RE_ZERO s)) eqn:E; [|reflexivity].
  now apply zero_iff in E.
Qed.

Lemma is_zero s : s = "0"%string -> is_some (fullmatch RE_ZERO s) = true.
Proof. intros ->. reflexivity. Qed.

Lemma runs_closedevice_closed (w : W) n parameter device_path
      content ok w' content' :
  resolves_to w parameter device_path ->
  path_exists w (vstate device_path) = true ->
  read_file w (vstate device_path) = Some content ->
  strip content <> "0"%string ->
  write_file w (vstate device_path) "0" = (ok, w') ->
  read_file w' (vstate device_path) = Some content' ->
  strip content' = "0"%string ->
  let name := field (search RE_VTY_SERVER_DEC device_path) 1 in
  exists evs,
    runs (closedevice parameter) w n (Ret tt) w'
         (evs ++ smsg n (msg_mapped parameter name) ++ smsg n (msg_closed name))
    /\ actions evs = [EvExists (dev_node parameter); EvRun systool_index;
                      EvExists (vstate device_path);
                      EvRead (vstate device_path);
                      EvWrite (vstate device_path) "0";
                      EvRead (vstate device_path)]
    /\ errors evs = []
    /\ ((n <= 1)%Z -> printed evs = []).
Proof.
  intros (Hname & Hzero & Hdev & (proc & Hrun & Hrc & Hscan) & Hne)
         Hex Hread Hnz Hwrite Hread' Hz' name.
  apply String.eqb_neq in Hne. apply not_zero in Hnz. apply is_zero in Hz'.
  unfold vstate, systool_index in *.
  eexists. split; [|split; [|split]].
  - eapply runs_eq.
    + unfold closedevice. run_all.
    + unfold msg_mapped, msg_closed, name, field.
      rewrite Hname, !app_assoc. reflexivity.
  - autorewrite with trace. reflexivity.
  - now autorewrite with trace.
  - intros Hn. autorewrite with trace. rewrite !printed_vmsg by exact Hn.
    reflexivity.
Qed.

Lemma runs_closedevice_unmapped (w : W) n parameter proc :
  checks_pass w parameter ->
  run_command w systool_index = Started proc ->
  returncode proc = 0%Z ->
  index_scan (getindex parameter) (splitlines (stdout proc))
             EmptyString EmptyString EmptyString = None ->
  exists evs,
    runs (closedevice parameter) w n (Exit 1%Z) w evs
    /\ actions evs = [EvExists (dev_node parameter); EvRun systool_index]
    /\ errors evs = []
    /\ ((n <= 0)%Z -> printed evs = []).
Proof.
  intros (Hname & Hzero & Hdev) Hrun Hrc Hscan.
  unfold dev_node, systool_index in *.
  eexists. split; [|split; [|split]].
  - unfold closedevice. run_all.
  - autorewrite with trace. reflexivity.
  - now autorewrite with trace.
  - intros Hn. autorewrite with trace.
    rewrite !printed_vmsg, !printed_smsg by lia. reflexivity.
Qed.

Lemma runs_querynode_unmapped (w : W) n parameter proc :
  checks_pass w parameter ->
  run_command w systool_index = Started proc ->
  returncode proc = 0%Z ->
  index_scan (getindex parameter) (splitlines (stdout proc))
             EmptyString EmptyString EmptyString = None ->
  exists evs,
    runs (querynode parameter) w n (Ret tt) w evs
    /\ actions evs = [EvExists (dev_node parameter); EvRun systool_index]
    /\ errors evs = []
    /\ ((n <= 0)%Z -> printed evs = []).
Proof.
  intros (Hname & Hzero & Hdev) Hrun Hrc Hscan.
  unfold dev_node, systool_index in *.
  eexists. split; [|split; [|split]].
  - unfold querynode. run_all.
  - autorewrite with trace. reflexivity.
  - now autorewrite with trace.
  - intros Hn. autorewrite with trace.
    rewrite !printed_vmsg, !printed_smsg by lia. reflexivity.
Qed.






End Runs.
End CloseRuns.

(** ** The checks before an operation *)

Module StartFacts.
Import Re CharClass Py Builtins ReFacts Hvcsadmin Block Trace Claim Startup Behaviour.
Import PatternFacts BlockFacts Steps Resolve CloseFacts SweepFacts Rules DisplayFacts Exec.
Local Open Scope list_scope.

(** The loop of [is_driver_installed] returns the first of the driver
    directories that [rescan] tries. *)
Lemma driver_scan_first rest : forall before driver_path,
  driver_scan rest (driver_of before) driver_path
  = hd_error (rescan_candidates before rest).
Proof.
  induction rest as [|line rest IH]; intros before driver_path.
  { reflexivity. }
  cbn [driver_scan rescan_candidates].
  pose proof (driver_of_snoc before line) as Hd.
  destruct (rmatch RE_DRIVER line) as [m|] eqn:E1.
  { rewrite (value_of_some _ _ _ E1) in Hd.
    destruct (rmatch RE_DRIVER_PATH line) as [m'|] eqn:E2.
    { apply driver_path_exclusive in E2. congruence. }
    rewrite (value_of_none _ _ E2). cbn [app].
    rewrite <- Hd. apply IH. }
  rewrite (value_of_none _ _ E1) in Hd.
  destruct (rmatch RE_DRIVER_PATH line) as [m|] eqn:E2.
  - rewrite (value_of_some _ _ _ E2).
    destruct (driver_of before =? DRIVER)%string eqn:Hc.
    + reflexivity.
    + cbn [app]. rewrite <- Hd. apply IH.
  - rewrite (value_of_none _ _ E2). cbn [app]. rewrite <- Hd. apply IH.
Qed.

Section Runs.
Context {W : Type} {P : Platform W}.

Lemma runs_is_driver_installed (w : W) n proc :
  run_command w systool_drivers = Started proc ->
  returncode proc = 0%Z ->
  let candidates := rescan_candidates [] (splitlines (stdout proc)) in
  exists evs,
    runs is_driver_installed w n (Ret (hd EmptyString candidates)) w evs
    /\ actions evs = [EvRun systool_drivers]
    /\ errors evs = match candidates with
                    | [] => [(APP_NAME ++ ": " ++ DRIVER ++ " is not loaded." ++ nl)%string]
                    | _ => []
                    end
    /\ ((n <= 1)%Z -> printed evs = []).
Proof.
  intros Hrun Hrc candidates. unfold systool_drivers in *.
  pose proof (driver_scan_first (splitlines (stdout proc)) [] EmptyString) as Hs.
  change (driver_of []) with EmptyString in Hs. fold candidates in Hs.
  destruct candidates as [|first rest]; cbn [hd_error hd] in *.
  - eexists. split; [|split; [|split]].
    + unfold is_driver_installed. run_all.
    + now autorewrite with trace.
    + now autorewrite with trace.
    + intros Hn. autorewrite with trace. now rewrite !printed_vmsg by lia.
  - eexists. split; [|split; [|split]].
    + unfold is_driver_installed. run_all.
    + now autorewrite with trace.
    + now autorewrite with trace.
    + intros Hn. autorewrite with trace. now rewrite !printed_vmsg by lia.
Qed.

Lemma runs_findsystools (w : W) n proc :
  run_command w "which systool" = Started proc ->
  exists evs,
    runs findsystools w n
         (Ret (if (strip (stdout proc) =? EmptyString)%string
               then (-1)%Z else 0%Z)) w evs
    /\ actions evs = [EvRun "which systool"]
    /\ errors evs
       = (if (strip (stdout proc) =? EmptyString)%string
          then [(APP_NAME ++ ": systool is not installed or not in the path?" ++ nl)%string;
                (APP_NAME ++ ": systool is required by the " ++ APP_NAME
                          ++ " script." ++ nl)%string]
          else [])
    /\ ((n <= 1)%Z -> printed evs = []).
Proof.
  intros Hrun.
  assert (Ho : or_else (stdout proc) EmptyString = stdout proc).
  { now destruct (stdout proc). }
  destruct (strip (stdout proc) =? EmptyString)%string eqn:E.
  - eexists. split; [|split; [|split]].
    + unfold findsystools. run_all.
    + now autorewrite with trace.
    + now autorewrite with trace.
    + intros Hn. autorewrite with trace. now rewrite !printed_vmsg by lia.
  - eexists. split; [|split; [|split]].
    + unfold findsystools. run_all.
    + now autorewrite with trace.
    + now autorewrite with trace.
    + intros Hn. autorewrite with trace. now rewrite !printed_vmsg by lia.
Qed.

End Runs.
End StartFacts.

(** ** The environment of the platform check *)

Module EnvFacts.
Import Re CharClass Py Builtins ReFacts Hvcsadmin Trace Claim Startup Behaviour.
Import Steps Rules Exec.
Local Open Scope list_scope.

Lemma split_from_app sep a : forall acc rest,
  no_char sep a = true ->
  split_from sep acc (a ++ String sep rest)
  = (acc ++ a)%string :: split_from sep EmptyString rest.
Proof.
  induction a as [|c a IH]; intros acc rest H; cbn [append split_from].
  - now rewrite Ascii.eqb_refl, append_nil_r.
  - unfold no_char in H. cbn [all] in H. apply andb_true_iff in H as [Hc H].
    apply negb_true_iff in Hc. rewrite Hc, IH by exact H.
    now rewrite append_assoc.
Qed.

Lemma no_char_app c a b : no_char c (a ++ b) = no_char c a && no_char c b.
Proof. apply all_app. Qed.

Lemma split_env0 bindings :
  forallb binding_ok bindings = true ->
  split NUL (env0 bindings) = map render bindings ++ [EmptyString].
Proof.
  unfold split. induction bindings as [|[k v] rest IH]; intros H.
  - reflexivity.
  - cbn [forallb] in H. apply andb_true_iff in H as [Hkv H].
    unfold binding_ok in Hkv. cbn [fst snd] in Hkv.
    apply andb_true_iff in Hkv as [Hkv Hv].
    apply andb_true_iff in Hkv as [_ Hk].
    cbn [env0 fold_right map app fst snd].
    replace (k ++ "=" ++ v ++ String NUL (fold_right
               (fun kv out => fst kv ++ "=" ++ snd kv ++ String NUL out)
               EmptyString rest))%string
      with ((k ++ "=" ++ v) ++ String NUL (env0 rest))%string
      by (unfold env0; now rewrite !append_assoc).
    rewrite split_from_app.
    + cbn [append]. f_equal. now apply IH.
    + rewrite no_char_app, Hk. cbn. exact Hv.
Qed.

Lemma split_once_binding k v :
  no_char "=" k = true -> split_once "=" (k ++ "=" ++ v) = Some (k, v).
Proof.
  induction k as [|c k IH]; intros H; cbn [append split_once] in *.
  - reflexivity.
  - unfold no_char in H. cbn [all] in H. apply andb_true_iff in H as [Hc H].
    apply negb_true_iff in Hc. now rewrite Hc, IH.
Qed.

Lemma read_env_bindings bindings : forall env,
  forallb binding_ok bindings = true ->
  read_env (map render bindings ++ [EmptyString]) env = rev bindings ++ env.
Proof.
  induction bindings as [|[k v] rest IH]; intros env H.
  - reflexivity.
  - cbn [forallb] in H. apply andb_true_iff in H as [Hkv H].
    unfold binding_ok in Hkv. cbn [fst snd] in Hkv.
    apply andb_true_iff in Hkv as [Hkv _].
    apply andb_true_iff in Hkv as [Hk _].
    assert (S1 : split_once "=" (render (k, v)) = Some (k, v)).
    { now apply split_once_binding. }
    assert (E : exists c s, render (k, v) = String c s).
    { unfold render. cbn [fst snd]. destruct k; cbn; eauto. }
    destruct E as (c & s & E).
    cbn [map app read_env]. rewrite S1, E.
    rewrite IH by exact H. unfold dict_set. cbn [rev].
    now rewrite <- app_assoc.
Qed.

Section Runs.
Context {W : Type} {P : Platform W} {I : Interpreter}.

Lemma or_else_empty s : or_else s EmptyString = s.
Proof. now destruct s. Qed.

Lemma get_or_some k d env v :
  dict_get k env = Some v -> dict_get_or k d env = v.
Proof. unfold dict_get_or. now intros ->. Qed.

Lemma runs_platform_missing (w : W) n proc :
  run_command w platform_command = Started proc ->
  dict_get "platform" (platform_env proc) = None
  \/ dict_get "PLATFORM_PSERIES_LPAR" (platform_env proc) = None ->
  runs load_platform_env_and_check w n (Exit 1%Z) w
       [EvRun platform_command; EvPrint Stderr msg_no_platform].
Proof.
  intros Hrun Hmiss. unfold platform_command, platform_env in *.
  eapply runs_eq.
  - unfold load_platform_env_and_check. cbv zeta.
    eapply runs_bind; [run_atom|]. cbv beta. rewrite or_else_empty.
    destruct Hmiss as [-> | ->]; cbn [is_none orb]; rewrite ?orb_true_r;
      run_all.
  - reflexivity.
Qed.

Lemma runs_platform_ok (w : W) n proc :
  run_command w platform_command = Started proc ->
  on_lpar (platform_env proc) ->
  runs load_platform_env_and_check w n (Ret tt) w [EvRun platform_command].
Proof.
  intros Hrun (a & b & x & Ha & Hb & Hx & Hy).
  unfold platform_command, platform_env in *.
  eapply runs_eq.
  - unfold load_platform_env_and_check. cbv zeta.
    eapply runs_bind; [run_atom|]. cbv beta. rewrite or_else_empty.
    rewrite (get_or_some _ "-1" _ _ Ha), (get_or_some _ "-2" _ _ Hb).
    rewrite Ha, Hb. cbn [is_none orb]. rewrite Hx, Hy.
    rewrite Z.eqb_refl. cbn [negb]. apply runs_ret.
  - reflexivity.
Qed.

Lemma runs_platform_other (w : W) n proc platform lpar :
  run_command w platform_command = Started proc ->
  dict_get "platform" (platform_env proc) = Some platform ->
  dict_get "PLATFORM_PSERIES_LPAR" (platform_env proc) = Some lpar ->
  ~ on_lpar (platform_env proc) ->
  runs load_platform_env_and_check w n (Exit 1%Z) w
       [EvRun platform_command;
        EvPrint Stdout (msg_unsupported (platform_env proc))].
Proof.
  intros Hrun Ha Hb Hnot.
  assert (Hint : match int int_max_str_digits platform,
                       int int_max_str_digits lpar with
                 | Some x, Some y => (x =? y)%Z = false
                 | _, _ => True
                 end).
  { destruct (int int_max_str_digits platform) as [x|] eqn:Hx; [|trivial].
    destruct (int int_max_str_digits lpar) as [y|] eqn:Hy; [|trivial].
    apply Z.eqb_neq. intros ->. apply Hnot. now exists platform, lpar, y. }
  unfold platform_command, platform_env, msg_unsupported in *.
  eapply runs_eq.
  - unfold load_platform_env_and_check. cbv zeta.
    eapply runs_bind; [run_atom|]. cbv beta. rewrite or_else_empty.
    rewrite (get_or_some _ "-1" _ _ Ha), (get_or_some _ "-2" _ _ Hb).
    rewrite Ha, Hb. cbn [is_none orb].
    destruct (int int_max_str_digits platform) as [x|];
      [destruct (int int_max_str_digits lpar) as [y|]|].
    + rewrite Hint. cbn [negb]. run_all.
    + run_all.
    + run_all.
  - cbn [app]. rewrite ?append_assoc. reflexivity.
Qed.

End Runs.
End EnvFacts.

(** ** The runs of [main] *)

Module MainFacts.
Import Re CharClass Py Builtins ReFacts Hvcsadmin Block Trace Claim Startup Behaviour.
Import PatternFacts BlockFacts Steps Resolve CloseFacts SweepFacts Rules DisplayFacts Exec.
Import StartFacts EnvFacts.
Local Open Scope list_scope.

Section Runs.
Context {W : Type} {P : Platform W} {I : Interpreter}.

Lemma runs_to_bind {A B} (m : M W A) (k : A -> M W B)
      w n a w1 n1 e1 o w2 n2 e2 :
  runs_to m w n (Ret a) w1 n1 e1 ->
  runs_to (k a) w1 n1 o w2 n2 e2 ->
  runs_to (bind m k) w n o w2 n2 (e1 ++ e2).
Proof.
  intros H1 H2 l. unfold bind. rewrite (H1 l), (H2 (l ++ e1)).
  now rewrite app_assoc.
Qed.

Lemma runs_to_bind_exit {A B} (m : M W A) (k : A -> M W B) w n c w1 n1 e1 :
  runs_to m w n (Exit c) w1 n1 e1 -> runs_to (bind m k) w n (Exit c) w1 n1 e1.
Proof. intros H l. unfold bind. now rewrite (H l). Qed.

Lemma runs_to_runs {A} (m : M W A) w n o w' evs :
  runs m w n o w' evs -> runs_to m w n o w' n evs.
Proof. intros H. exact H. Qed.

Lemma runs_to_set_noisy (w : W) n k :
  runs_to (set_noisy k) w n (Ret tt) w k [].
Proof. intros l. unfold set_noisy. cbn. now rewrite app_nil_r. Qed.

Lemma main_stops_at_the_gate argv (w : W) n c evs :
  runs load_platform_env_and_check w n (Exit c) w evs ->
  runs_to (main argv) w n (Exit c) w n evs.
Proof. intros H. unfold main. now apply runs_to_bind_exit, runs_to_runs. Qed.

Lemma main_help argv args (w : W) n gate help :
  runs load_platform_env_and_check w n (Ret tt) w gate ->
  parse_known_args argv = Parsed args ->
  argv = [] \/ help_flag args = true ->
  runs helpinfo w n (Ret tt) w help ->
  runs_to (main argv) w n (Ret tt) w n (gate ++ help).
Proof.
  intros Hgate Hparse Hhelp Hrun. unfold main.
  eapply runs_to_bind; [apply runs_to_runs, Hgate|].
  rewrite Hparse. cbv zeta.
  destruct Hhelp as [-> | ->]; cbn [length Nat.eqb orb]; rewrite ?orb_true_r;
    now apply runs_to_runs.
Qed.

Lemma main_version argv args (w : W) n gate said :
  runs load_platform_env_and_check w n (Ret tt) w gate ->
  parse_known_args argv = Parsed args ->
  argv <> [] -> help_flag args = false -> version args = true ->
  runs versioninfo w n (Ret tt) w said ->
  runs_to (main argv) w n (Ret tt) w n (gate ++ said).
Proof.
  intros Hgate Hparse Hne Hhelp Hversion Hrun. unfold main.
  eapply runs_to_bind; [apply runs_to_runs, Hgate|].
  rewrite Hparse, Hhelp, Hversion. cbv zeta.
  destruct argv; [congruence|]. cbn [length Nat.eqb orb].
  now apply runs_to_runs.
Qed.

Lemma main_operates argv args (w : W) n gate o w' e :
  runs load_platform_env_and_check w n (Ret tt) w gate ->
  asks argv args ->
  runs (after_options args) w (Z.of_nat (noisy args)) o w' e ->
  runs_to (main argv) w n o w' (Z.of_nat (noisy args)) (gate ++ e).
Proof.
  intros Hgate (Hparse & Hne & Hhelp & Hversion) Hrun. unfold main.
  eapply runs_to_bind; [apply runs_to_runs, Hgate|].
  rewrite Hparse, Hhelp, Hversion. cbv zeta.
  destruct argv; [congruence|]. cbn [length Nat.eqb orb].
  change e with ([] ++ e).
  eapply runs_to_bind; [apply runs_to_set_noisy|].
  apply runs_to_runs. exact Hrun.
Qed.

Lemma main_parse_error argv (w : W) n gate usage message :
  runs load_platform_env_and_check w n (Ret tt) w gate ->
  parse_known_args argv = ParseError usage message ->
  runs_to (main argv) w n (Exit 2%Z) w n
          (gate ++ [EvPrint Stderr usage; EvPrint Stderr message]).
Proof.
  intros Hgate Hparse. unfold main.
  eapply runs_to_bind; [apply runs_to_runs, Hgate|].
  rewrite Hparse. apply runs_to_runs.
  eapply runs_eq; [run_all | reflexivity].
Qed.

Lemma commands_run_actions l : commands_run l = commands_run (actions l).
Proof.
  induction l as [|e l IH]; [reflexivity|].
  unfold commands_run, actions in *.
  destruct e; simpl; rewrite ?IH; reflexivity.
Qed.

(** The checks of systool and of the driver, when they pass. *)
Lemma after_options_ready args (w : W) n o w' e :
  ready w ->
  runs (if status_flag args then status
        else (if rescan_flag args then rescan else ret tt) ;; selected args)
       w n o w' e ->
  exists checks,
    runs (after_options args) w n o w' (checks ++ e)
    /\ commands_run checks = ["which systool"; systool_drivers]
    /\ actions checks = [EvRun "which systool"; EvRun systool_drivers]
    /\ errors checks = []
    /\ ((n <= 1)%Z -> printed checks = []).
Proof.
  intros (_ & (p1 & Hwhich & Hfound) & (p2 & Hsys & Hrc & Hpath)) Hrun.
  destruct (runs_findsystools w n p1 Hwhich) as (e1 & R1 & A1 & E1 & Q1).
  destruct (runs_is_driver_installed w n p2 Hsys Hrc) as (e2 & R2 & A2 & E2 & Q2).
  apply String.eqb_neq in Hfound, Hpath.
  rewrite Hfound in R1, E1.
  destruct (rescan_candidates [] (splitlines (stdout p2))) as [|first rest];
    cbn [hd] in *; [discriminate Hpath|].
  eexists. split; [|split; [|split; [|split]]].
  - eapply runs_eq.
    + unfold after_options.
      eapply runs_bind; [run_atom|].
      eapply runs_bind; [exact R1|]. cbv beta. cbn [Z.eqb negb].
      eapply runs_bind; [exact R2|]. cbv beta. rewrite Hpath.
      exact Hrun.
    + rewrite !app_assoc. reflexivity.
  - autorewrite with trace.
    rewrite (commands_run_actions e1), (commands_run_actions e2), A1, A2.
    reflexivity.
  - autorewrite with trace. now rewrite A1, A2.
  - autorewrite with trace. now rewrite E1, E2.
  - intros Hn. autorewrite with trace.
    now rewrite printed_vmsg, Q1, Q2 by lia.
Qed.

Lemma after_options_no_systool args (w : W) n proc :
  run_command w "which systool" = Started proc ->
  strip (stdout proc) = EmptyString ->
  exists evs,
    runs (after_options args) w n (Exit 1%Z) w evs
    /\ actions evs = [EvRun "which systool"]
    /\ errors evs
       = [(APP_NAME ++ ": systool is not installed or not in the path?" ++ nl)%string;
          (APP_NAME ++ ": systool is required by the " ++ APP_NAME
                    ++ " script." ++ nl)%string].
Proof.
  intros Hwhich Hblank.
  destruct (runs_findsystools w n proc Hwhich) as (e1 & R1 & A1 & E1 & Q1).
  rewrite Hblank in R1, E1. cbn [String.eqb] in R1, E1.
  eexists. split; [|split].
  - unfold after_options. run_all.
  - autorewrite with trace. now rewrite A1.
  - autorewrite with trace. now rewrite E1.
Qed.

Lemma after_options_no_driver args (w : W) n p1 p2 :
  run_command w "which systool" = Started p1 ->
  strip (stdout p1) <> EmptyString ->
  run_command w systool_drivers = Started p2 ->
  returncode p2 = 0%Z ->
  hd EmptyString (rescan_candidates [] (splitlines (stdout p2))) = EmptyString ->
  exists evs,
    runs (after_options args) w n (Exit 1%Z) w evs
    /\ actions evs = [EvRun "which systool"; EvRun systool_drivers]
    /\ errors evs
       = match rescan_candidates [] (splitlines (stdout p2)) with
         | [] => [(APP_NAME ++ ": " ++ DRIVER ++ " is not loaded." ++ nl)%string]
         | _ => []
         end.
Proof.
  intros Hwhich Hfound Hsys Hrc Hpath.
  destruct (runs_findsystools w n p1 Hwhich) as (e1 & R1 & A1 & E1 & Q1).
  destruct (runs_is_driver_installed w n p2 Hsys Hrc) as (e2 & R2 & A2 & E2 & Q2).
  apply String.eqb_neq in Hfound. rewrite Hfound in R1, E1.
  cbv zeta in R2. rewrite Hpath in R2.
  eexists. split; [|split].
  - unfold after_options. run_all.
  - autorewrite with trace. now rewrite A1, A2.
  - autorewrite with trace. now rewrite E1, E2.
Qed.

Lemma main_after_parse argv args :
  parse_known_args argv = Parsed args ->
  main argv = (load_platform_env_and_check ;; after_parse (length argv) args).
Proof. intros H. unfold main. now rewrite H. Qed.

(** The branch of [main] that a namespace leads to, with what
    [effective] keeps of it. *)
Lemma effective_cases num args :
  let e := effective num args in
  let h := (num =? 0)%nat || help_flag args in
  let cd := (close_device args =? EmptyString)%string in
  let qn := (query_node args =? EmptyString)%string in
  (h = true /\ e = Namespace false true 0 false false false
                              EmptyString EmptyString EmptyString)
  \/ (h = false /\ version args = true
       /\ e = Namespace false false 0 false false true
                        EmptyString EmptyString EmptyString)
  \/ (h = false /\ version args = false /\ status_flag args = true
       /\ e = Namespace false false (noisy args) true false false
                        EmptyString EmptyString EmptyString)
  \/ (h = false /\ version args = false /\ status_flag args = false
       /\ all_flag args = true
       /\ e = Namespace true false (noisy args) false (rescan_flag args) false
                        EmptyString EmptyString EmptyString)
  \/ (h = false /\ version args = false /\ status_flag args = false
       /\ all_flag args = false /\ cd = false
       /\ e = Namespace false false (noisy args) false (rescan_flag args) false
                        EmptyString (close_device args) EmptyString)
  \/ (h = false /\ version args = false /\ status_flag args = false
       /\ all_flag args = false /\ cd = true /\ qn = false
       /\ e = Namespace false false (noisy args) false (rescan_flag args) false
                        (query_node args) EmptyString EmptyString)
  \/ (h = false /\ version args = false /\ status_flag args = false
       /\ all_flag args = false /\ cd = true /\ qn = true
       /\ e = Namespace false false (noisy args) false (rescan_flag args) false
                        EmptyString EmptyString (query_console args)).
Proof.
  unfold effective. cbv zeta.
  destruct ((num =? 0)%nat || help_flag args); [now left | right].
  destruct (version args); [now left | right].
  destruct (status_flag args); [now left | right].
  destruct (all_flag args); [now left | right].
  destruct (close_device args =? EmptyString)%string; cbn [negb];
    [right | now left].
  destruct (query_node args =? EmptyString)%string; cbn [negb];
    [right | now left].
  now repeat split.
Qed.

Lemma after_parse_effective num args num' args' :
  effective num args = effective num' args' ->
  after_parse num args = after_parse num' args'.
Proof.
  intros H. unfold after_parse, after_options, selected.
  destruct (effective_cases num args)
    as [(C1 & E) | [(C1 & C2 & E) | [(C1 & C2 & C3 & E)
       | [(C1 & C2 & C3 & C4 & E) | [(C1 & C2 & C3 & C4 & C5 & E)
       | [(C1 & C2 & C3 & C4 & C5 & C6 & E)
       | (C1 & C2 & C3 & C4 & C5 & C6 & E)]]]]]];
  destruct (effective_cases num' args')
    as [(D1 & E') | [(D1 & D2 & E') | [(D1 & D2 & D3 & E')
       | [(D1 & D2 & D3 & D4 & E') | [(D1 & D2 & D3 & D4 & D5 & E')
       | [(D1 & D2 & D3 & D4 & D5 & D6 & E')
       | (D1 & D2 & D3 & D4 & D5 & D6 & E')]]]]]];
  rewrite E, E' in H; try discriminate H;
  rewrite ?C1, ?C2, ?C3, ?C4, ?C5, ?C6, ?D1, ?D2, ?D3, ?D4, ?D5, ?D6;
  cbn [negb]; try reflexivity;
  injection H; intros;
  repeat match goal with
         | E : ?x = EmptyString |- _ => rewrite E in *; clear E
         | E : EmptyString = ?x |- _ => rewrite <- E in *; clear E
         | E : noisy _ = noisy _ |- _ => rewrite E in *; clear E
         | E : rescan_flag _ = rescan_flag _ |- _ => rewrite E in *; clear E
         | E : close_device _ = close_device _ |- _ => rewrite E in *; clear E
         | E : query_node _ = query_node _ |- _ => rewrite E in *; clear E
         | E : query_console _ = query_console _ |- _ => rewrite E in *; clear E
         end;
  try discriminate; reflexivity.
Qed.

(** Two command lines with the same effective options. *)
Lemma main_effective argv args argv' args' :
  parse_known_args argv = Parsed args ->
  parse_known_args argv' = Parsed args' ->
  effective (length argv) args = effective (length argv') args' ->
  main argv = main argv'.
Proof.
  intros H H' E.
  rewrite (main_after_parse _ _ H), (main_after_parse _ _ H').
  now rewrite (after_parse_effective _ _ _ _ E).
Qed.

End Runs.
End MainFacts.

Module QueryRuns.
Import Exec Rules.
Section Runs.
Context {W : Type} {P : Platform W}.
Local Open Scope list_scope.

Lemma runs_querynode_mapped (w : W) n parameter device_path o w' shown :
  resolves_to w parameter device_path ->
  runs (displaybypath device_path) w n o w' shown ->
  exists found,
    runs (querynode parameter) w n (forget o) w' (found ++ shown)
    /\ actions found = [EvExists (dev_node parameter); EvRun systool_index]
    /\ errors found = []
    /\ ((n <= 1)%Z -> printed found = []).
Proof.
  intros (Hname & Hzero & Hdev & (proc & Hrun & Hrc & Hscan) & Hne) Hshow.
  apply String.eqb_neq in Hne. unfold dev_node, systool_index in *.
  eexists.
  split; [|split; [|split]].
  - unfold querynode.
    destruct o as [r | c |]; cbn [forget];
      (eapply runs_eq;
       [ run_all
       | rewrite ?app_nil_r, !app_assoc; reflexivity ]).
  - autorewrite with trace. reflexivity.
  - now autorewrite with trace.
  - intros Hn. autorewrite with trace.
    rewrite !printed_vmsg by exact Hn. reflexivity.
Qed.

Lemma runs_queryconsole_mapped (w : W) n partition proc device_path o w' shown :
  run_command w "systool -b vio -D -A current_vty -p" = Started proc ->
  returncode proc = 0%Z ->
  partition_scan partition (splitlines (stdout proc))
                 EmptyString EmptyString EmptyString EmptyString
  = Some device_path ->
  device_path <> EmptyString ->
  runs (displaybypath device_path) w n o w' shown ->
  exists found,
    runs (queryconsole partition) w n (forget o) w' (found ++ shown)
    /\ actions found = [EvRun "systool -b vio -D -A current_vty -p"]
    /\ errors found = []
    /\ ((n <= 1)%Z -> printed found = []).
Proof.
  intros Hrun Hrc Hscan Hne Hshow. apply String.eqb_neq in Hne.
  eexists.
  split; [|split; [|split]].
  - unfold queryconsole.
    destruct o as [r | c |]; cbn [forget];
      (eapply runs_eq;
       [ run_all
       | rewrite ?app_nil_r, !app_assoc; reflexivity ]).
  - autorewrite with trace. reflexivity.
  - now autorewrite with trace.
  - intros Hn. autorewrite with trace.
    rewrite !printed_vmsg by exact Hn. reflexivity.
Qed.

End Runs.
End QueryRuns.

(** ** [status] without nodes to show *)

Module StatusRuns.
Import Exec Rules.
Section Runs.
Context {W : Type} {P : Platform W}.
Local Open Scope list_scope.

Lemma insert_sorted_Forall (Q : string -> Prop) x l :
  Q x -> Forall Q l -> Forall Q (insert_sorted x l).
Proof.
  intros Hx H. induction H as [|y l Hy H IH]; cbn [insert_sorted].
  - now constructor.
  - destruct (String.leb x y); repeat constructor; assumption.
Qed.

Lemma sorted_Forall (Q : string -> Prop) l :
  Forall Q l -> Forall Q (sorted l).
Proof.
  intros H. induction H as [|x l Hx H IH]; [constructor|].
  unfold sorted in *. cbn [fold_right]. now apply insert_sorted_Forall.
Qed.

Lemma status_loop_skips entries count :
  Forall (fun entry => search RE_ENTRY entry = None) entries ->
  @status_loop W P entries count = ret count.
Proof.
  intros H. induction H as [|entry rest He H IH]; [reflexivity|].
  cbn [status_loop]. now rewrite He.
Qed.

Lemma runs_status_nothing (w : W) n :
  match listdir w "/dev" with
  | Some names => Forall (fun entry => search RE_ENTRY entry = None) names
  | None => True
  end ->
  exists said,
    runs status w n (Ret tt) w
         (EvListdir "/dev" :: said
            ++ [EvPrint Stdout (APP_NAME ++ ": no hvcs adapters found." ++ nl)])
    /\ actions said = [] /\ errors said = []
    /\ ((n <= 1)%Z -> printed said = []).
Proof.
  intros H.
  assert (L : @status_loop W P
                (match listdir w "/dev" with
                 | Some names => sorted names
                 | None => []
                 end) 0 = ret 0%nat).
  { destruct (listdir w "/dev"); [|reflexivity].
    now apply status_loop_skips, sorted_Forall. }
  eexists. split; [|split; [|split]].
  - eapply runs_eq.
    + unfold status. eapply runs_bind; [apply runs_listdir|].
      cbv zeta beta. rewrite L. run_all. cbn [Nat.eqb]. run_all.
    + cbn [app]. rewrite ?app_nil_r, ?app_assoc. reflexivity.
  - now autorewrite with trace.
  - now autorewrite with trace.
  - intros Hn. autorewrite with trace. rewrite !printed_vmsg by exact Hn.
    reflexivity.
Qed.

End Runs.
End StatusRuns.

(** * Further properties of the script *)

Import Re CharClass Py Builtins ReFacts Hvcsadmin Block Trace Claim Startup Behaviour.
Import PatternFacts LineFacts BlockFacts Steps Resolve CloseFacts SweepFacts.
Import Rules Noise Exec DisplayFacts DisplayRuns CloseRuns StartFacts EnvFacts MainFacts.
Import QueryRuns StatusRuns NodeShape.

Section Further.
Context {W : Type} {P : Platform W} {I : Interpreter}.
Local Open Scope list_scope.

(** X1.  The name check of [closedevice] and [querynode] passes on an
    identifier exactly when it ends with the node prefix and a run of
    digits, which a single newline may follow; the index is then that
    run of digits, whatever decomposition of the identifier is looked
    at.  On every other identifier the name is empty and the index is
    the string -1. *)
Theorem node_identifier_shape (parameter : string) :
  (getnodename parameter = GLOBAL_NODE_NAME
   <-> exists pre ds tl,
         parameter = (pre ++ GLOBAL_NODE_NAME ++ ds ++ tl)%string
         /\ filled digit ds /\ (tl = EmptyString \/ tl = nl))
  /\ (forall pre ds tl,
         parameter = (pre ++ GLOBAL_NODE_NAME ++ ds ++ tl)%string ->
         filled digit ds -> tl = EmptyString \/ tl = nl ->
         getindex parameter = ds)
  /\ (getnodename parameter <> GLOBAL_NODE_NAME ->
      getnodename parameter = EmptyString
      /\ getindex parameter = "-1"%string).
Proof.
  unfold GLOBAL_NODE_NAME.
  split; [split|split].
  - unfold getnodename, search. intros H.
    destruct (search_from RE_NODE_NAME true parameter) eqn:E; [|discriminate H].
    apply NodeShape.search_name_shape in E as (pre & ds & tl & -> & Hne & Hd & Htl).
    exists pre, ds, tl. split; [reflexivity|]. split; [now split|].
    now apply NodeShape.at_eol_cases.
  - intros (pre & ds & tl & -> & [Hne Hd] & Htl).
    apply NodeShape.at_eol_cases in Htl.
    unfold getnodename, search.
    now rewrite (NodeShape.search_name_found pre ds tl Hne Hd Htl true).
  - intros pre ds tl -> [Hne Hd] Htl.
    apply NodeShape.at_eol_cases in Htl.
    unfold getindex, search.
    now rewrite (NodeShape.search_index_found pre ds tl Hne Hd Htl true).
  - unfold getnodename, getindex, search.
    pose proof (search_node_both parameter true) as H.
    destruct (search_from RE_NODE_NAME true parameter).
    + destruct H as [-> _]. intros C. now contradiction C.
    + rewrite H. now split.
Qed.

(** X2.  The scans read a line as a key and its value exactly when the
    line is written blanks, the key, the value between double quotes,
    blanks; for an attribute, blanks may separate its name from the
    equals sign.  The value is any text without a newline, double quotes
    included: it goes up to the last double quote of the line. *)
Theorem systool_lines_are_read_by_shape (line value : string) :
  (forall key pat,
      In (key, pat) [("Driver = ", RE_DRIVER);
                     ("Driver path = ", RE_DRIVER_PATH);
                     ("Device path = ", RE_DEVICE_PATH);
                     ("Device = ", RE_DEVICE)] ->
      value_of pat line = Some value
      <-> exists indent tail,
            line = key_line indent key value tail
            /\ all space indent = true /\ all dot value = true
            /\ all space tail = true)
  /\ (forall name pat,
         In (name, pat) [("index", RE_INDEX); ("vterm_state", RE_VTERM_STATE)] ->
         value_of pat line = Some value
         <-> exists indent gap tail,
               line = attr_line indent name gap value tail
               /\ all space indent = true /\ all space gap = true
               /\ all dot value = true /\ all space tail = true).
Proof.
  split.
  - intros key pat [E | [E | [E | [E | []]]]]; injection E as <- <-;
      now apply value_of_key_line.
  - intros name pat [E | [E | []]]; injection E as <- <-;
      now apply value_of_attr_line.
Qed.

(** X3.  [displaybypath] and [closedevice] take as the name of an
    adapter the end of its device path from a 3 on, and the match of
    what precedes is greedy: the name starts at the last 3 of the path
    that a digit follows, hexadecimal for [displaybypath] and decimal
    for [closedevice].  So the name of a unit address with a 3 after its
    first digit is cut. *)
Theorem adapter_name_starts_at_the_last_three (pre h : string) :
  pre <> EmptyString -> all dot pre = true ->
  h <> EmptyString -> last_three_only h = true ->
  (all xdigit h = true ->
   search RE_VTY_SERVER_HEX (pre ++ "3" ++ h) = Some [("3" ++ h)%string])
  /\ (all digit h = true ->
      search RE_VTY_SERVER_DEC (pre ++ "3" ++ h) = Some [("3" ++ h)%string]).
Proof.
  intros Npre Hpre Nh Hlast. split; intros Hh.
  - now apply (unit_address xdigit).
  - now apply (unit_address digit).
Qed.

(** X4.  [closedevice] looks for a decimal unit address: when the device
    path ends in another character, as a hexadecimal unit address may,
    a disconnection that succeeds is reported, at the noise level 1 or
    above, for an adapter without a name. *)
Theorem closedevice_names_no_hex_adapter (w : W) n parameter body c
        content ok w' content' :
  let device_path := (body ++ String c EmptyString)%string in
  resolves_to w parameter device_path ->
  path_exists w (vstate device_path) = true ->
  read_file w (vstate device_path) = Some content ->
  strip content <> "0"%string ->
  write_file w (vstate device_path) "0" = (ok, w') ->
  read_file w' (vstate device_path) = Some content' ->
  strip content' = "0"%string ->
  digit c = false -> c <> newline -> (0 < n)%Z ->
  exists evs,
    runs (closedevice parameter) w n (Ret tt) w'
         (evs ++ [EvPrint Stdout (msg_mapped parameter EmptyString);
                  EvPrint Stdout (msg_closed EmptyString)])
    /\ actions evs = [EvExists (dev_node parameter); EvRun systool_index;
                      EvExists (vstate device_path);
                      EvRead (vstate device_path);
                      EvWrite (vstate device_path) "0";
                      EvRead (vstate device_path)]
    /\ errors evs = [].
Proof.
  intros device_path Hres Hex Hread Hnz Hwrite Hread' Hz' Hc Hnl Hn.
  destruct (runs_closedevice_closed w n parameter device_path content ok w'
              content' Hres Hex Hread Hnz Hwrite Hread' Hz')
    as (evs & R & A & E & _).
  assert (Hnone : search RE_VTY_SERVER_DEC device_path = None).
  { apply (unit_address_none digit device_path true c); unfold device_path;
      rewrite last_char_app; cbn [last_char]; assumption. }
  rewrite Hnone in R. cbn [field] in R. rewrite !smsg_on in R by exact Hn.
  exists evs. now repeat split.
Qed.

(** X5.  For a device path that ends in a unit address and a
    [current_vty] attribute that holds a location code between blanks,
    [displaybypath] prints one line, with the unit address from its last
    3 on, the partition and the slot of the location code, the node of
    the index and the state, both without the blanks around them.  It
    tests the three attributes, reads them, and returns 0; the world is
    as it was. *)
Theorem displaybypath_shows_the_adapter (w : W) n pre h lead trail
        m1 m2 m3 p s vterm_state index :
  let path := (pre ++ "3" ++ h)%string in
  pre <> EmptyString -> all dot pre = true ->
  filled xdigit h -> last_three_only h = true ->
  Forall (fun a => path_exists w (path_join path a) = true)
         displayed_attributes ->
  read_file w (path_join path "current_vty")
  = Some (lead ++ location_code m1 m2 m3 p s ++ trail)%string ->
  all space lead = true -> all space trail = true ->
  filled word m1 -> filled word m2 -> filled word m3 ->
  filled digit p -> filled digit s ->
  read_file w (path_join path "vterm_state") = Some vterm_state ->
  read_file w (path_join path "index") = Some index ->
  exists said,
    runs (displaybypath path) w n (Ret 0%Z) w
         (said ++ [EvPrint Stdout
                     ("vty-server@3" ++ h ++ " partition:" ++ p ++ " slot:" ++ s
                        ++ " /dev/hvcs" ++ strip index
                        ++ " vterm-state:" ++ strip vterm_state ++ nl)%string])
    /\ actions said
       = map (fun a => EvExists (path_join path a)) displayed_attributes
           ++ [EvRead (path_join path "current_vty");
               EvRead (path_join path "vterm_state");
               EvRead (path_join path "index")]
    /\ errors said = []
    /\ ((n <= 1)%Z -> printed said = []).
Proof.
  intros path Npre Hpre [Nh Hh] Hlast Hex Rvty Hlead Htrail F1 F2 F3 Fp Fs
         Rstate Rindex.
  assert (Npath : path <> EmptyString).
  { unfold path. destruct pre; [congruence | discriminate]. }
  unfold displayed_attributes in Hex.
  apply Forall_cons_iff in Hex as [E1 Hex].
  apply Forall_cons_iff in Hex as [E2 Hex].
  apply Forall_cons_iff in Hex as [E3 _].
  destruct (runs_displaybypath w n path _ vterm_state index
              Npath E1 E2 E3 Rvty Rstate Rindex)
    as (said & R & A & E & Q).
  exists said. split; [|now repeat split].
  eapply runs_eq; [exact R|]. do 3 f_equal.
  unfold status_line.
  rewrite (clc_of_content lead trail m1 m2 m3 p s Hlead Htrail F1 F2 F3 Fp Fs).
  change RE_VTY_SERVER_HEX with (unit_pattern xdigit). unfold path.
  rewrite (unit_address xdigit pre h Npre Hpre Nh Hh Hlast).
  cbn [field group nth Nat.sub]. unfold DRIVER, nl.
  repeat first [progress cbn [append] | rewrite append_assoc]. reflexivity.
Qed.

(** X6.  [displaybypath] tests its three attributes, in the order
    [current_vty], [index], [vterm_state], before it reads any: at the
    first that does not exist it reports that attribute and exits with
    status 1, having read nothing. *)
Theorem displaybypath_needs_its_attributes (w : W) n path present missing rest :
  path <> EmptyString ->
  displayed_attributes = present ++ missing :: rest ->
  Forall (fun a => path_exists w (path_join path a) = true) present ->
  path_exists w (path_join path missing) = false ->
  exists evs,
    runs (displaybypath path) w n (Exit 1%Z) w evs
    /\ actions evs
       = map (fun a => EvExists (path_join path a)) (present ++ [missing])
    /\ errors evs
       = [(APP_NAME ++ ": " ++ path ++ "/" ++ missing
                    ++ " attribute does not exist." ++ nl)%string]
    /\ ((n <= 1)%Z -> printed evs = []).
Proof.
  intros Npath Hsplit Hpresent Hmissing. apply String.eqb_neq in Npath.
  unfold displayed_attributes in Hsplit.
  destruct present as [|a1 [|a2 [|a3 [|a4 present]]]];
    cbn [app] in Hsplit; injection Hsplit as Hsplit; subst;
    try discriminate;
    repeat match goal with
           | H : Forall _ (_ :: _) |- _ => apply Forall_cons_iff in H as [? H]
           | H : _ :: _ = _ :: _ |- _ => injection H as <- H
           | H : [] = _ :: _ |- _ => discriminate H
           | H : [] = _ ++ _ :: _ |- _ => destruct (app_cons_not_nil _ _ _ H)
           end.
  all: eexists; split; [|split; [|split]];
    [ unfold displaybypath; run_all
    | now autorewrite with trace
    | now autorewrite with trace
    | intros Hn; autorewrite with trace;
      now rewrite ?printed_vmsg by exact Hn ].
Qed.

(** X7.  [status], [querynode] and [queryconsole] only look: whatever
    the world and the noise level, and however the call ends, nothing is
    written and the world is as it was. *)
Theorem queries_never_write (w : W) (n : Z) :
  (exists o evs, runs status w n o w evs /\ writes evs = [])
  /\ (forall dev_node, exists o evs,
         runs (querynode dev_node) w n o w evs /\ writes evs = [])
  /\ (forall partition, exists o evs,
         runs (queryconsole partition) w n o w evs /\ writes evs = []).
Proof.
  assert (K : forall m : M W unit,
             obeys no_write m ->
             exists o evs, runs m w n o w evs /\ writes evs = []).
  { intros m H. destruct (H w n) as (o & w' & evs & R & F & Hw).
    assert (Hnone : writes evs = []).
    { clear R Hw. induction F as [|e evs He F IH]; [reflexivity|].
      unfold writes in *. cbn [filter]. now rewrite He. }
    rewrite (Hw Hnone) in R. now exists o, evs. }
  split; [|split]; intros; apply K.
  - now apply obeys_status.
  - now apply obeys_querynode.
  - now apply obeys_queryconsole.
Qed.

(** X8.  The noise level changes what is printed on standard output and
    nothing else: from the same world, at two noise levels, each
    operation ends in the same way in the same world, after the same
    actions and the same messages on standard error. *)
Theorem noise_level_changes_messages_only (w : W) (n n' : Z) :
  let same (m : M W unit) :=
    exists o w' evs evs',
      runs m w n o w' evs /\ runs m w n' o w' evs'
      /\ actions evs = actions evs' /\ errors evs = errors evs' in
  same closeall /\ same rescan /\ same status
  /\ (forall parameter, same (closedevice parameter))
  /\ (forall dev_node, same (querynode dev_node))
  /\ (forall partition, same (queryconsole partition)).
Proof.
  cbv zeta. repeat split; intros.
  - apply steady_closeall.
  - apply steady_rescan.
  - apply steady_status.
  - apply steady_closedevice.
  - apply steady_querynode.
  - apply steady_queryconsole.
Qed.

(** X9.  At the noise level 0 the operations that change the system
    print nothing on standard output, however they end. *)
Theorem mutations_are_silent_at_noise_zero (w : W) (n : Z) :
  (n <= 0)%Z ->
  (exists o w' evs, runs closeall w n o w' evs /\ printed evs = [])
  /\ (exists o w' evs, runs rescan w n o w' evs /\ printed evs = [])
  /\ (forall parameter, exists o w' evs,
         runs (closedevice parameter) w n o w' evs /\ printed evs = []).
Proof.
  intros Hn.
  assert (K : forall m : M W unit,
             obeys quiet m ->
             exists o w' evs, runs m w n o w' evs /\ printed evs = []).
  { intros m H. destruct (H w n) as (o & w' & evs & R & F & _).
    exists o, w', evs. split; [exact R|].
    clear R. induction F as [|e evs He F IH]; [reflexivity|].
    unfold printed in *. cbn [flat_map]. rewrite IH.
    destruct e as [[] s| | | | |]; try reflexivity.
    now destruct (He Hn s). }
  assert (Qs : forall k s, (k >? 0)%Z = true -> quiet k (EvPrint Stdout s)).
  { intros k s Hk Hle. apply Z.gtb_lt in Hk. lia. }
  assert (Qe : forall k s, quiet k (EvPrint Stderr s)).
  { intros k s _ s'. discriminate. }
  assert (Qa : forall k e, is_print e = false -> is_write e = false -> quiet k e).
  { intros k e He _ _ s ->. discriminate. }
  assert (Qw : forall k p d, quiet k (EvWrite p d)).
  { intros k p d _ s. discriminate. }
  split; [|split]; intros; apply K.
  - apply obeys_closeall; auto.
  - apply obeys_rescan; auto.
  - apply obeys_closedevice; auto.
Qed.

(** X10.  [closeall] and [closedevice] write nothing but 0 to a
    [vterm_state] attribute of a device path, and [rescan] nothing but 1
    to the rescan attribute of a driver directory; the world changes only
    when something is written. *)
Theorem writes_are_confined (w : W) (n : Z) :
  (exists o w' evs,
      runs closeall w n o w' evs /\ Forall closes_only evs
      /\ (writes evs = [] -> w' = w))
  /\ (forall parameter, exists o w' evs,
         runs (closedevice parameter) w n o w' evs /\ Forall closes_only evs
         /\ (writes evs = [] -> w' = w))
  /\ (exists o w' evs,
         runs rescan w n o w' evs /\ Forall rescans_only evs
         /\ (writes evs = [] -> w' = w)).
Proof.
  assert (Hc : forall (k : Z) device_path,
             closes_only (EvWrite (vstate device_path) "0")).
  { intros k device_path. split; [reflexivity | now exists device_path]. }
  assert (Hr : forall (k : Z) driver_path,
             rescans_only (EvWrite (path_join driver_path "rescan") "1")).
  { intros k driver_path. split; [reflexivity | now exists driver_path]. }
  split; [|split]; intros.
  - apply (obeys_closeall (fun _ => closes_only)); auto;
      intros k e; destruct e; try discriminate; intros; exact Logic.I.
  - apply (obeys_closedevice (fun _ => closes_only)); auto;
      intros k e; destruct e; try discriminate; intros; exact Logic.I.
  - apply (obeys_rescan (fun _ => rescans_only)); auto;
      intros k e; destruct e; try discriminate; intros; exact Logic.I.
Qed.

(** X11.  When the node is in /dev and systool lists no adapter of the
    driver hvcs with its index, [closedevice] exits with status 1 and
    [querynode] returns normally; neither writes anything to standard
    error, and at the noise level 0 neither prints anything at all. *)
Theorem unmapped_node_ends_silently (w : W) n parameter proc :
  checks_pass w parameter ->
  run_command w systool_index = Started proc ->
  returncode proc = 0%Z ->
  none_such (index_match (getindex parameter)) (splitlines (stdout proc)) ->
  (exists evs,
      runs (closedevice parameter) w n (Exit 1%Z) w evs
      /\ actions evs = [EvExists (dev_node parameter); EvRun systool_index]
      /\ errors evs = []
      /\ ((n <= 0)%Z -> printed evs = []))
  /\ (exists evs,
         runs (querynode parameter) w n (Ret tt) w evs
         /\ actions evs = [EvExists (dev_node parameter); EvRun systool_index]
         /\ errors evs = []
         /\ ((n <= 0)%Z -> printed evs = [])).
Proof.
  intros Hchecks Hrun Hrc Hnone.
  apply (proj2 (index_scan_spec _ _)) in Hnone.
  split.
  - now apply (runs_closedevice_unmapped w n parameter proc).
  - now apply (runs_querynode_unmapped w n parameter proc).
Qed.


(** X13.  [is_driver_installed] returns the driver directory that
    [rescan] tries first: the value of the first Driver path line in a
    block of the driver hvcs, even when it is empty.  It reports that
    the driver is not loaded exactly when there is no such line, and
    then [rescan] writes nothing. *)
Theorem driver_check_agrees_with_rescan (w : W) n proc :
  run_command w systool_drivers = Started proc ->
  returncode proc = 0%Z ->
  let candidates := rescan_candidates [] (splitlines (stdout proc)) in
  (exists evs,
      runs is_driver_installed w n (Ret (hd EmptyString candidates)) w evs
      /\ actions evs = [EvRun systool_drivers]
      /\ (candidates = []
          <-> errors evs
              = [(APP_NAME ++ ": " ++ DRIVER ++ " is not loaded." ++ nl)%string])
      /\ (candidates <> [] -> errors evs = []))
  /\ (exists w' evs,
         runs rescan w n (Ret tt) w' evs
         /\ match candidates with
            | [] => actions evs = [EvRun systool_drivers] /\ w' = w
            | first :: _ =>
                exists more,
                  actions evs
                  = EvRun systool_drivers
                      :: EvWrite (path_join first "rescan") "1" :: more
            end).
Proof.
  intros Hrun Hrc candidates. split.
  - destruct (runs_is_driver_installed w n proc Hrun Hrc)
      as (evs & R & A & E & _).
    fold candidates in R, E. exists evs. split; [exact R|]. split; [exact A|].
    rewrite E.
    destruct candidates;
      [ split; [split; reflexivity | congruence]
      | split; [split; discriminate | reflexivity] ].
  - destruct (rescan_run w n proc Hrun Hrc) as (evs & R & A & _).
    cbv zeta in R, A. fold candidates in R, A.
    eexists. exists evs. split; [exact R|].
    destruct candidates as [|first rest].
    + cbn [try_each fst snd map] in *. now split.
    + rewrite A. cbn [try_each].
      destruct (write_file w (path_join first "rescan") "1") as [[] w1].
      * cbn [fst map]. now exists [].
      * destruct (try_each w1 rest) as [tried w2]. cbn [fst map].
        now eexists.
Qed.

(** X14.  What [load_platform_env_and_check] reads from the output of
    [env -0] is the list of the bindings printed, the last first: a
    variable has the value of its last binding. *)
Theorem environment_is_read_back (bindings : list (string * string)) :
  forallb binding_ok bindings = true ->
  read_env (split NUL (env0 bindings)) [] = rev bindings
  /\ forall name, dict_get name (read_env (split NUL (env0 bindings)) [])
                  = dict_get name (rev bindings).
Proof.
  intros H.
  assert (E : read_env (split NUL (env0 bindings)) [] = rev bindings).
  { rewrite split_env0, read_env_bindings by exact H. apply app_nil_r. }
  split; [exact E|]. intros name. now rewrite E.
Qed.

(** X15.  The platform check passes exactly when the environment binds
    [platform] and [PLATFORM_PSERIES_LPAR] to texts that [int] reads as
    the same number; the return code of the command is not looked at.
    When a variable is missing, the check reports it on standard error;
    when the numbers differ or a text is no number, it reports on
    standard output that the platform is not supported; in both cases
    it exits with status 1.  When it passes it prints nothing. *)
Theorem platform_check_compares_numbers (w : W) n proc :
  run_command w platform_command = Started proc ->
  let env := platform_env proc in
  (on_lpar env ->
   runs load_platform_env_and_check w n (Ret tt) w [EvRun platform_command])
  /\ (dict_get "platform" env = None
      \/ dict_get "PLATFORM_PSERIES_LPAR" env = None ->
      runs load_platform_env_and_check w n (Exit 1%Z) w
           [EvRun platform_command; EvPrint Stderr msg_no_platform])
  /\ (dict_get "platform" env <> None ->
      dict_get "PLATFORM_PSERIES_LPAR" env <> None ->
      ~ on_lpar env ->
      runs load_platform_env_and_check w n (Exit 1%Z) w
           [EvRun platform_command; EvPrint Stdout (msg_unsupported env)]).
Proof.
  intros Hrun env. split; [|split].
  - now apply runs_platform_ok.
  - now apply runs_platform_missing.
  - intros Ha Hb Hnot.
    destruct (dict_get "platform" env) as [a|] eqn:Ea; [|congruence].
    destruct (dict_get "PLATFORM_PSERIES_LPAR" env) as [b|] eqn:Eb; [|congruence].
    now apply (runs_platform_other w n proc a b).
Qed.

(** X16.  [main] checks the platform before it reads its options: when
    the check fails, whatever the command line, help and version
    included, [main] ends as the check does and does nothing else. *)
Theorem main_checks_the_platform_first (w : W) n proc argv :
  run_command w platform_command = Started proc ->
  ~ on_lpar (platform_env proc) ->
  exists said,
    runs_to (main argv) w n (Exit 1%Z) w n (EvRun platform_command :: said)
    /\ (said = [EvPrint Stderr msg_no_platform]
        \/ said = [EvPrint Stdout (msg_unsupported (platform_env proc))]).
Proof.
  intros Hrun Hnot.
  destruct (dict_get "platform" (platform_env proc)) as [a|] eqn:Ea.
  - destruct (dict_get "PLATFORM_PSERIES_LPAR" (platform_env proc)) as [b|] eqn:Eb.
    + eexists. split; [|now right].
      apply main_stops_at_the_gate.
      now apply (runs_platform_other w n proc a b).
    + eexists. split; [|now left].
      apply main_stops_at_the_gate.
      apply (runs_platform_missing w n proc Hrun); auto.
  - eexists. split; [|now left].
    apply main_stops_at_the_gate.
      apply (runs_platform_missing w n proc Hrun); auto.
Qed.

(** X17.  On a partition, a command line without words or with the help
    option has the help text printed and nothing else done, whatever
    other options it holds; the version option, without the help option,
    has the three lines of the version printed and nothing else done.
    The noise level is left as it was. *)
Theorem main_help_and_version_do_nothing_else (w : W) n proc argv args :
  run_command w platform_command = Started proc ->
  on_lpar (platform_env proc) ->
  parse_known_args argv = Parsed args ->
  (argv = [] \/ help_flag args = true ->
   exists help,
     runs_to (main argv) w n (Ret tt) w n (EvRun platform_command :: help)
     /\ runs helpinfo w n (Ret tt) w help
     /\ actions help = [] /\ errors help = [] /\ length help = 44)
  /\ (argv <> [] -> help_flag args = false -> version args = true ->
      runs_to (main argv) w n (Ret tt) w n
              [EvRun platform_command;
               EvPrint Stdout ("IBM hvcsadmin version 1.0.0" ++ nl);
               EvPrint Stdout ("Copyright (C) 2004, IBM Corporation." ++ nl);
               EvPrint Stdout ("Author(s) Ryan S. Arnold" ++ nl)]).
Proof.
  intros Hrun Hlpar Hparse.
  pose proof (runs_platform_ok w n proc Hrun Hlpar) as Hgate.
  split.
  - intros Hhelp.
    assert (Rh : exists help,
               runs helpinfo w n (Ret tt) w help
               /\ actions help = [] /\ errors help = [] /\ length help = 44).
    { eexists. split; [unfold helpinfo; run_all|].
      split; [|split]; reflexivity. }
    destruct Rh as (help & Rh & Ah & Eh & Lh).
    exists help. split; [|now repeat split].
    exact (main_help argv args w n _ help Hgate Hparse Hhelp Rh).
  - intros Hne Hhelp Hversion.
    refine (main_version argv args w n _ _ Hgate Hparse Hne Hhelp Hversion _).
    eapply runs_eq; [unfold versioninfo; run_all | reflexivity].
Qed.

(** X18.  With the status option [main] runs [status] and nothing after
    it: whatever other options the command line holds, rescan, all and
    close included, nothing is written and the world is as it was. *)
Theorem main_status_excludes_the_rest (w : W) n argv args :
  ready w -> asks argv args -> status_flag args = true ->
  exists o checks shown,
    runs_to (main argv) w n o w (Z.of_nat (noisy args))
            (EvRun platform_command :: checks ++ shown)
    /\ runs status w (Z.of_nat (noisy args)) o w shown
    /\ actions checks = [EvRun "which systool"; EvRun systool_drivers]
    /\ writes (checks ++ shown) = [].
Proof.
  intros Hready Hasks Hstatus.
  pose proof Hready as ((p0 & Hrun & Hlpar) & _).
  pose proof (runs_platform_ok w n p0 Hrun Hlpar) as Hgate.
  destruct (queries_never_write w (Z.of_nat (noisy args)))
    as ((o & shown & Rs & Ws) & _).
  destruct (after_options_ready args w (Z.of_nat (noisy args)) o w shown Hready)
    as (checks & R & _ & A & _).
  { now rewrite Hstatus. }
  exists o, checks, shown. split; [|split; [exact Rs | split; [exact A|]]].
  - exact (main_operates argv args w n _ o w _ Hgate Hasks R).
  - rewrite writes_app, Ws, app_nil_r.
    assert (Wa : forall l, writes l = writes (actions l)).
    { induction l as [|e l IH]; [reflexivity|].
      unfold writes, actions in *. destruct e; simpl; rewrite ?IH; reflexivity. }
    now rewrite Wa, A.
Qed.

(** X19.  [main] looks at its options in a fixed order: help, version,
    status, then rescan together with the first of all, close, node and
    console.  Two command lines whose options agree where [main] looks
    are run in the same way: an option that an earlier one shadows
    changes nothing. *)
Theorem main_ignores_shadowed_options (argv argv' : list string)
        (args args' : namespace) :
  parse_known_args argv = Parsed args ->
  parse_known_args argv' = Parsed args' ->
  effective (length argv) args = effective (length argv') args' ->
  forall st : state W, main argv st = main argv' st.
Proof.
  intros H H' E st. now rewrite (main_effective argv args argv' args' H H' E).
Qed.

(** X20.  [main] runs no operation unless [which] finds systool and
    systool lists a driver directory, not empty, for the driver hvcs:
    otherwise it exits with status 1 after the checks, whatever the
    options ask for.  When the driver directory listed is empty it says
    nothing of the reason. *)
Theorem main_needs_systool_and_the_driver (w : W) n argv args p0 p1 :
  run_command w platform_command = Started p0 ->
  on_lpar (platform_env p0) ->
  asks argv args ->
  run_command w "which systool" = Started p1 ->
  (strip (stdout p1) = EmptyString ->
   exists said,
     runs_to (main argv) w n (Exit 1%Z) w (Z.of_nat (noisy args))
             (EvRun platform_command :: said)
     /\ actions said = [EvRun "which systool"]
     /\ length (errors said) = 2)
  /\ (forall p2,
         strip (stdout p1) <> EmptyString ->
         run_command w systool_drivers = Started p2 ->
         returncode p2 = 0%Z ->
         hd EmptyString (rescan_candidates [] (splitlines (stdout p2)))
         = EmptyString ->
         exists said,
           runs_to (main argv) w n (Exit 1%Z) w (Z.of_nat (noisy args))
                   (EvRun platform_command :: said)
           /\ actions said = [EvRun "which systool"; EvRun systool_drivers]
           /\ (rescan_candidates [] (splitlines (stdout p2)) <> [] ->
               errors said = [])).
Proof.
  intros Hrun Hlpar Hasks Hwhich.
  pose proof (runs_platform_ok w n p0 Hrun Hlpar) as Hgate.
  split.
  - intros Hblank.
    destruct (after_options_no_systool args w (Z.of_nat (noisy args)) p1
                Hwhich Hblank) as (said & R & A & E).
    exists said. split; [|split; [exact A | now rewrite E]].
    exact (main_operates argv args w n _ _ w _ Hgate Hasks R).
  - intros p2 Hfound Hsys Hrc Hpath.
    destruct (after_options_no_driver args w (Z.of_nat (noisy args)) p1 p2
                Hwhich Hfound Hsys Hrc Hpath) as (said & R & A & E).
    exists said. split; [|split; [exact A|]].
    + exact (main_operates argv args w n _ _ w _ Hgate Hasks R).
    + rewrite E. now destruct (rescan_candidates [] (splitlines (stdout p2))).
Qed.

(** X21.  With the rescan option and without the status option, [main]
    runs [rescan] and then, in the world that [rescan] leaves, the
    operation that the other options select, at the noise level that the
    command line gives; when [rescan] exits, the operation is not run. *)
Theorem main_rescans_before_the_operation (w : W) n argv args :
  ready w -> asks argv args ->
  status_flag args = false -> rescan_flag args = true ->
  let level := Z.of_nat (noisy args) in
  (forall w1 e1 o w2 e2,
      runs rescan w level (Ret tt) w1 e1 ->
      runs (selected args) w1 level o w2 e2 ->
      exists checks,
        runs_to (main argv) w n o w2 level
                (EvRun platform_command :: checks ++ e1 ++ e2)
        /\ actions checks = [EvRun "which systool"; EvRun systool_drivers])
  /\ (forall c w1 e1,
         runs rescan w level (Exit c) w1 e1 ->
         exists checks,
           runs_to (main argv) w n (Exit c) w1 level
                   (EvRun platform_command :: checks ++ e1)
           /\ actions checks = [EvRun "which systool"; EvRun systool_drivers]).
Proof.
  intros Hready Hasks Hstatus Hrescan level.
  pose proof Hready as ((p0 & Hrun & Hlpar) & _).
  pose proof (runs_platform_ok w n p0 Hrun Hlpar) as Hgate.
  split.
  - intros w1 e1 o w2 e2 R1 R2.
    destruct (after_options_ready args w level o w2 (e1 ++ e2) Hready)
      as (checks & R & _ & A & _).
    { rewrite Hstatus, Hrescan. eapply runs_bind; eassumption. }
    exists checks. split; [|exact A].
    exact (main_operates argv args w n _ o w2 _ Hgate Hasks R).
  - intros c w1 e1 R1.
    destruct (after_options_ready args w level (Exit c) w1 e1 Hready)
      as (checks & R & _ & A & _).
    { rewrite Hstatus, Hrescan. now apply runs_bind_exit. }
    exists checks. split; [|exact A].
    exact (main_operates argv args w n _ _ w1 _ Hgate Hasks R).
Qed.

(** X22.  When the node, or the partition, resolves to a device path
    that is not empty, [querynode] and [queryconsole] go on with
    [displaybypath] for that path and end as it ends, in the world it
    leaves: an exit of [displaybypath] is theirs, and the number it
    returns is dropped.  Before that they do nothing but the test of
    the node in /dev and the run of systool, and report no error. *)
Theorem queries_display_the_resolved_adapter (w : W) n device_path o w' shown :
  runs (displaybypath device_path) w n o w' shown ->
  (forall parameter,
      resolves_to w parameter device_path ->
      exists found,
        runs (querynode parameter) w n (forget o) w' (found ++ shown)
        /\ actions found = [EvExists (dev_node parameter); EvRun systool_index]
        /\ errors found = []
        /\ ((n <= 1)%Z -> printed found = []))
  /\ (forall partition proc,
         run_command w "systool -b vio -D -A current_vty -p" = Started proc ->
         returncode proc = 0%Z ->
         partition_scan partition (splitlines (stdout proc))
                        EmptyString EmptyString EmptyString EmptyString
         = Some device_path ->
         device_path <> EmptyString ->
         exists found,
           runs (queryconsole partition) w n (forget o) w' (found ++ shown)
           /\ actions found = [EvRun "systool -b vio -D -A current_vty -p"]
           /\ errors found = []
           /\ ((n <= 1)%Z -> printed found = [])).
Proof.
  intros Hshow. split.
  - intros parameter Hres.
    now apply (runs_querynode_mapped w n parameter device_path).
  - intros partition proc Hrun Hrc Hscan Hne.
    now apply (runs_queryconsole_mapped w n partition proc device_path).
Qed.

(** X23.  When /dev cannot be listed, or when none of its names ends
    with the node prefix and one digit, [status] resolves nothing: it
    runs no command, reports no error, prints that no adapter was found
    and returns normally. *)
Theorem status_without_nodes_finds_nothing (w : W) n :
  match listdir w "/dev" with
  | Some names => Forall (fun entry => search RE_ENTRY entry = None) names
  | None => True
  end ->
  exists said,
    runs status w n (Ret tt) w
         (EvListdir "/dev" :: said
            ++ [EvPrint Stdout (APP_NAME ++ ": no hvcs adapters found." ++ nl)])
    /\ actions said = [] /\ errors said = []
    /\ ((n <= 1)%Z -> printed said = []).
Proof.
  intros H. destruct (runs_status_nothing w n H) as (said & R & A & E & Q).
  exists said. now repeat split.
Qed.

End Further.

(** ** The further properties on the example worlds *)

Section FurtherWitnesses.
Import Fixture Scenario Rules Exec.
Local Open Scope list_scope.

Lemma adapter_name_starts_at_the_last_three_witness :
  search RE_VTY_SERVER_HEX "/sys/devices/vio/30000032" = Some ["32"%string]
  /\ search RE_VTY_SERVER_DEC "/sys/devices/vio/30000032" = Some ["32"%string].
Proof.
  assert (Hpre : "/sys/devices/vio/300000"%string <> EmptyString) by discriminate.
  assert (Hh : "2"%string <> EmptyString) by discriminate.
  destruct (adapter_name_starts_at_the_last_three
              "/sys/devices/vio/300000" "2" Hpre eq_refl Hh eq_refl)
    as [Hx Hd].
  split; [exact (Hx eq_refl) | exact (Hd eq_refl)].
Defined.

Lemma resolves_hex :
  resolves_to w_hex "/dev/hvcs0" "/sys/devices/vio/3000000a".
Proof.
  repeat split; try reflexivity; [|discriminate].
  exists (ran vio_index_hex). repeat split; reflexivity.
Defined.

Lemma closedevice_names_no_hex_adapter_witness :
  let w' := snd (write_file w_hex (vstate "/sys/devices/vio/3000000a") "0") in
  read_file w_hex (vstate "/sys/devices/vio/3000000a") = Some (eol "1")
  /\ read_file w' (vstate "/sys/devices/vio/3000000a") = Some "0"%string
  /\ exists evs,
       runs (closedevice "/dev/hvcs0") w_hex 1 (Ret tt) w'
            (evs ++ [EvPrint Stdout
                       ("hvcsadmin: /dev/node/hvcs0 is mapped to vty-server@."
                          ++ nl);
                     EvPrint Stdout
                       ("hvcsadmin: closed vty-server@ partner adapter connection."
                          ++ nl)]).
Proof.
  cbv zeta. split; [reflexivity|]. split; [reflexivity|].
  assert (Hnz : strip (eol "1") <> "0"%string) by (vm_compute; discriminate).
  assert (Hnl : "a"%char <> newline) by discriminate.
  assert (Hw : write_file w_hex (vstate "/sys/devices/vio/3000000a") "0"
               = (true, snd (write_file w_hex
                                        (vstate "/sys/devices/vio/3000000a") "0")))
    by reflexivity.
  destruct (closedevice_names_no_hex_adapter
              w_hex 1 "/dev/hvcs0" "/sys/devices/vio/3000000" "a" (eol "1") true
              (snd (write_file w_hex (vstate "/sys/devices/vio/3000000a") "0"))
              "0" resolves_hex eq_refl eq_refl Hnz Hw eq_refl eq_refl
              eq_refl Hnl eq_refl)
    as (evs & R & _).
  exists evs. exact R.
Defined.

Lemma displaybypath_shows_the_adapter_witness :
  exists said,
    runs (displaybypath "/sys/devices/vio/30000005") w0 0 (Ret 0%Z) w0
         (said ++ [EvPrint Stdout
                     ("vty-server@30000005 partition:15 slot:1 /dev/hvcs1 vterm-state:1"
                        ++ nl)])
    /\ printed said = [].
Proof.
  assert (Hpre : "/sys/devices/vio/"%string <> EmptyString) by discriminate.
  assert (Fh : filled xdigit "0000005") by (split; [discriminate | reflexivity]).
  assert (F1 : filled word "U9406") by (split; [discriminate | reflexivity]).
  assert (F2 : filled word "520") by (split; [discriminate | reflexivity]).
  assert (F3 : filled word "100048A") by (split; [discriminate | reflexivity]).
  assert (Fp : filled digit "15") by (split; [discriminate | reflexivity]).
  assert (Fs : filled digit "1") by (split; [discriminate | reflexivity]).
  assert (Hex : Forall (fun a => path_exists w0 (path_join
                          "/sys/devices/vio/30000005" a) = true)
                       displayed_attributes)
    by (repeat constructor).
  destruct (displaybypath_shows_the_adapter
              w0 0 "/sys/devices/vio/" "0000005" EmptyString nl
              "U9406" "520" "100048A" "15" "1" (eol "1") (eol "1")
              Hpre eq_refl Fh eq_refl Hex eq_refl eq_refl eq_refl
              F1 F2 F3 Fp Fs eq_refl eq_refl)
    as (said & R & _ & _ & Q).
  exists said. split; [exact R | apply Q; discriminate].
Defined.

Lemma displaybypath_needs_its_attributes_witness :
  path_exists w_partial "/sys/devices/vio/30000004/vterm_state" = true
  /\ exists evs,
       runs (displaybypath "/sys/devices/vio/30000004") w_partial 0
            (Exit 1%Z) w_partial evs
       /\ actions evs = [EvExists "/sys/devices/vio/30000004/current_vty";
                         EvExists "/sys/devices/vio/30000004/index"]
       /\ errors evs
          = [("hvcsadmin: /sys/devices/vio/30000004/index attribute does not exist."
                ++ nl)%string].
Proof.
  split; [reflexivity|].
  assert (Hne : "/sys/devices/vio/30000004"%string <> EmptyString)
    by discriminate.
  assert (Hex : Forall (fun a => path_exists w_partial (path_join
                          "/sys/devices/vio/30000004" a) = true)
                       ["current_vty"%string])
    by (repeat constructor).
  destruct (displaybypath_needs_its_attributes
              w_partial 0 "/sys/devices/vio/30000004" ["current_vty"%string]
              "index" ["vterm_state"%string] Hne eq_refl Hex eq_refl)
    as (evs & R & A & E & _).
  exists evs. split; [exact R|]. split; [exact A | exact E].
Defined.

Lemma mutations_are_silent_at_noise_zero_witness :
  exists o w' evs,
    runs (closedevice "/dev/hvcs1") w0 0 o w' evs /\ printed evs = [].
Proof.
  exact (proj2 (proj2 (mutations_are_silent_at_noise_zero w0 0 (Z.le_refl 0)))
               "/dev/hvcs1"%string).
Defined.

Lemma unmapped_node_ends_silently_witness :
  path_exists w_unmapped "/dev/hvcs5" = true
  /\ (exists evs,
         runs (closedevice "/dev/hvcs5") w_unmapped 0 (Exit 1%Z) w_unmapped evs
         /\ errors evs = [] /\ printed evs = [])
  /\ (exists evs,
         runs (querynode "/dev/hvcs5") w_unmapped 0 (Ret tt) w_unmapped evs
         /\ errors evs = [] /\ printed evs = []).
Proof.
  split; [reflexivity|].
  assert (Hchecks : checks_pass w_unmapped "/dev/hvcs5")
    by (repeat split; reflexivity).
  assert (Hnone : none_such (index_match (getindex "/dev/hvcs5"))
                            (splitlines (stdout (ran vio_index))))
    by (apply (proj2 (index_scan_spec _ _)); reflexivity).
  assert (Hrun : run_command w_unmapped systool_index = Started (ran vio_index))
    by reflexivity.
  destruct (unmapped_node_ends_silently w_unmapped 0 "/dev/hvcs5"
              (ran vio_index) Hchecks Hrun eq_refl Hnone)
    as [(e1 & R1 & _ & E1 & Q1) (e2 & R2 & _ & E2 & Q2)].
  split; [exists e1 | exists e2]; repeat split;
    assumption || (apply Q1 || apply Q2); discriminate.
Defined.


Lemma driver_check_agrees_with_rescan_witness :
  (exists evs,
      runs is_driver_installed w0 0 (Ret "/sys/bus/vio/drivers/hvcs"%string)
           w0 evs
      /\ errors evs = [])
  /\ exists w' evs more,
       runs rescan w0 0 (Ret tt) w' evs
       /\ actions evs
          = EvRun systool_drivers
              :: EvWrite "/sys/bus/vio/drivers/hvcs/rescan" "1" :: more.
Proof.
  assert (Hrun : run_command w0 systool_drivers = Started (ran vio_drivers))
    by reflexivity.
  destruct (driver_check_agrees_with_rescan w0 0 (ran vio_drivers)
                                            Hrun eq_refl)
    as [(e1 & R1 & _ & _ & E1) (w' & e2 & R2 & more & A2)].
  split.
  - exists e1. split; [exact R1 | apply E1; discriminate].
  - now exists w', e2, more.
Defined.

Lemma environment_is_read_back_witness :
  let bindings := [ ("platform", "4"); ("A", "b=c"); ("EMPTY", "");
                    ("platform", "2") ]%string in
  read_env (split NUL (env0 bindings)) []
  = [ ("platform", "2"); ("EMPTY", ""); ("A", "b=c"); ("platform", "4") ]%string
  /\ dict_get "platform" (read_env (split NUL (env0 bindings)) [])
     = Some "2"%string.
Proof.
  cbv zeta.
  destruct (environment_is_read_back
              [ ("platform", "4"); ("A", "b=c"); ("EMPTY", "");
                ("platform", "2") ]%string eq_refl) as [E G].
  split; [exact E | exact (G "platform"%string)].
Defined.

Lemma lpar_on : on_lpar (platform_env (ran lpar_env)).
Proof. exists "4"%string, "4"%string, 4%Z. repeat split; reflexivity. Defined.

Lemma powernv_off : ~ on_lpar (platform_env (ran powernv_env)).
Proof.
  intros (a & b & x & Ha & Hb & Hx & Hy).
  vm_compute in Ha, Hb. injection Ha as <-. injection Hb as <-.
  vm_compute in Hx, Hy. congruence.
Defined.

Lemma lpar_ready : ready lpar.
Proof.
  split; [|split].
  - exists (ran lpar_env). split; [reflexivity | exact lpar_on].
  - exists (ran (eol "/usr/bin/systool")). split; [reflexivity | discriminate].
  - exists (ran vio_drivers). split; [reflexivity|]. split; [reflexivity|].
    discriminate.
Defined.

Lemma platform_check_compares_numbers_witness :
  runs load_platform_env_and_check lpar 0 (Ret tt) lpar [EvRun bash_command]
  /\ runs load_platform_env_and_check powernv 0 (Exit 1%Z) powernv
          [EvRun bash_command;
           EvPrint Stdout
                   ("hvcsadmin: is not supported on the PowerNV Host platform"
                      ++ nl)]
  /\ runs load_platform_env_and_check w0 0 (Exit 1%Z) w0
          [EvRun bash_command; EvPrint Stderr msg_no_platform].
Proof.
  assert (H1 : run_command lpar platform_command = Started (ran lpar_env))
    by reflexivity.
  assert (H2 : run_command powernv platform_command = Started (ran powernv_env))
    by reflexivity.
  assert (H3 : run_command w0 platform_command
               = Started (Completed 1 EmptyString "no such command"))
    by reflexivity.
  split; [|split].
  - exact (proj1 (platform_check_compares_numbers lpar 0 _ H1) lpar_on).
  - refine (proj2 (proj2 (platform_check_compares_numbers powernv 0 _ H2))
                  _ _ powernv_off); discriminate.
  - exact (proj1 (proj2 (platform_check_compares_numbers w0 0 _ H3))
                 (or_introl eq_refl)).
Defined.

Lemma main_checks_the_platform_first_witness :
  exists said,
    runs_to (main ["-help"%string]) powernv 0 (Exit 1%Z) powernv 0
            (EvRun bash_command :: said)
    /\ (said = [EvPrint Stderr msg_no_platform]
        \/ said = [EvPrint Stdout
                     (msg_unsupported (platform_env (ran powernv_env)))]).
Proof.
  assert (H : run_command powernv platform_command = Started (ran powernv_env))
    by reflexivity.
  exact (main_checks_the_platform_first powernv 0 _ ["-help"%string] H
                                        powernv_off).
Defined.

Lemma main_help_and_version_do_nothing_else_witness :
  (exists help,
      runs_to (main ["-all"; "-help"]%string) lpar 0 (Ret tt) lpar 0
              (EvRun bash_command :: help)
      /\ actions help = [])
  /\ runs_to (main ["-version"; "-status"]%string) lpar 0 (Ret tt) lpar 0
             [EvRun bash_command;
              EvPrint Stdout ("IBM hvcsadmin version 1.0.0" ++ nl);
              EvPrint Stdout ("Copyright (C) 2004, IBM Corporation." ++ nl);
              EvPrint Stdout ("Author(s) Ryan S. Arnold" ++ nl)].
Proof.
  assert (H : run_command lpar platform_command = Started (ran lpar_env))
    by reflexivity.
  split.
  - destruct (proj1 (main_help_and_version_do_nothing_else
                       lpar 0 _ ["-all"; "-help"]%string _ H lpar_on eq_refl)
                    (or_intror eq_refl))
      as (help & R & _ & A & _).
    now exists help.
  - refine (proj2 (main_help_and_version_do_nothing_else
                     lpar 0 _ ["-version"; "-status"]%string _ H lpar_on eq_refl)
                  _ eq_refl eq_refl).
    discriminate.
Defined.

Lemma main_status_excludes_the_rest_witness :
  exists o checks shown,
    runs_to (main ["-status"; "-all"; "-rescan"]%string) lpar 0 o lpar 0
            (EvRun bash_command :: checks ++ shown)
    /\ runs status lpar 0 o lpar shown
    /\ writes (checks ++ shown) = [].
Proof.
  assert (Hasks : asks ["-status"; "-all"; "-rescan"]%string
                       (set_rescan (set_all (set_status no_options))))
    by (repeat split; try reflexivity; discriminate).
  destruct (main_status_excludes_the_rest lpar 0 _ _ lpar_ready Hasks eq_refl)
    as (o & checks & shown & R & S & _ & Hw).
  now exists o, checks, shown.
Defined.

Lemma main_ignores_shadowed_options_witness :
  main ["-status"; "-all"; "-close"; "/dev/hvcs1"]%string (State lpar 0 [])
  = main ["-status"]%string (State lpar 0 []).
Proof.
  exact (main_ignores_shadowed_options
           ["-status"; "-all"; "-close"; "/dev/hvcs1"]%string ["-status"]%string
           _ _ eq_refl eq_refl eq_refl (State lpar 0 [])).
Defined.

Lemma main_needs_systool_and_the_driver_witness :
  (exists said,
      runs_to (main ["-all"]%string) lpar_bare 0 (Exit 1%Z) lpar_bare 0
              (EvRun bash_command :: said)
      /\ actions said = [EvRun "which systool"])
  /\ (exists said,
         runs_to (main ["-all"]%string) lpar_unloaded 0 (Exit 1%Z)
                 lpar_unloaded 0 (EvRun bash_command :: said)
         /\ actions said = [EvRun "which systool"; EvRun systool_drivers]).
Proof.
  assert (Hasks : asks ["-all"]%string (set_all no_options))
    by (repeat split; try reflexivity; discriminate).
  assert (H1 : run_command lpar_bare platform_command = Started (ran lpar_env))
    by reflexivity.
  assert (W1 : run_command lpar_bare "which systool"
               = Started (Completed 1 EmptyString "no such command"))
    by reflexivity.
  assert (H2 : run_command lpar_unloaded platform_command
               = Started (ran lpar_env)) by reflexivity.
  assert (W2 : run_command lpar_unloaded "which systool"
               = Started (ran (eol "/usr/bin/systool"))) by reflexivity.
  assert (S2 : run_command lpar_unloaded systool_drivers
               = Started (ran EmptyString)) by reflexivity.
  assert (N2 : strip (stdout (ran (eol "/usr/bin/systool"))) <> EmptyString)
    by discriminate.
  split.
  - destruct (proj1 (main_needs_systool_and_the_driver
                       lpar_bare 0 _ _ _ _ H1 lpar_on Hasks W1) eq_refl)
      as (said & R & A & _).
    now exists said.
  - destruct (proj2 (main_needs_systool_and_the_driver
                       lpar_unloaded 0 _ _ _ _ H2 lpar_on Hasks W2)
                    _ N2 S2 eq_refl eq_refl)
      as (said & R & A & _).
    now exists said.
Defined.

Lemma main_rescans_before_the_operation_witness :
  exists w1 e1 w2 e2 checks,
    runs rescan lpar 1 (Ret tt) w1 e1
    /\ runs closeall w1 1 (Ret tt) w2 e2
    /\ runs_to (main ["-rescan"; "-noisy"; "-all"]%string) lpar 0 (Ret tt) w2 1
               (EvRun bash_command :: checks ++ e1 ++ e2)
    /\ commands_run (e1 ++ e2)
       = [systool_drivers; "systool -b vio -D -A vterm_state -p"%string].
Proof.
  assert (Hasks : asks ["-rescan"; "-noisy"; "-all"]%string
                       (set_all (count_noisy (set_rescan no_options))))
    by (repeat split; try reflexivity; discriminate).
  assert (T : forall (n : Z) (e : event), True) by (intros; exact Logic.I).
  pose (s1 := snd (rescan (State lpar 1 []))).
  pose (s2 := snd (closeall (State (world s1) 1 []))).
  assert (R1 : runs rescan lpar 1 (Ret tt) (world s1) (log s1)).
  { apply runs_from_nil; [|vm_compute; reflexivity].
    apply framed_by_rule, obeys_rescan; auto. }
  assert (R2 : runs closeall (world s1) 1 (Ret tt) (world s2) (log s2)).
  { apply runs_from_nil; [|vm_compute; reflexivity].
    apply framed_by_rule, obeys_closeall; auto. }
  destruct (proj1 (main_rescans_before_the_operation
                     lpar 0 _ _ lpar_ready Hasks eq_refl eq_refl)
                  _ _ (Ret tt) _ _ R1 R2)
    as (checks & R & _).
  exists (world s1), (log s1), (world s2), (log s2), checks.
  split; [exact R1|]. split; [exact R2|]. split; [exact R|].
  vm_compute. reflexivity.
Defined.

Lemma queries_display_the_resolved_adapter_witness :
  (exists found shown,
      runs (querynode "/dev/hvcs1") w0 0 (Ret tt) w0 (found ++ shown)
      /\ runs (displaybypath "/sys/devices/vio/30000005") w0 0 (Ret 0%Z) w0 shown
      /\ printed found = [])
  /\ (exists found shown,
         runs (queryconsole "15") w0 0 (Ret tt) w0 (found ++ shown)
         /\ runs (displaybypath "/sys/devices/vio/30000004") w0 0 (Ret 0%Z) w0
                 shown
         /\ printed found = []).
Proof.
  assert (T : forall (n : Z) (e : event), True) by (intros; exact Logic.I).
  assert (F : forall path, framed (@displaybypath sim _ path))
    by (intros path; apply framed_by_rule, obeys_displaybypath; auto).
  pose (s1 := snd (displaybypath "/sys/devices/vio/30000005" (State w0 0 []))).
  pose (s2 := snd (displaybypath "/sys/devices/vio/30000004" (State w0 0 []))).
  assert (R1 : runs (displaybypath "/sys/devices/vio/30000005") w0 0 (Ret 0%Z)
                    w0 (log s1))
    by (apply runs_from_nil; [apply F | vm_compute; reflexivity]).
  assert (R2 : runs (displaybypath "/sys/devices/vio/30000004") w0 0 (Ret 0%Z)
                    w0 (log s2))
    by (apply runs_from_nil; [apply F | vm_compute; reflexivity]).
  assert (Hres : resolves_to w0 "/dev/hvcs1" "/sys/devices/vio/30000005").
  { repeat split; try reflexivity; [|discriminate].
    exists (ran vio_index). repeat split; reflexivity. }
  assert (Hrun : run_command w0 "systool -b vio -D -A current_vty -p"
                 = Started (ran vio_current_vty)) by reflexivity.
  assert (Hne : "/sys/devices/vio/30000004"%string <> EmptyString)
    by discriminate.
  split.
  - destruct (proj1 (queries_display_the_resolved_adapter
                       w0 0 _ _ _ _ R1) "/dev/hvcs1"%string Hres)
      as (found & R & _ & _ & Q).
    exists found, (log s1). split; [exact R|]. split; [exact R1|].
    apply Q. discriminate.
  - destruct (proj2 (queries_display_the_resolved_adapter
                       w0 0 _ _ _ _ R2) "15"%string _ Hrun eq_refl eq_refl Hne)
      as (found & R & _ & _ & Q).
    exists found, (log s2). split; [exact R|]. split; [exact R2|].
    apply Q. discriminate.
Defined.

Lemma status_without_nodes_finds_nothing_witness :
  listdir w_no_nodes "/dev" = Some ["tty1"; "hvcs10"; "hvcs"; "hvcs1x"]%string
  /\ exists said,
       runs status w_no_nodes 0 (Ret tt) w_no_nodes
            (EvListdir "/dev" :: said
               ++ [EvPrint Stdout ("hvcsadmin: no hvcs adapters found." ++ nl)])
       /\ actions said = [] /\ printed said = [].
Proof.
  split; [reflexivity|].
  assert (H : Forall (fun entry => search RE_ENTRY entry = None)
                     ["tty1"; "hvcs10"; "hvcs"; "hvcs1x"]%string)
    by (repeat constructor).
  pose proof (status_without_nodes_finds_nothing w_no_nodes 0 H) as S.
  destruct S as (said & R & A & _ & Q).
  exists said. split; [exact R|]. split; [exact A|]. apply Q. discriminate.
Defined.

End FurtherWitnesses.
